(** * Document-Translator: a shallow embedding of the translation pipeline

    The development follows the three modules of the repository:
    - [src/translator.py]          (class [DocumentTranslator]),
    - [src/document_processor.py]  (class [DocumentProcessor]),
    - [src/utils.py]               (class [DocumentUtils]).

    Python [str] values are modelled by [string]: a sequence of code points
    below 256 (the Latin-1 block of Unicode), on which [len], [strip],
    [split], [join] and [lower] are written out.  Python [int] is [Z].
    The dicts a method returns are records, one field per key; the dicts
    the classes use as lookup tables are finite maps.  Everything
    the code obtains from outside the repository (langdetect,
    deep_translator, fitz, pypdf, python-docx, docx2python, fpdf, codecs,
    the [re] engine, the clock, the file system) is a field of an
    environment record whose operations act on an abstract world and may
    raise; every such call is recorded in a trace. *)

From Stdlib Require Import ZArith QArith Ascii String Strings.Byte DecimalString List Lia Bool.
From stdpp Require Import base option list strings gmap.

Local Open Scope Z_scope.

(** ** Python built-ins on [str] *)

Module Py.

(** [str.isspace] on code points below 256: TAB..CR, FS..US, SPACE,
    NEL (0x85) and NBSP (0xA0). *)
Definition isspace (c : ascii) : bool :=
  let n := N_of_ascii c in
  ((9 <=? n)%N && (n <=? 13)%N) || ((28 <=? n)%N && (n <=? 32)%N)
  || (n =? 133)%N || (n =? 160)%N.

(** [len(s)] *)
Definition len (s : string) : Z := Z.of_nat (String.length s).

(** [s.lstrip()], [s.rstrip()], [s.strip()] *)
Fixpoint lstrip (s : string) : string :=
  match s with
  | String c s' => if isspace c then lstrip s' else s
  | EmptyString => EmptyString
  end.

Fixpoint rstrip (s : string) : string :=
  match s with
  | String c s' =>
      match rstrip s' with
      | EmptyString => if isspace c then EmptyString else String c EmptyString
      | r => String c r
      end
  | EmptyString => EmptyString
  end.

Definition strip (s : string) : string := rstrip (lstrip s).

(** Truth value of a [str]: only the empty string is falsy. *)
Definition truthy (s : string) : bool :=
  match s with EmptyString => false | _ => true end.

(** [sep.join(l)] *)
Fixpoint join (sep : string) (l : list string) : string :=
  match l with
  | [] => ""
  | [x] => x
  | x :: rest => x +:+ sep +:+ join sep rest
  end.

(** [s.split()] with no argument: the maximal runs of non-whitespace. *)
Fixpoint split (s : string) : list string :=
  match s with
  | EmptyString => []
  | String c s' =>
      if isspace c then split s'
      else match s' with
           | EmptyString => [String c ""]
           | String d _ =>
               if isspace d then String c "" :: split s'
               else match split s' with
                    | w :: ws => String c w :: ws
                    | [] => [String c ""]
                    end
           end
  end.

(** [s.split(sep)] for a one-character separator: cut at every occurrence,
    empty pieces kept. *)
Fixpoint split_on (sep : ascii) (s : string) : list string :=
  match s with
  | EmptyString => [""]
  | String c s' =>
      if Ascii.eqb c sep then "" :: split_on sep s'
      else match split_on sep s' with
           | w :: ws => String c w :: ws
           | [] => [String c ""]
           end
  end.

(** [s.lower()] on code points below 256: A..Z and the upper-case letters
    0xC0..0xDE (0xD7, the multiplication sign, excepted) move up by 32. *)
Definition lower_char (c : ascii) : ascii :=
  let n := N_of_ascii c in
  if ((65 <=? n)%N && (n <=? 90)%N)
     || ((192 <=? n)%N && (n <=? 222)%N && negb (n =? 215)%N)
  then ascii_of_N (n + 32) else c.

Fixpoint lower (s : string) : string :=
  match s with
  | EmptyString => EmptyString
  | String c s' => String (lower_char c) (lower s')
  end.

(** [re.sub(r'\s+', ' ', s)]: every maximal whitespace run becomes one
    space. *)
Fixpoint collapse_ws (s : string) : string :=
  match s with
  | EmptyString => EmptyString
  | String c s' =>
      if isspace c then
        match s' with
        | String d _ => if isspace d then collapse_ws s' else String " " (collapse_ws s')
        | EmptyString => " "
        end
      else String c (collapse_ws s')
  end.

(** [s.splitlines()]: line boundaries are LF, CR, CR LF, VT, FF, FS, GS,
    RS and NEL; no empty last line. *)
Definition is_linebreak (c : ascii) : bool :=
  let n := N_of_ascii c in
  ((10 <=? n)%N && (n <=? 13)%N) || ((28 <=? n)%N && (n <=? 30)%N) || (n =? 133)%N.

Fixpoint splitlines (s : string) : list string :=
  match s with
  | EmptyString => []
  | String c s' =>
      if is_linebreak c then
        match s' with
        | String d s'' =>
            if (N_of_ascii c =? 13)%N && (N_of_ascii d =? 10)%N
            then "" :: splitlines s''
            else "" :: splitlines s'
        | EmptyString => [""]
        end
      else match s' with
           | EmptyString => [String c ""]
           | _ => match splitlines s' with
                  | w :: ws => String c w :: ws
                  | [] => [String c ""]
                  end
           end
  end.

(** [str(n)] for an [int] *)
Definition str_int (n : Z) : string := NilZero.string_of_int (Z.to_int n).

(** [s[:n]]: the first [n] characters, or all but the last [-n] when [n]
    is negative. *)
Fixpoint take (n : nat) (s : string) : string :=
  match n, s with
  | S n', String c s' => String c (take n' s')
  | _, _ => EmptyString
  end.

Definition slice_to (s : string) (n : Z) : string :=
  if 0 <=? n then take (Z.to_nat n) s
  else take (Z.to_nat (len s + n)) s.

(** [s.split(sep)] for a separator of one or more characters: cut at the
    leftmost occurrences, which do not overlap; [skip] counts the
    characters of an occurrence still to pass over. *)
Fixpoint split_str_go (sep : string) (skip : nat) (s : string) : list string :=
  match s with
  | EmptyString => [""]
  | String c s' =>
      match skip with
      | S k => split_str_go sep k s'
      | O =>
          if String.prefix sep s
          then "" :: split_str_go sep (String.length sep - 1) s'
          else match split_str_go sep 0 s' with
               | w :: ws => String c w :: ws
               | [] => [String c ""]
               end
      end
  end.

Definition split_str (sep s : string) : list string := split_str_go sep 0 s.

(** [PurePosixPath(p).name]: the last component of the path, the empty
    components and the components "." left aside. *)
Definition path_name (p : string) : string :=
  List.last
    (List.filter (fun c => negb (String.eqb c "") && negb (String.eqb c "."))
                 (split_on "/" p))
    "".

(** The part of [s] from its last "." on, if it has one. *)
Fixpoint from_last_dot (s : string) : option string :=
  match s with
  | EmptyString => None
  | String c s' =>
      match from_last_dot s' with
      | Some r => Some r
      | None => if Ascii.eqb c "." then Some s else None
      end
  end.

(** [PurePosixPath(p).suffix]: [name[i:]] for the last dot [i] of the
    name when [0 < i < len(name) - 1], else the empty string. *)
Definition path_suffix (p : string) : string :=
  let name := path_name p in
  match from_last_dot name with
  | Some r =>
      if (1 <? String.length r)%nat && (String.length r <? String.length name)%nat
      then r else ""
  | None => ""
  end.

End Py.

(** ** Exceptions, effects and the trace of outside calls *)

(** The subclasses of [Exception] the handlers of the code tell apart;
    [OtherException] stands for every other subclass.  Exceptions outside
    [Exception] (KeyboardInterrupt, SystemExit) are not modelled. *)
Inductive exn :=
| LangDetectException (msg : string)
| ValueError (msg : string)
| UnicodeDecodeError (msg : string)
| TypeError (msg : string)
| OtherException (msg : string).

(** [str(e)] *)
Definition str_exn (e : exn) : string :=
  match e with
  | LangDetectException m | ValueError m | UnicodeDecodeError m
  | TypeError m | OtherException m => m
  end.

Inductive outcome (A : Type) :=
| Ok (a : A)
| Raise (e : exn).
Arguments Ok {A} a.
Arguments Raise {A} e.

(** The translator classes of deep_translator held in [self.backends]. *)
Inductive translator_class :=
| GoogleTranslator | MicrosoftTranslator | LibreTranslator | MyMemoryTranslator.

(** One entry per call that leaves the module under study. *)
Inductive event :=
| EvDetect (text : string)                       (* langdetect.detect *)
| EvDetectLangs (text : string)                  (* langdetect.detect_langs *)
| EvChunker (text : string) (chunk_size : Z)     (* self._split_text_into_chunks *)
| EvNewTranslator (cls : translator_class) (source target : string)
| EvTranslate (cls : translator_class) (chunk : string)
| EvSleep                                        (* time.sleep *)
| EvLog (level msg : string)                     (* logger.<level>(msg) *)
| EvLib (name : string).                         (* any other library call *)

Record state (W : Type) := mkState { world : W; trace : list event }.
Arguments mkState {W} world trace.
Arguments world {W} s.
Arguments trace {W} s.

(** A computation reads and updates the state and returns or raises. *)
Definition M (W A : Type) : Type := state W -> outcome A * state W.

Definition ret {W A} (a : A) : M W A := fun st => (Ok a, st).

Definition raise {W A} (e : exn) : M W A := fun st => (Raise e, st).

Definition bind {W A B} (m : M W A) (k : A -> M W B) : M W B :=
  fun st =>
    match m st with
    | (Ok a, st') => k a st'
    | (Raise e, st') => (Raise e, st')
    end.

(** [try: body / except Exception as e: handler e] *)
Definition try_except {W A} (body : M W A) (handler : exn -> M W A) : M W A :=
  fun st =>
    match body st with
    | (Ok a, st') => (Ok a, st')
    | (Raise e, st') => handler e st'
    end.

(** An outside call: the event is recorded, then the operation runs on the
    world. *)
Definition call {W A} (ev : event) (op : W -> outcome A * W) : M W A :=
  fun st =>
    let (r, w') := op (world st) in
    (r, mkState w' (trace st ++ [ev])).

Definition log {W} (level msg : string) : M W unit :=
  fun st => (Ok tt, mkState (world st) (trace st ++ [EvLog level msg])).

Declare Scope py_scope.
Delimit Scope py_scope with py.
Notation "x <- m ;; k" := (bind m (fun x => k))
  (at level 100, m at next level, right associativity) : py_scope.
Notation "m ;;; k" := (bind m (fun _ => k))
  (at level 100, right associativity) : py_scope.
Local Open Scope py_scope.

(** The events a computation adds to the trace when run from [st]. *)
Definition emitted {W A} (m : M W A) (st : state W) : list event :=
  drop (length (trace st)) (trace (snd (m st))).

(** ** src/translator.py *)

Module Translator.

(** The dict returned by [detect_language]; all four keys are present on
    every path.  [det_error] is the key 'error', [None] in it is Python's
    [None].  A float is a rational. *)
Record DetectionResult := mkDetection {
  language : string;
  confidence : Q;
  language_name : string;
  det_error : option string
}.

(** The dict returned by [translate_text].  [None] in [backend_used] and
    [error] is Python's [None]; [None] in [note] means the key is absent. *)
Record TranslationResult := mkTranslation {
  translated_text : string;
  source_language : string;
  target_language : string;
  backend_used : option string;
  chunks_processed : Z;
  error : option string;
  note : option string
}.

(** What the class uses from langdetect, [re] and deep_translator.  A
    translator constructor returns the object's [translate] method, which
    yields a [str] or [None]. *)
Record Env (W : Type) := mkEnv {
  langdetect_detect : string -> W -> outcome string * W;
  langdetect_detect_langs : string -> W -> outcome (list (string * Q)) * W;
  round2 : Q -> Q;                       (* round(x, 2) on floats *)
  re_sub_url : string -> string;         (* re.sub(<URL pattern>, '', s) *)
  re_sub_email : string -> string;       (* re.sub(<e-mail pattern>, '', s) *)
  new_translator : translator_class -> string -> string ->
                   W -> outcome (string -> W -> outcome (option string) * W) * W
}.
Arguments langdetect_detect {W} e.
Arguments langdetect_detect_langs {W} e.
Arguments round2 {W} e.
Arguments re_sub_url {W} e.
Arguments re_sub_email {W} e.
Arguments new_translator {W} e.

(** [self.supported_languages] *)
Definition supported_languages : gmap string string :=
  list_to_map [("en", "English"); ("hi", "Hindi"); ("mr", "Marathi"); ("sa", "Sanskrit")].

(** [self.language_mappings] *)
Definition language_mappings : gmap string (gmap string string) :=
  {[ "sa" := list_to_map [("google", "sa"); ("microsoft", "sa");
                          ("libre", "en"); ("mymemory", "sa")] ]}.

Definition _get_backend_language_code (lang_code backend : string) : string :=
  match language_mappings !! lang_code with
  | Some m => default lang_code (m !! backend)
  | None => lang_code
  end.

Definition _get_language_name (lang_code : string) : string :=
  let language_names : gmap string string :=
    list_to_map [("en", "English"); ("hi", "Hindi"); ("mr", "Marathi"); ("sa", "Sanskrit");
                 ("fr", "French"); ("es", "Spanish"); ("de", "German"); ("it", "Italian");
                 ("pt", "Portuguese"); ("ru", "Russian"); ("ja", "Japanese"); ("ko", "Korean");
                 ("zh", "Chinese"); ("ar", "Arabic"); ("th", "Thai"); ("vi", "Vietnamese")] in
  default ("Language (" +:+ lang_code +:+ ")") (language_names !! lang_code).

(** The loop of [_split_text_into_chunks] over [words], with the three
    local variables [chunks], [current_chunk] and [current_length]. *)
Fixpoint chunk_loop (chunk_size : Z) (words : list string)
    (chunks current_chunk : list string) (current_length : Z) : list string :=
  match words with
  | [] =>
      match current_chunk with
      | [] => chunks
      | _ => chunks ++ [Py.join " " current_chunk]
      end
  | word :: rest =>
      let word_length := Py.len word + 1 in
      if (current_length + word_length >? chunk_size)
         && match current_chunk with [] => false | _ => true end
      then chunk_loop chunk_size rest
             (chunks ++ [Py.join " " current_chunk]) [word] word_length
      else chunk_loop chunk_size rest
             chunks (current_chunk ++ [word]) (current_length + word_length)
  end.

Definition _split_text_into_chunks (text : string) (chunk_size : Z) : list string :=
  if Py.len text <=? chunk_size then [text]
  else chunk_loop chunk_size (Py.split text) [] [] 0.

Section Methods.
Context {W : Type} (E : Env W).

Definition _clean_text_for_detection (text : string) : string :=
  let clean_text := re_sub_url E text in
  let clean_text := re_sub_email E clean_text in
  let clean_text := Py.collapse_ws clean_text in
  Py.strip clean_text.

(** The [for prob in probs] loop of [_calculate_confidence]. *)
Fixpoint confidence_loop (probs : list (string * Q)) (detected_lang : string) : Q :=
  match probs with
  | [] => 1 # 2
  | (lang, prob) :: rest =>
      if decide (lang = detected_lang) then round2 E prob
      else confidence_loop rest detected_lang
  end.

Definition _calculate_confidence (text detected_lang : string) : M W Q :=
  try_except
    (probs <- call (EvDetectLangs text) (langdetect_detect_langs E text) ;;
     ret (confidence_loop probs detected_lang))
    (fun _ => ret (1 # 2)).

Definition detect_language (text : string) : M W DetectionResult :=
  try_except
    (let clean_text := _clean_text_for_detection text in
     if Py.len (Py.strip clean_text) <? 10 then
       ret (mkDetection "unknown" 0 "Unknown"
              (Some "Text too short for reliable detection"))
     else
       detected_lang <- call (EvDetect clean_text) (langdetect_detect E clean_text) ;;
       confidence <- _calculate_confidence clean_text detected_lang ;;
       let language_name :=
         default (_get_language_name detected_lang)
                 (supported_languages !! detected_lang) in
       ret (mkDetection detected_lang confidence language_name None))
    (fun e =>
       match e with
       | LangDetectException _ =>
           log "error" ("Language detection failed: " +:+ str_exn e) ;;;
           ret (mkDetection "unknown" 0 "Unknown"
                  (Some ("Detection failed: " +:+ str_exn e)))
       | _ =>
           log "error" ("Unexpected error in language detection: " +:+ str_exn e) ;;;
           ret (mkDetection "unknown" 0 "Unknown"
                  (Some ("Unexpected error: " +:+ str_exn e)))
       end).

(** The [if]/[elif] chain of [_translate_chunk] that picks the class. *)
Definition backend_class (backend : string) : option translator_class :=
  if decide (backend = "google") then Some GoogleTranslator
  else if decide (backend = "microsoft") then Some MicrosoftTranslator
  else if decide (backend = "libre") then Some LibreTranslator
  else if decide (backend = "mymemory") then Some MyMemoryTranslator
  else None.

Definition _translate_chunk (chunk target_lang source_lang backend : string)
  : M W string :=
  try_except
    (let backend_target := _get_backend_language_code target_lang backend in
     let backend_source :=
       if decide (source_lang <> "auto")
       then _get_backend_language_code source_lang backend
       else source_lang in
     match backend_class backend with
     | Some cls =>
         translate <- call (EvNewTranslator cls backend_source backend_target)
                          (new_translator E cls backend_source backend_target) ;;
         translated <- call (EvTranslate cls chunk) (translate chunk) ;;
         ret (match translated with
              | Some t => if Py.truthy t then t else chunk
              | None => chunk
              end)
     | None => raise (ValueError ("Unsupported backend: " +:+ backend))
     end)
    (fun e =>
       log "error" ("Chunk translation failed with " +:+ backend +:+ ": " +:+ str_exn e) ;;;
       ret chunk).

(** The inner loop [for i, chunk in enumerate(chunks)] of [translate_text];
    [n] is [len(chunks)] of the whole list. *)
Fixpoint translate_chunks (i n : Z) (chunks : list string)
    (target_lang source_lang attempt_backend : string) : M W (list string) :=
  match chunks with
  | [] => ret []
  | chunk :: rest =>
      translated_chunk <- _translate_chunk chunk target_lang source_lang attempt_backend ;;
      (if i <? n - 1 then call EvSleep (fun w => (Ok tt, w)) else ret tt) ;;;
      more <- translate_chunks (i + 1) n rest target_lang source_lang attempt_backend ;;
      ret (translated_chunk :: more)
  end.

(** The outer loop [for attempt_backend in [...]]: [Some] carries
    [backend_used] and [translated_chunks] when [backend_success] is set,
    [None] is the loop running out. *)
Fixpoint try_backends (candidates : list string) (chunks : list string)
    (target_lang source_lang : string) : M W (option (string * list string)) :=
  match candidates with
  | [] => ret None
  | attempt_backend :: rest =>
      try_except
        (translated_chunks <- translate_chunks 0 (Z.of_nat (length chunks)) chunks
                                target_lang source_lang attempt_backend ;;
         ret (Some (attempt_backend, translated_chunks)))
        (fun e =>
           log "warning" ("Backend " +:+ attempt_backend +:+ " failed: " +:+ str_exn e) ;;;
           try_backends rest chunks target_lang source_lang)
  end.

(** The block [if source_lang == 'auto': ...] of [translate_text]: the
    value of [source_lang] after it. *)
Definition resolve_source_lang (text source_lang : string) : M W string :=
  if decide (source_lang = "auto") then
    detection_result <- detect_language text ;;
    match det_error detection_result with
    | Some msg => if Py.truthy msg then ret "en" else ret (language detection_result)
    | None => ret (language detection_result)
    end
  else ret source_lang.

(** The last [except Exception] of [translate_text]; [source_lang] is the
    value the variable holds when the exception is raised. *)
Definition translation_failed (source_lang target_lang : string) (e : exn)
  : M W TranslationResult :=
  log "error" ("Translation failed: " +:+ str_exn e) ;;;
  ret (mkTranslation "" source_lang target_lang None 0
         (Some ("Translation failed: " +:+ str_exn e)) None).

(** [translate_text].  The source has one [try] around the whole body, and
    its handler reports [source_lang], a variable the body reassigns when
    it resolves 'auto'.  The handler is therefore attached twice: around
    the resolution, where the variable still holds the caller's value, and
    around what follows, where it holds the resolved one.  The test for
    blank input, which cannot raise, comes first. *)
Definition translate_text (text target_lang source_lang backend : string)
    (chunk_size : Z) : M W TranslationResult :=
  if negb (Py.truthy (Py.strip text)) then
    ret (mkTranslation "" source_lang target_lang (Some backend) 0
           (Some "Empty text provided") None)
  else
    step <- try_except
              (resolved <- resolve_source_lang text source_lang ;; ret (inl resolved))
              (fun e => r <- translation_failed source_lang target_lang e ;; ret (inr r)) ;;
    match step with
    | inr r => ret r
    | inl source_lang =>
      try_except
        (if decide (source_lang = target_lang) then
           ret (mkTranslation text source_lang target_lang (Some backend) 1 None
                  (Some "No translation needed - same language"))
         else
           (if bool_decide (target_lang = "sa") && bool_decide (backend = "google")
            then log "warning" "Sanskrit may have limited support in Google Translate"
            else ret tt) ;;;
           chunks <- call (EvChunker text chunk_size)
                       (fun w => (Ok (_split_text_into_chunks text chunk_size), w)) ;;
           attempt <- try_backends [backend; "google"; "libre"; "mymemory"]
                        chunks target_lang source_lang ;;
           match attempt with
           | None =>
               ret (mkTranslation "" source_lang target_lang None 0
                      (Some "All translation backends failed") None)
           | Some (backend_used, translated_chunks) =>
               let full_translation := Py.join " " translated_chunks in
               ret (mkTranslation full_translation source_lang target_lang
                      (Some backend_used) (Z.of_nat (length chunks)) None None)
           end)
        (translation_failed source_lang target_lang)
    end.

(** The loop [for i, text in enumerate(texts)] of [batch_translate]; [n] is
    [len(texts)].  [translate_text] runs with its default chunk size. *)
Fixpoint batch_loop (i n : Z) (texts : list string)
    (target_lang source_lang backend : string) : M W (list TranslationResult) :=
  match texts with
  | [] => ret []
  | text :: rest =>
      log "info" ("Translating text " +:+ Py.str_int (i + 1) +:+ "/" +:+ Py.str_int n) ;;;
      result <- translate_text text target_lang source_lang backend 5000 ;;
      (if i <? n - 1 then call EvSleep (fun w => (Ok tt, w)) else ret tt) ;;;
      more <- batch_loop (i + 1) n rest target_lang source_lang backend ;;
      ret (result :: more)
  end.

Definition batch_translate (texts : list string)
    (target_lang source_lang backend : string) : M W (list TranslationResult) :=
  batch_loop 0 (Z.of_nat (length texts)) texts target_lang source_lang backend.

End Methods.

End Translator.

(** ** src/document_processor.py *)

Module DocumentProcessor.

(** [file_path_or_bytes : Union[str, Path, bytes, io.BytesIO]] *)
Inductive file_input :=
| FilePath (path : string)
| RawBytes (content : list Byte.byte)
| BytesIO (content : list Byte.byte).

(** The dicts returned by the extraction methods.  [text] and [error] are
    present on every path ([None] in [error] is Python's [None]); [None] in
    one of the other fields means the key is absent from the dict. *)
Record ExtractionResult := mkExtraction {
  text : string;
  pages : option Z;
  paragraphs : option Z;
  tables : option Z;
  lines : option Z;
  method : option string;
  error : option string
}.

(** A document as python-docx presents it: the text of each paragraph, and
    for each table its rows of cell texts. *)
Record docx_document := mkDocx {
  doc_paragraphs : list string;
  doc_tables : list (list (list string))
}.

(** What the class uses from fitz, pypdf, python-docx, docx2python, the
    codecs and the file system.  A PDF document is the list of the
    text-extraction calls of its pages; the result of docx2python is the
    read of its property [text], made when the code makes it. *)
Record Env (W : Type) := mkEnv {
  fitz_open : string + list Byte.byte -> W -> outcome (list (W -> outcome string * W)) * W;
  fitz_close : W -> outcome unit * W;
  pypdf_PdfReader : file_input -> W -> outcome (list (W -> outcome string * W)) * W;
  docx_Document : file_input -> W -> outcome docx_document * W;
  docx2python_docx2python : string -> W -> outcome (W -> outcome string * W) * W;
  write_temp_file : string -> list Byte.byte -> W -> outcome string * W;
  os_unlink : string -> W -> outcome unit * W;
  read_text_file : string -> string -> W -> outcome string * W;
  bytes_decode : string -> list Byte.byte -> outcome string
}.
Arguments fitz_open {W} e.
Arguments fitz_close {W} e.
Arguments pypdf_PdfReader {W} e.
Arguments docx_Document {W} e.
Arguments docx2python_docx2python {W} e.
Arguments write_temp_file {W} e.
Arguments os_unlink {W} e.
Arguments read_text_file {W} e.
Arguments bytes_decode {W} e.

Section Methods.
Context {W : Type} (E : Env W).

(** [for page in pages: full_text += page_text() + "\n\n"] *)
Fixpoint pages_loop (page_texts : list (W -> outcome string * W)) (name : string)
    (full_text : string) : M W string :=
  match page_texts with
  | [] => ret full_text
  | page :: rest =>
      t <- call (EvLib name) page ;;
      pages_loop rest name (full_text +:+ t +:+ String "010" (String "010" ""))
  end.

Definition _extract_pdf_text (input : file_input) : M W ExtractionResult :=
  try_except
    (doc <- call (EvLib "fitz.open")
              (fitz_open E match input with
                           | FilePath p => inl p
                           | RawBytes b | BytesIO b => inr b
                           end) ;;
     let pages := Z.of_nat (length doc) in
     full_text <- pages_loop doc "page.get_text" "" ;;
     call (EvLib "doc.close") (fitz_close E) ;;;
     ret (mkExtraction (Py.strip full_text) (Some pages) None None None
            (Some "PyMuPDF") None))
    (fun e =>
       log "warning" ("PyMuPDF failed, trying pypdf: " +:+ str_exn e) ;;;
       try_except
         (reader_pages <- call (EvLib "pypdf.PdfReader") (pypdf_PdfReader E input) ;;
          full_text <- pages_loop reader_pages "page.extract_text" "" ;;
          ret (mkExtraction (Py.strip full_text)
                 (Some (Z.of_nat (length reader_pages))) None None None
                 (Some "pypdf") None))
         (fun e2 =>
            log "error" ("Both PDF extraction methods failed: " +:+ str_exn e2) ;;;
            ret (mkExtraction "" (Some 0) None None None (Some "none")
                   (Some ("PDF extraction failed: " +:+ str_exn e2))))).

(** The three nested loops of [_extract_docx_text] over paragraphs, rows
    and cells. *)
Definition docx_full_text (doc : docx_document) : string :=
  let full_text :=
    foldl (fun acc paragraph => acc +:+ paragraph +:+ String "010" "") ""
          (doc_paragraphs doc) in
  foldl (fun acc table =>
           foldl (fun acc row =>
                    foldl (fun acc cell => acc +:+ cell +:+ String "009" "") acc row
                    +:+ String "010" "")
                 acc table)
        full_text (doc_tables doc).

Definition _extract_docx_text (input : file_input) : M W ExtractionResult :=
  try_except
    (doc <- call (EvLib "docx.Document") (docx_Document E input) ;;
     ret (mkExtraction (Py.strip (docx_full_text doc)) None
            (Some (Z.of_nat (length (doc_paragraphs doc))))
            (Some (Z.of_nat (length (doc_tables doc)))) None
            (Some "python-docx") None))
    (fun e =>
       log "warning" ("python-docx failed, trying docx2python: " +:+ str_exn e) ;;;
       try_except
         (result <-
            match input with
            | FilePath p => call (EvLib "docx2python") (docx2python_docx2python E p)
            | RawBytes b | BytesIO b =>
                tmp_name <- call (EvLib "tempfile.NamedTemporaryFile")
                              (write_temp_file E ".docx" b) ;;
                result <- call (EvLib "docx2python")
                            (docx2python_docx2python E tmp_name) ;;
                call (EvLib "os.unlink") (os_unlink E tmp_name) ;;;
                ret result
            end ;;
          result_text <- call (EvLib "result.text") result ;;
          ret (mkExtraction result_text None None None None
                 (Some "docx2python") None))
         (fun e2 =>
            log "error" ("Both DOCX extraction methods failed: " +:+ str_exn e2) ;;;
            ret (mkExtraction "" None None None None (Some "none")
                   (Some ("DOCX extraction failed: " +:+ str_exn e2))))).

(** Reading the input as text in [encoding]: [open(...).read()] for a path,
    [.decode(encoding)] for bytes and for the value of a BytesIO. *)
Definition read_as (input : file_input) (encoding : string) : M W string :=
  match input with
  | FilePath p => call (EvLib "open.read") (read_text_file E p encoding)
  | RawBytes b | BytesIO b =>
      match bytes_decode E encoding b with
      | Ok s => ret s
      | Raise e => raise e
      end
  end.

(** The loop [for encoding in encodings] in the [UnicodeDecodeError]
    handler of [_extract_txt_text]; the bare [except] moves on. *)
Fixpoint encodings_loop (input : file_input) (encodings : list string)
  : M W ExtractionResult :=
  match encodings with
  | [] =>
      ret (mkExtraction "" None None None None (Some "none")
             (Some "Could not decode text file with any encoding"))
  | encoding :: rest =>
      try_except
        (text <- read_as input encoding ;;
         ret (mkExtraction text None None None
                (Some (Z.of_nat (length (Py.splitlines text))))
                (Some ("direct-" +:+ encoding)) None))
        (fun _ => encodings_loop input rest)
  end.

Definition _extract_txt_text (input : file_input) : M W ExtractionResult :=
  try_except
    (text <- read_as input "utf-8" ;;
     ret (mkExtraction text None None None
            (Some (Z.of_nat (length (Py.splitlines text))))
            (Some "direct") None))
    (fun e =>
       match e with
       | UnicodeDecodeError _ =>
           encodings_loop input ["utf-8"; "latin-1"; "cp1252"; "iso-8859-1"]
       | _ =>
           log "error" ("TXT extraction failed: " +:+ str_exn e) ;;;
           ret (mkExtraction "" None None None None (Some "none")
                  (Some ("TXT extraction failed: " +:+ str_exn e)))
       end).

Definition extract_text (input : file_input) (file_extension : string)
  : M W ExtractionResult :=
  try_except
    (let file_extension := Py.lower file_extension in
     if decide (file_extension = ".pdf") then _extract_pdf_text input
     else if decide (file_extension = ".docx") then _extract_docx_text input
     else if decide (file_extension = ".txt") then _extract_txt_text input
     else raise (ValueError ("Unsupported file format: " +:+ file_extension)))
    (fun e =>
       log "error" ("Error extracting text: " +:+ str_exn e) ;;;
       ret (mkExtraction "" (Some 0) None None None None (Some (str_exn e)))).

End Methods.

(** [self.supported_formats] *)
Definition supported_formats : gset string := {[ ".pdf"; ".docx"; ".txt" ]}.

(** The dict returned by [get_file_info]; [None] in [info_error] means the
    key 'error' is absent. *)
Record FileInfo := mkFileInfo {
  name : string;
  extension : string;
  size : Z;
  size_mb : Q;
  is_supported : bool;
  info_error : option string
}.

Section FileInfoMethod.
(** [stat_size p] is [Path(p).stat().st_size]; [round2] is [round(x, 2)]. *)
Context {W : Type} (stat_size : string -> W -> outcome Z * W) (round2 : Q -> Q).

(** [filename] is [None] or a [str].  [input_name] is the attribute
    [name] of an [io.BytesIO] given as input: [Some n] when the object has
    the attribute and it holds the [str] [n], [None] when it has no such
    attribute or the attribute is [None].  A plain [io.BytesIO] has none;
    the file object of an upload has one.  A [bytes] object has no
    attribute, so for it the test
    [hasattr(file_input, 'name') and file_input.name] fails. *)
Definition get_file_info (input : file_input) (input_name filename : option string)
  : M W FileInfo :=
  try_except
    (found <-
       match input with
       | FilePath p =>
           size <- call (EvLib "Path.stat") (stat_size p) ;;
           ret (Py.path_name p, Py.lower (Py.path_suffix p), size)
       | RawBytes b | BytesIO b =>
           let name_attribute :=
             match input with BytesIO _ => input_name | _ => None end in
           let '(name, extension) :=
             match name_attribute, filename with
             | Some (String _ _ as n), _ => (n, Py.lower (Py.path_suffix n))
             | _, Some (String _ _ as f) => (f, Py.lower (Py.path_suffix f))
             | _, _ => ("unknown", "")
             end in
           ret (name, extension, Z.of_nat (length b))
       end ;;
     let '(name, extension, size) := found in
     let is_supported := bool_decide (extension ∈ supported_formats) in
     ret (mkFileInfo name extension size
            (round2 (inject_Z size / inject_Z (1024 * 1024))%Q) is_supported None))
    (fun e =>
       ret (mkFileInfo
              (match filename with
               | Some f => if Py.truthy f then f else "unknown"
               | None => "unknown"
               end)
              "" 0 0 false (Some (str_exn e)))).

End FileInfoMethod.

End DocumentProcessor.

(** ** src/utils.py *)

Module DocumentUtils.

(** What [FPDF.output(dest='S')] hands back: a [bytearray] or a [str]. *)
Inductive py_buffer :=
| Bytearray (b : list Byte.byte)
| Str (s : string).

(** [bytes(x)]: a [str] without an encoding is a [TypeError]. *)
Definition to_bytes (x : py_buffer) : outcome (list Byte.byte) :=
  match x with
  | Bytearray b => Ok b
  | Str _ => Raise (TypeError "string argument without an encoding")
  end.

(** What [create_translated_pdf] uses from fpdf and datetime.  [P] is the
    type of references to [FPDF] objects, which live in the world. *)
Record Env (W P : Type) := mkEnv {
  FPDF : W -> outcome P * W;
  add_page : P -> W -> outcome unit * W;
  set_font : P -> string -> string -> Z -> W -> outcome unit * W;
  cell : P -> Z -> Z -> string -> bool -> string -> W -> outcome unit * W;
  ln : P -> Z -> W -> outcome unit * W;
  output : P -> string -> W -> outcome py_buffer * W;
  now_strftime : string -> W -> outcome string * W
}.
Arguments FPDF {W P} e.
Arguments add_page {W P} e.
Arguments set_font {W P} e.
Arguments cell {W P} e.
Arguments ln {W P} e.
Arguments output {W P} e.
Arguments now_strftime {W P} e.

Section Methods.
Context {W P : Type} (E : Env W P).

Definition lift {A} (r : outcome A) : M W A :=
  match r with Ok a => ret a | Raise e => raise e end.

(** [pdf.cell(w, h, txt, ln=True, align=...)] *)
Definition pdf_cell (pdf : P) (w h : Z) (txt align : string) : M W unit :=
  call (EvLib "FPDF.cell") (cell E pdf w h txt true align).

(** [for word in words] of the wrapping branch; returns [current_line] as
    the loop leaves it. *)
Fixpoint wrap_loop (pdf : P) (words : list string) (current_line : string)
  : M W string :=
  match words with
  | [] => ret current_line
  | word :: rest =>
      if Py.len (current_line +:+ word +:+ " ") >? 80 then
        (if Py.truthy current_line
         then pdf_cell pdf 0 6 (Py.strip current_line) ""
         else ret tt) ;;;
        wrap_loop pdf rest (word +:+ " ")
      else wrap_loop pdf rest (current_line +:+ word +:+ " ")
  end.

(** [for line in lines] *)
Fixpoint lines_loop (pdf : P) (lines : list string) : M W unit :=
  match lines with
  | [] => ret tt
  | line :: rest =>
      (if Py.truthy (Py.strip line) then
         if Py.len line >? 80 then
           current_line <- wrap_loop pdf (Py.split_on " " line) "" ;;
           if Py.truthy current_line
           then pdf_cell pdf 0 6 (Py.strip current_line) ""
           else ret tt
         else pdf_cell pdf 0 6 line ""
       else call (EvLib "FPDF.ln") (ln E pdf 3)) ;;;
      lines_loop pdf rest
  end.

(** The [try] block of [create_translated_pdf]. *)
Definition render_translation (original_filename translated_text
    source_lang target_lang : string) : M W (list Byte.byte) :=
  pdf <- call (EvLib "FPDF") (FPDF E) ;;
  call (EvLib "FPDF.add_page") (add_page E pdf) ;;;
  call (EvLib "FPDF.set_font") (set_font E pdf "Arial" "B" 16) ;;;
  pdf_cell pdf 0 10 ("Translation: " +:+ original_filename) "C" ;;;
  call (EvLib "FPDF.ln") (ln E pdf 5) ;;;
  call (EvLib "FPDF.set_font") (set_font E pdf "Arial" "I" 10) ;;;
  pdf_cell pdf 0 5 ("Translated from " +:+ source_lang +:+ " to " +:+ target_lang) "" ;;;
  now <- call (EvLib "datetime.now") (now_strftime E "%Y-%m-%d %H:%M:%S") ;;
  pdf_cell pdf 0 5 ("Generated on: " +:+ now) "" ;;;
  call (EvLib "FPDF.ln") (ln E pdf 10) ;;;
  call (EvLib "FPDF.set_font") (set_font E pdf "Arial" "" 12) ;;;
  lines_loop pdf (Py.split_on "010" translated_text) ;;;
  out <- call (EvLib "FPDF.output") (output E pdf "S") ;;
  lift (to_bytes out).

(** The [except Exception as e] block of [create_translated_pdf]. *)
Definition render_error_page (e : exn) : M W (list Byte.byte) :=
  log "error" ("Error creating PDF: " +:+ str_exn e) ;;;
  error_pdf <- call (EvLib "FPDF") (FPDF E) ;;
  call (EvLib "FPDF.add_page") (add_page E error_pdf) ;;;
  call (EvLib "FPDF.set_font") (set_font E error_pdf "Arial" "B" 16) ;;;
  pdf_cell error_pdf 0 10 "Translation Error" "C" ;;;
  call (EvLib "FPDF.set_font") (set_font E error_pdf "Arial" "" 12) ;;;
  pdf_cell error_pdf 0 10 ("Error creating translated PDF: " +:+ str_exn e) "" ;;;
  out <- call (EvLib "FPDF.output") (output E error_pdf "S") ;;
  lift (to_bytes out).

Definition create_translated_pdf (original_filename translated_text
    source_lang target_lang : string) : M W (list Byte.byte) :=
  try_except
    (render_translation original_filename translated_text source_lang target_lang)
    render_error_page.

End Methods.

(** The dict returned by [validate_file]; 'valid' and 'error' are always
    present, [None] in [size_mb] or [extension] means the key is absent. *)
Record Validation := mkValidation {
  valid : bool;
  size_mb : option Q;
  extension : option string;
  error : option string
}.

Section StaticMethods.
(** [fmt1] and [fmt2] render a float with one and two decimals
    ([f"{x:.1f}"], [f"{x:.2f}"]), [round2] is [round(x, 2)], and
    [formats_order] is the order in which the set of formats is iterated.
    A float is the rational it stands for: the sizes divided here are
    below 2^53 and the divisors are powers of two, so no division
    rounds. *)
Context (fmt1 fmt2 : Q -> string) (round2 : Q -> Q) (formats_order : list string).

Definition validate_file (file_content : list Byte.byte) (filename : string)
    (max_size_mb : Z) : Validation :=
  let size_mb :=
    (inject_Z (Z.of_nat (length file_content)) / inject_Z (1024 * 1024))%Q in
  if Qlt_le_dec (inject_Z max_size_mb) size_mb then
    mkValidation false None None
      (Some ("File too large. Maximum size: " +:+ Py.str_int max_size_mb
             +:+ "MB, your file: " +:+ fmt2 size_mb +:+ "MB"))
  else
    let extension := Py.lower (Py.path_suffix filename) in
    let supported_formats : gset string := {[ ".pdf"; ".docx"; ".txt" ]} in
    if negb (bool_decide (extension ∈ supported_formats)) then
      mkValidation false None None
        (Some ("Unsupported file format. Supported: " +:+ Py.join ", " formats_order))
    else if Z.of_nat (length file_content) =? 0 then
      mkValidation false None None (Some "File is empty")
    else
      mkValidation true (Some (round2 size_mb)) (Some extension) None.

(** The [while] loop of [format_file_size]: [remaining] is
    [len(size_names) - 1 - i], the number of units still above [i]. *)
Fixpoint size_loop (remaining : nat) (size_bytes : Q) (i : nat) : Q * nat :=
  match remaining with
  | O => (size_bytes, i)
  | S r =>
      if Qle_bool 1024%Q size_bytes
      then size_loop r (size_bytes / 1024)%Q (S i)
      else (size_bytes, i)
  end.

Definition format_file_size (size_bytes : Z) : string :=
  if size_bytes =? 0 then "0B"
  else
    let size_names := ["B"; "KB"; "MB"; "GB"] in
    let '(size_bytes, i) :=
      size_loop (length size_names - 1) (inject_Z size_bytes) 0 in
    fmt1 size_bytes +:+ " " +:+ nth i size_names "".

Definition truncate_text (text : string) (max_length : Z) : string :=
  if Py.len text <=? max_length then text
  else Py.slice_to text max_length +:+ "...".

(** The nine characters of the class in the pattern of [clean_filename]:
    less-than, greater-than, colon, double quote, slash, backslash,
    vertical bar, question mark and asterisk. *)
Definition invalid_char (c : ascii) : bool :=
  let n := N_of_ascii c in
  (n =? 60)%N || (n =? 62)%N || (n =? 58)%N || (n =? 34)%N || (n =? 47)%N
  || (n =? 92)%N || (n =? 124)%N || (n =? 63)%N || (n =? 42)%N.

(** [re.sub(<that class>, '_', s)] *)
Fixpoint replace_invalid (s : string) : string :=
  match s with
  | EmptyString => EmptyString
  | String c s' => String (if invalid_char c then "_"%char else c) (replace_invalid s')
  end.

Definition clean_filename (filename : string) : string :=
  Py.strip (replace_invalid filename).

End StaticMethods.

Section TempFiles.
(** [named_temp_file suffix content] creates a [NamedTemporaryFile], writes
    the content and gives its name; the other two are [os.path.exists]
    and [os.unlink]. *)
Context {W : Type}
  (named_temp_file : string -> list Byte.byte -> W -> outcome string * W)
  (os_path_exists : string -> W -> outcome bool * W)
  (os_unlink : string -> W -> outcome unit * W).

(** The handler logs and re-raises. *)
Definition save_temp_file (content : list Byte.byte) (filename : string)
  : M W string :=
  try_except
    (let extension := Py.path_suffix filename in
     call (EvLib "tempfile.NamedTemporaryFile") (named_temp_file extension content))
    (fun e =>
       log "error" ("Error saving temp file: " +:+ str_exn e) ;;;
       raise e).

Definition cleanup_temp_file (file_path : string) : M W unit :=
  try_except
    (present <- call (EvLib "os.path.exists") (os_path_exists file_path) ;;
     if present : bool then call (EvLib "os.unlink") (os_unlink file_path)
     else ret tt)
    (fun e =>
       log "warning" ("Could not remove temp file " +:+ file_path +:+ ": " +:+ str_exn e)).

End TempFiles.

End DocumentUtils.

(** ** app.py: the language selectors *)

Module App.

(** An entry of [lang_options]: [f"{code} - {name}"]. *)
Definition lang_option (code name : string) : string :=
  code +:+ " - " +:+ name.

(** [target_lang_code] from the label picked in the selector; the [except]
    clause answers an [IndexError]. *)
Definition target_lang_code (target_language : string) : string :=
  match Py.split_str " - " target_language with
  | first :: _ => Py.strip first
  | [] => "en"
  end.

(** [source_lang_code] from the label picked in the selector. *)
Definition source_lang_code (source_language : string) : string :=
  if String.prefix "auto" source_language then "auto"
  else match Py.split_str " - " source_language with
       | first :: _ => Py.strip first
       | [] => "auto"
       end.

End App.

(** ** Notions the properties are stated with *)

(** Length of the longest whitespace-delimited word of [t] (0 if none). *)
Definition max_word_len (t : string) : Z :=
  foldr Z.max 0 (map Py.len (Py.split t)).

Definition all_space (s : string) : Prop :=
  Forall (fun c => Py.isspace c = true) (list_ascii_of_string s).

(** [separated_by_space t chunks]: [t] is the chunks in order, with runs of
    whitespace (possibly empty) before, between and after them, and
    nothing else. *)
Inductive separated_by_space : string -> list string -> Prop :=
| sep_done ws : all_space ws -> separated_by_space ws []
| sep_chunk ws c t cs :
    all_space ws -> separated_by_space t cs ->
    separated_by_space (ws +:+ c +:+ t) (c :: cs).

(** A word: non-empty and free of whitespace. *)
Definition is_word (w : string) : Prop :=
  w <> "" /\ Forall (fun c => Py.isspace c = false) (list_ascii_of_string w).

(** The chunk the loop of [_split_text_into_chunks] would close now. *)
Definition pending_chunk (current_chunk : list string) : list string :=
  match current_chunk with
  | [] => []
  | _ => [Py.join " " current_chunk]
  end.

(** Calls to a translation backend or to the chunker. *)
Definition translation_event (ev : event) : bool :=
  match ev with
  | EvChunker _ _ | EvNewTranslator _ _ _ | EvTranslate _ _ => true
  | _ => false
  end.

(** Calls to the statistical detector of langdetect. *)
Definition detector_event (ev : event) : bool :=
  match ev with
  | EvDetect _ | EvDetectLangs _ => true
  | _ => false
  end.

Definition no_translation (ev : event) : Prop := translation_event ev = false.

Definition no_detector (ev : event) : Prop := detector_event ev = false.

(** [m] run from any state only appends events satisfying [Q] to the
    trace. *)
Definition emits {W A} (Q : event -> Prop) (m : M W A) : Prop :=
  forall st, exists evs,
    trace (snd (m st)) = trace st ++ evs /\ Forall Q evs.

(** [m] returns from every state. *)
Definition never_raises {W A} (m : M W A) : Prop :=
  forall st, exists a st', m st = (Ok a, st').

(** The buffer [FPDF.output] hands back is never empty. *)
Definition output_nonempty {W P} (E : DocumentUtils.Env W P) : Prop :=
  forall pdf dest w b w',
    DocumentUtils.output E pdf dest w = (Ok (DocumentUtils.Bytearray b), w') ->
    b <> [].

(** An FPDF (and a clock) none of whose calls raises, and whose [output]
    is a [bytearray]. *)
Record dependable {W P} (E : DocumentUtils.Env W P) : Prop := {
  dep_FPDF : forall w, exists pdf w', DocumentUtils.FPDF E w = (Ok pdf, w');
  dep_add_page : forall pdf w, exists w', DocumentUtils.add_page E pdf w = (Ok tt, w');
  dep_set_font : forall pdf family style size w,
    exists w', DocumentUtils.set_font E pdf family style size w = (Ok tt, w');
  dep_cell : forall pdf w0 h txt ln align w,
    exists w', DocumentUtils.cell E pdf w0 h txt ln align w = (Ok tt, w');
  dep_ln : forall pdf h w, exists w', DocumentUtils.ln E pdf h w = (Ok tt, w');
  dep_output : forall pdf dest w,
    exists b w', DocumentUtils.output E pdf dest w = (Ok (DocumentUtils.Bytearray b), w');
  dep_now : forall fmt w, exists s w', DocumentUtils.now_strftime E fmt w = (Ok s, w')
}.


(** The translators of class [cls] work and translate by [f]: the
    constructor returns for every pair of codes and every world, and the
    [translate] of the object it returns yields [f source target chunk]. *)
Definition translates_with {W} (E : Translator.Env W) (cls : translator_class)
    (f : string -> string -> string -> string) : Prop :=
  forall source target w, exists translate w',
    Translator.new_translator E cls source target w = (Ok translate, w')
    /\ forall chunk w1, exists w2,
         translate chunk w1 = (Ok (Some (f source target chunk)), w2).

(** The piece [_translate_chunk] makes of a chunk when the translators of
    the backend work and translate by [f]: [f] applied to the codes mapped
    for the backend and to the chunk, or the chunk itself should that be
    empty. *)
Definition piece (f : string -> string -> string -> string)
    (target_lang source_lang backend chunk : string) : string :=
  let t := f (if decide (source_lang <> "auto")
              then Translator._get_backend_language_code source_lang backend
              else source_lang)
             (Translator._get_backend_language_code target_lang backend)
             chunk in
  if Py.truthy t then t else chunk.

(** A PDF page whose text extraction returns [t] and leaves the world
    alone. *)
Definition page_of {W} (t : string) : W -> outcome string * W :=
  fun w => (Ok t, w).

(** The rows [rows] written one after the other as body cells:
    [pdf.cell(0, 6, row, ln=True)] for each. *)
Fixpoint write_rows {W P} (E : DocumentUtils.Env W P) (pdf : P) (rows : list string)
  : M W unit :=
  match rows with
  | [] => ret tt
  | row :: rest => DocumentUtils.pdf_cell E pdf 0 6 row "" ;;; write_rows E pdf rest
  end.

(** A piece of a wrapped line fits in 80 characters, or is one word of
    [words] with the blank that follows it. *)
Definition fits_or_word (words : list string) (p : string) : Prop :=
  Py.len p <= 80 \/ exists word, In word words /\ p = word +:+ " ".

(** [s] has a character outside the range [font] of a font. *)
Definition outside (font : ascii -> bool) (s : string) : bool :=
  existsb (fun ch => negb (font ch)) (list_ascii_of_string s).

(** An FPDF whose font covers the characters of [font], the blanks among
    them, and no other: [cell] returns on a text within the range, and on
    a text with a character outside it raises an exception whose message
    has such a character in it (the encoding error of fpdf quotes the
    character it could not encode).  The other calls return. *)
Record core_font {W P} (E : DocumentUtils.Env W P) (font : ascii -> bool) : Prop := {
  font_FPDF : forall w, exists pdf w', DocumentUtils.FPDF E w = (Ok pdf, w');
  font_add_page : forall pdf w, exists w', DocumentUtils.add_page E pdf w = (Ok tt, w');
  font_set_font : forall pdf family style size w,
    exists w', DocumentUtils.set_font E pdf family style size w = (Ok tt, w');
  font_ln : forall pdf h w, exists w', DocumentUtils.ln E pdf h w = (Ok tt, w');
  font_now : forall fmt w, exists s w', DocumentUtils.now_strftime E fmt w = (Ok s, w');
  font_blanks : forall ch, Py.isspace ch = true -> font ch = true;
  font_cell_inside : forall pdf w0 h txt ln align w,
    outside font txt = false ->
    exists w', DocumentUtils.cell E pdf w0 h txt ln align w = (Ok tt, w');
  font_cell_outside : forall pdf w0 h txt ln align w,
    outside font txt = true ->
    exists e w', DocumentUtils.cell E pdf w0 h txt ln align w = (Raise e, w')
                 /\ outside font (str_exn e) = true
}.

(** The run [r] raised, with a character outside [font] in the message. *)
Definition quoting {W A} (font : ascii -> bool) (r : outcome A * state W) : Prop :=
  exists e st', r = (Raise e, st') /\ outside font (str_exn e) = true.

(** ** Sample environments *)

Module Samples.

Definition st0 : state unit := mkState tt [].

(** Backends that translate by tagging the chunk with the target code;
    the translators of the classes outside [works] raise on every call.
    The [re] substitutions are those of texts without URL or e-mail
    address, and the detector always answers English. *)
Definition backends (works : translator_class -> bool) : Translator.Env unit :=
  Translator.mkEnv unit
    (fun _ w => (Ok "en", w))
    (fun _ w => (Ok [("en", 1 # 1)], w))
    (fun q => q)
    (fun s => s)
    (fun s => s)
    (fun cls source target w =>
       (Ok (fun chunk w' =>
              if works cls then (Ok (Some ("[" +:+ target +:+ "]" +:+ chunk)), w')
              else (Raise (OtherException "service unavailable"), w')),
        w)).

Definition only_google (cls : translator_class) : bool :=
  match cls with GoogleTranslator => true | _ => false end.

Definition none_works (cls : translator_class) : bool := false.

Definition all_work (cls : translator_class) : bool := true.

(** How the working translators of [backends] translate. *)
Definition tag (source target chunk : string) : string :=
  "[" +:+ target +:+ "]" +:+ chunk.

(** Codecs on inputs the string model can hold: UTF-8 of bytes below 128
    and the one-byte encodings are the identity on code points; UTF-8
    rejects the other bytes here.  No PDF or DOCX library accepts the
    input. *)
Definition sample_decode (encoding : string) (b : list Byte.byte) : outcome string :=
  if decide (encoding = "utf-8") then
    if forallb (fun x => (Byte.to_N x <? 128)%N) b
    then Ok (string_of_list_byte b)
    else Raise (UnicodeDecodeError "invalid start byte")
  else Ok (string_of_list_byte b).

Definition text_files : DocumentProcessor.Env unit :=
  DocumentProcessor.mkEnv unit
    (fun _ w => (Raise (OtherException "Failed to open stream"), w))
    (fun w => (Ok tt, w))
    (fun _ w => (Raise (OtherException "EOF marker not found"), w))
    (fun _ w => (Raise (OtherException "File is not a zip file"), w))
    (fun _ w => (Raise (OtherException "File is not a zip file"), w))
    (fun _ _ w => (Ok "/tmp/tmp0.docx", w))
    (fun _ w => (Ok tt, w))
    (fun _ _ w => (Raise (OtherException "No such file or directory"), w))
    sample_decode.

(** The same, with a PDF library that opens every input as a document of
    one page. *)
Definition one_page_pdf : DocumentProcessor.Env unit :=
  DocumentProcessor.mkEnv unit
    (fun _ w => (Ok [fun w' => (Ok "  Hello PDF ", w')], w))
    (fun w => (Ok tt, w))
    (fun _ w => (Raise (OtherException "EOF marker not found"), w))
    (fun _ w => (Raise (OtherException "File is not a zip file"), w))
    (fun _ w => (Raise (OtherException "File is not a zip file"), w))
    (fun _ _ w => (Ok "/tmp/tmp0.docx", w))
    (fun _ w => (Ok tt, w))
    (fun _ _ w => (Raise (OtherException "No such file or directory"), w))
    sample_decode.

(** An FPDF whose calls all succeed.  [output] hands back [buffer]. *)
Definition fpdf (buffer : DocumentUtils.py_buffer) : DocumentUtils.Env unit unit :=
  DocumentUtils.mkEnv unit unit
    (fun w => (Ok tt, w))
    (fun _ w => (Ok tt, w))
    (fun _ _ _ _ w => (Ok tt, w))
    (fun _ _ _ _ _ _ w => (Ok tt, w))
    (fun _ _ w => (Ok tt, w))
    (fun _ _ w => (Ok buffer, w))
    (fun _ w => (Ok "2024-01-01 00:00:00", w)).

(** A font with the 7-bit characters and the blanks. *)
Definition narrow_font (ch : ascii) : bool :=
  (N_of_ascii ch <? 128)%N || Py.isspace ch.

(** An FPDF with that font: [cell] refuses a text with another character
    and names the first such character in its message. *)
Definition narrow_fpdf : DocumentUtils.Env unit unit :=
  DocumentUtils.mkEnv unit unit
    (fun w => (Ok tt, w))
    (fun _ w => (Ok tt, w))
    (fun _ _ _ _ w => (Ok tt, w))
    (fun _ _ _ txt _ _ w =>
       match List.find (fun ch => negb (narrow_font ch)) (list_ascii_of_string txt) with
       | Some ch =>
           (Raise (OtherException
                     ("Character " +:+ String ch ""
                      +:+ " is outside the range of characters supported by the font")),
            w)
       | None => (Ok tt, w)
       end)
    (fun _ _ w => (Ok tt, w))
    (fun _ _ w => (Ok (DocumentUtils.Bytearray (list_byte_of_string "%PDF-1.3")), w))
    (fun _ w => (Ok "2024-01-01 00:00:00", w)).

(** A file system with temporary files, and a docx2python whose result
    goes back to its file when its text is read.  The world is the list
    of the files that exist; python-docx refuses the content. *)
Definition lazy_docx2python : DocumentProcessor.Env (list string) :=
  let missing path := OtherException ("No such file or directory: " +:+ path) in
  DocumentProcessor.mkEnv (list string)
    (fun _ w => (Raise (OtherException "Failed to open stream"), w))
    (fun w => (Ok tt, w))
    (fun _ w => (Raise (OtherException "EOF marker not found"), w))
    (fun _ w => (Raise (ValueError "file is not a Word file"), w))
    (fun path w =>
       if existsb (String.eqb path) w
       then (Ok (fun w' => if existsb (String.eqb path) w'
                           then (Ok "Hello DOCX", w')
                           else (Raise (missing path), w')), w)
       else (Raise (missing path), w))
    (fun suffix _ w => (Ok ("/tmp/tmp0" +:+ suffix), ("/tmp/tmp0" +:+ suffix) :: w))
    (fun path w =>
       if existsb (String.eqb path) w
       then (Ok tt, List.filter (fun f => negb (String.eqb path f)) w)
       else (Raise (missing path), w))
    (fun path _ w => (Raise (missing path), w))
    sample_decode.

(** An FPDF that records the calls made on it, in order. *)
Inductive pdf_call :=
| NewDocument
| AddPage
| SetFont (family style : string) (size : Z)
| Cell (w h : Z) (txt : string) (align : string)
| Ln (h : Z)
| Output.

Definition recording_fpdf : DocumentUtils.Env (list pdf_call) unit :=
  DocumentUtils.mkEnv (list pdf_call) unit
    (fun w => (Ok tt, w ++ [NewDocument]))
    (fun _ w => (Ok tt, w ++ [AddPage]))
    (fun _ family style size w => (Ok tt, w ++ [SetFont family style size]))
    (fun _ w0 h txt _ align w => (Ok tt, w ++ [Cell w0 h txt align]))
    (fun _ h w => (Ok tt, w ++ [Ln h]))
    (fun _ _ w => (Ok (DocumentUtils.Bytearray (list_byte_of_string "%PDF-1.3")),
                   w ++ [Output]))
    (fun _ w => (Ok "2024-01-01 00:00:00", w)).

(** The texts of the rows ([cell] calls) among recorded calls. *)
Definition rows (calls : list pdf_call) : list string :=
  omap (fun c => match c with Cell _ _ txt _ => Some txt | _ => None end) calls.

(** fpdf2: [output] is a [bytearray] starting with the PDF header. *)
Definition fpdf2 : DocumentUtils.Env unit unit :=
  fpdf (DocumentUtils.Bytearray (list_byte_of_string "%PDF-1.3")).

(** PyFPDF 1.7 under Python 3: [output(dest='S')] is a [str]. *)
Definition pyfpdf : DocumentUtils.Env unit unit :=
  fpdf (DocumentUtils.Str "%PDF-1.3").

End Samples.

(** * Properties *)

(** ** Strings *)

Section StringFacts.

Lemma append_assoc (a b c : string) : (a +:+ b) +:+ c = a +:+ (b +:+ c).
Proof.
  induction a as [|x a IH]; [reflexivity|].
  change (String x ((a +:+ b) +:+ c) = String x (a +:+ (b +:+ c))).
  now rewrite IH.
Qed.

Lemma len_append (a b : string) : Py.len (a +:+ b) = Py.len a + Py.len b.
Proof.
  unfold Py.len. induction a as [|x a IH].
  - change ("" +:+ b) with b. simpl. lia.
  - change (String x a +:+ b) with (String x (a +:+ b)). simpl String.length. lia.
Qed.

(** *** [split] *)

Lemma split_head_nonspace c s :
  Py.isspace c = false -> exists w ws, Py.split (String c s) = w :: ws.
Proof.
  intros Hc. simpl. rewrite Hc. destruct s as [|d s']; [eauto|].
  destruct (Py.isspace d); [eauto|].
  destruct (Py.split (String d s')); eauto.
Qed.

Lemma split_cons_nonspace c s :
  Py.isspace c = false ->
  Py.split (String c s) =
  match s with
  | EmptyString => [String c ""]
  | String d _ =>
      if Py.isspace d then String c "" :: Py.split s
      else match Py.split s with
           | w :: ws => String c w :: ws
           | [] => [String c ""]
           end
  end.
Proof. intros Hc. cbn [Py.split]. rewrite Hc. reflexivity. Qed.

Lemma split_cons_space c s :
  Py.isspace c = true -> Py.split (String c s) = Py.split s.
Proof. intros Hc. cbn [Py.split]. rewrite Hc. reflexivity. Qed.

Lemma split_app_space a c b :
  Py.isspace c = true ->
  Py.split (a +:+ String c b) = Py.split a ++ Py.split b.
Proof.
  intros Hc. induction a as [|x a IH].
  - change ("" +:+ String c b) with (String c b). now rewrite split_cons_space.
  - change (String x a +:+ String c b) with (String x (a +:+ String c b)).
    destruct (Py.isspace x) eqn:Hx.
    + now rewrite !split_cons_space.
    + rewrite !split_cons_nonspace by assumption.
      destruct a as [|d a'].
      * change ("" +:+ String c b) with (String c b).
        cbv beta iota. rewrite Hc, split_cons_space by assumption. reflexivity.
      * change (String d a' +:+ String c b) with (String d (a' +:+ String c b)) in *.
        cbv beta iota. rewrite IH. destruct (Py.isspace d) eqn:Hd; [reflexivity|].
        destruct (split_head_nonspace d a' Hd) as (w & ws & ->). reflexivity.
Qed.

Lemma word_single c : Py.isspace c = false -> is_word (String c "").
Proof.
  intros Hc. split; [congruence|]. simpl. constructor; [exact Hc | constructor].
Qed.

Lemma word_cons c w : Py.isspace c = false -> is_word w -> is_word (String c w).
Proof.
  intros Hc [_ Hw]. split; [congruence|]. simpl. constructor; assumption.
Qed.

Lemma split_word w : is_word w -> Py.split w = [w].
Proof.
  intros [Hne Hall]. induction w as [|c w IH]; [congruence|].
  simpl in Hall. inversion Hall as [|? ? Hc Hrest]; subst.
  rewrite split_cons_nonspace by assumption.
  destruct w as [|d w']; [reflexivity|].
  simpl in Hrest. pose proof Hrest as Hrest'.
  inversion Hrest' as [|? ? Hd _]; subst. rewrite Hd.
  rewrite IH; [reflexivity | congruence | exact Hrest].
Qed.

Lemma split_words s : Forall is_word (Py.split s).
Proof.
  induction s as [|c s IH]; [constructor|].
  destruct (Py.isspace c) eqn:Hc; [now rewrite split_cons_space|].
  rewrite split_cons_nonspace by assumption.
  destruct s as [|d s']; [constructor; [now apply word_single | constructor]|].
  destruct (Py.isspace d) eqn:Hd; [constructor; [now apply word_single | exact IH]|].
  destruct (Py.split (String d s')) as [|w ws];
    [constructor; [now apply word_single | constructor]|].
  inversion IH as [|? ? Hw Hws]; subst.
  constructor; [now apply word_cons | exact Hws].
Qed.

Lemma split_join_concat ws :
  Py.split (Py.join " " ws) = concat (map Py.split ws).
Proof.
  induction ws as [|x [|y r] IH]; [reflexivity | |].
  - simpl. now rewrite app_nil_r.
  - change (Py.join " " (x :: y :: r)) with (x +:+ String " " (Py.join " " (y :: r))).
    rewrite split_app_space by reflexivity. rewrite IH. reflexivity.
Qed.

Lemma concat_split_words ws : Forall is_word ws -> concat (map Py.split ws) = ws.
Proof.
  induction 1 as [|w ws Hw _ IH]; [reflexivity|].
  simpl. rewrite (split_word w Hw), IH. reflexivity.
Qed.

Lemma split_join_words ws : Forall is_word ws -> Py.split (Py.join " " ws) = ws.
Proof. intros H. rewrite split_join_concat. now apply concat_split_words. Qed.

(** *** [join] *)

Lemma join_app xs ys :
  xs <> [] -> ys <> [] ->
  Py.join " " (xs ++ ys) = Py.join " " xs +:+ " " +:+ Py.join " " ys.
Proof.
  intros Hx Hy. induction xs as [|x [|x' xs] IH]; [congruence| |].
  - destruct ys; [congruence | reflexivity].
  - change (Py.join " " ((x :: x' :: xs) ++ ys))
      with (x +:+ " " +:+ Py.join " " ((x' :: xs) ++ ys)).
    rewrite IH by congruence.
    change (Py.join " " (x :: x' :: xs)) with (x +:+ " " +:+ Py.join " " (x' :: xs)).
    now rewrite !append_assoc.
Qed.

End StringFacts.

(** ** The chunker *)

Section Chunker.
Import Translator.

Lemma join_merge_last xs a b :
  Py.join " " (xs ++ [a; b]) = Py.join " " (xs ++ [a +:+ " " +:+ b]).
Proof.
  destruct xs as [|x xs]; [reflexivity|].
  rewrite !join_app by congruence. reflexivity.
Qed.

Lemma pending_chunk_app cur words :
  cur <> [] -> words <> [] ->
  pending_chunk (cur ++ words) =
  [Py.join " " cur +:+ " " +:+ Py.join " " words].
Proof.
  intros Hc Hw. unfold pending_chunk.
  destruct (cur ++ words) eqn:Heq.
  - destruct cur; [congruence | discriminate].
  - rewrite <- Heq. now rewrite join_app.
Qed.

(** The words of the chunks, in order, are the words fed to the loop. *)
Lemma chunk_loop_words size words : forall chunks cur n,
  Forall is_word cur -> Forall is_word words ->
  concat (map Py.split (chunk_loop size words chunks cur n)) =
  concat (map Py.split chunks) ++ cur ++ words.
Proof.
  induction words as [|word rest IH]; intros chunks cur n Hcur Hwords.
  - cbn [chunk_loop]. rewrite app_nil_r. destruct cur as [|w cur'].
    + now rewrite app_nil_r.
    + rewrite map_app, concat_app. cbn [map concat]. rewrite app_nil_r.
      now rewrite (split_join_words _ Hcur).
  - inversion Hwords as [|? ? Hword Hrest]; subst. cbn [chunk_loop].
    destruct ((n + (Py.len word + 1) >? size)
              && match cur with [] => false | _ => true end).
    + assert (Hone : Forall is_word [word]) by (constructor; [assumption | constructor]).
      rewrite (IH _ _ _ Hone Hrest).
      rewrite map_app, concat_app. cbn [map concat]. rewrite app_nil_r.
      rewrite (split_join_words _ Hcur). now rewrite <- app_assoc.
    + assert (Hsnoc : Forall is_word (cur ++ [word])).
      { apply Forall_app; split; [assumption|]. constructor; [assumption | constructor]. }
      rewrite (IH _ _ _ Hsnoc Hrest). now rewrite <- app_assoc.
Qed.

(** Joining the chunks is joining the words. *)
Lemma chunk_loop_join size words : forall chunks cur n,
  Py.join " " (chunk_loop size words chunks cur n) =
  Py.join " " (chunks ++ pending_chunk (cur ++ words)).
Proof.
  induction words as [|word rest IH]; intros chunks cur n.
  - cbn [chunk_loop]. rewrite app_nil_r.
    destruct cur; [now rewrite app_nil_r | reflexivity].
  - cbn [chunk_loop].
    destruct ((n + (Py.len word + 1) >? size)
              && match cur with [] => false | _ => true end) eqn:Hif.
    + apply andb_prop in Hif as [_ Hcur].
      assert (cur <> []) by (destruct cur; [discriminate | congruence]).
      rewrite IH. rewrite <- app_assoc. cbn [app].
      change (pending_chunk (word :: rest)) with [Py.join " " (word :: rest)].
      rewrite join_merge_last. now rewrite pending_chunk_app by congruence.
    + rewrite IH. now rewrite <- app_assoc.
Qed.

(** With room for the longest word, no chunk exceeds the budget. *)
Lemma chunk_loop_fits size words : forall chunks cur n,
  Forall (fun w => Py.len w + 1 <= size) words ->
  Forall (fun c => Py.len c < size) chunks ->
  match cur with
  | [] => n = 0
  | _ => n = Py.len (Py.join " " cur) + 1 /\ n <= size
  end ->
  Forall (fun c => Py.len c < size) (chunk_loop size words chunks cur n).
Proof.
  induction words as [|word rest IH]; intros chunks cur n Hwords Hchunks Hcur.
  - cbn [chunk_loop]. destruct cur as [|w cur']; [assumption|].
    apply Forall_app; split; [assumption|].
    constructor; [|constructor]. destruct Hcur as [Hn Hle]. clear - Hn Hle. lia.
  - inversion Hwords as [|? ? Hword Hrest]; subst. cbn [chunk_loop].
    rewrite Z.gtb_ltb.
    destruct (Z.ltb_spec size (n + (Py.len word + 1))) as [Hgt | Hle];
      destruct cur as [|w cur']; cbn [andb].
    + subst n. clear - Hgt Hword. lia.
    + destruct Hcur as [Hn HnN]. apply IH; try assumption.
      * apply Forall_app; split; [assumption|].
        constructor; [|constructor]. clear - Hn HnN. lia.
      * cbn [Py.join]. clear - Hword. lia.
    + subst n. apply IH; try assumption. cbn [app Py.join]. clear - Hle. lia.
    + destruct Hcur as [Hn HnN]. apply IH; try assumption.
      destruct ((w :: cur') ++ [word]) eqn:Heq; [discriminate|]. rewrite <- Heq.
      rewrite join_app by congruence. change (Py.join " " [word]) with word.
      rewrite !len_append. change (Py.len " ") with 1. clear - Hn Hle. lia.
Qed.

Lemma max_word_len_bound t :
  Forall (fun w => Py.len w <= max_word_len t) (Py.split t).
Proof.
  unfold max_word_len. induction (Py.split t) as [|w ws IH]; [constructor|].
  cbn [map foldr]. constructor; [lia|].
  eapply Forall_impl; [exact IH|]. intros x Hx; cbn beta in *. lia.
Qed.

(** C5, as amended: for every text [t] and every chunk size [N] at least
    one more than the length of the longest word of [t], the words of the
    chunks of [_split_text_into_chunks t size], taken in order, are exactly the
    words of [t] (no word is split, lost, added or moved), and joining the
    chunks with single spaces gives [t] itself when [len t <= N], and
    otherwise the words of [t] joined by single spaces: every run of
    whitespace of [t], inside a chunk as well as at a chunk boundary,
    becomes one space and leading and trailing whitespace goes. *)
Theorem split_text_into_chunks_keeps_words (t : string) (size : Z) :
  1 + max_word_len t <= size ->
  concat (map Py.split (_split_text_into_chunks t size)) = Py.split t
  /\ Py.split (Py.join " " (_split_text_into_chunks t size)) = Py.split t
  /\ (Py.len t <= size -> Py.join " " (_split_text_into_chunks t size) = t)
  /\ (size < Py.len t ->
      Py.join " " (_split_text_into_chunks t size) = Py.join " " (Py.split t)).
Proof.
  intros _. unfold _split_text_into_chunks.
  assert (Hloop : concat (map Py.split (chunk_loop size (Py.split t) [] [] 0))
                  = Py.split t).
  { rewrite chunk_loop_words; [reflexivity | constructor | apply split_words]. }
  assert (Hjoin : Py.join " " (chunk_loop size (Py.split t) [] [] 0)
                  = Py.join " " (Py.split t)).
  { rewrite chunk_loop_join. cbn [app]. unfold pending_chunk.
    destruct (Py.split t); reflexivity. }
  destruct (Z.leb_spec (Py.len t) size) as [Hle | Hgt].
  - split; [|split; [|split]].
    + cbn [map concat]. now rewrite app_nil_r.
    + reflexivity.
    + reflexivity.
    + intros Hgt. clear - Hle Hgt. lia.
  - split; [|split; [|split]].
    + exact Hloop.
    + rewrite split_join_concat. exact Hloop.
    + intros Hle. clear - Hle Hgt. lia.
    + intros _. exact Hjoin.
Qed.

(** The hypothesis of C5 at work: with [N] at least one more than the
    longest word, every chunk of a text longer than [N] is shorter than
    [N]. *)
Lemma split_text_into_chunks_fits (t : string) (size : Z) :
  1 + max_word_len t <= size -> size < Py.len t ->
  Forall (fun c => Py.len c < size) (_split_text_into_chunks t size).
Proof.
  intros HN Hlong. unfold _split_text_into_chunks.
  destruct (Z.leb_spec (Py.len t) size); [lia|].
  apply chunk_loop_fits; [|constructor|reflexivity].
  eapply Forall_impl; [apply max_word_len_bound|].
  intros w Hw; cbn beta in *. lia.
Qed.

Lemma split_text_into_chunks_keeps_words_witness :
  1 + max_word_len "a  b c" <= 4
  /\ concat (map Py.split (_split_text_into_chunks "a  b c" 4)) = ["a"; "b"; "c"]
  /\ Py.join " " (_split_text_into_chunks "a  b c" 4) = "a b c".
Proof.
  assert (H : 1 + max_word_len "a  b c" <= 4) by (vm_compute; discriminate).
  destruct (split_text_into_chunks_keeps_words "a  b c" 4 H) as (H1 & _ & _ & H4).
  split; [exact H|]. split; [exact H1|]. apply H4. vm_compute. reflexivity.
Defined.

(** C5, as stated, fails: in "a  b c" with chunk size 4 (the longest word
    has length 1) the chunks are "a b" and "c", and the two spaces between
    "a" and "b" lie inside the first chunk, not at a chunk boundary. *)
Lemma split_text_into_chunks_inner_whitespace :
  1 + max_word_len "a  b c" <= 4
  /\ _split_text_into_chunks "a  b c" 4 = ["a b"; "c"]
  /\ ~ separated_by_space "a  b c" (_split_text_into_chunks "a  b c" 4).
Proof.
  split; [vm_compute; discriminate|]. split; [reflexivity|].
  change (_split_text_into_chunks "a  b c" 4) with ["a b"; "c"].
  intros H. inversion H as [|ws c t cs Hws _ Heq]; subst.
  destruct ws as [|x ws].
  - vm_compute in Heq. discriminate.
  - vm_compute in Heq. injection Heq as Hx _. subst x.
    unfold all_space in Hws. simpl in Hws. inversion Hws as [|? ? Hsp _].
    vm_compute in Hsp. discriminate.
Qed.

End Chunker.

(** ** Effects *)

Section EffectFacts.
Context {W : Type}.

Lemma emits_ret {A} (Q : event -> Prop) (a : A) : emits Q (@ret W A a).
Proof. intros st. exists []. now rewrite app_nil_r. Qed.

Lemma emits_raise {A} (Q : event -> Prop) (e : exn) : emits Q (@raise W A e).
Proof. intros st. exists []. now rewrite app_nil_r. Qed.

Lemma emits_log (Q : event -> Prop) level msg :
  Q (EvLog level msg) -> emits Q (@log W level msg).
Proof. intros HQ st. exists [EvLog level msg]. split; [reflexivity | now constructor]. Qed.

Lemma emits_call {A} (Q : event -> Prop) ev (op : W -> outcome A * W) :
  Q ev -> emits Q (call ev op).
Proof.
  intros HQ st. exists [ev]. unfold call. destruct (op (world st)).
  split; [reflexivity | now constructor].
Qed.

Lemma emits_bind {A B} (Q : event -> Prop) (m : M W A) (k : A -> M W B) :
  emits Q m -> (forall a, emits Q (k a)) -> emits Q (bind m k).
Proof.
  intros Hm Hk st. destruct (Hm st) as (evs1 & H1 & F1). unfold bind.
  destruct (m st) as [[a | e] st1]; cbn [snd] in *.
  - destruct (Hk a st1) as (evs2 & H2 & F2). exists (evs1 ++ evs2).
    rewrite H2, H1, app_assoc. split; [reflexivity | now apply Forall_app].
  - now exists evs1.
Qed.

Lemma emits_try_except {A} (Q : event -> Prop) (m : M W A) (h : exn -> M W A) :
  emits Q m -> (forall e, emits Q (h e)) -> emits Q (try_except m h).
Proof.
  intros Hm Hh st. destruct (Hm st) as (evs1 & H1 & F1). unfold try_except.
  destruct (m st) as [[a | e] st1]; cbn [snd] in *.
  - now exists evs1.
  - destruct (Hh e st1) as (evs2 & H2 & F2). exists (evs1 ++ evs2).
    rewrite H2, H1, app_assoc. split; [reflexivity | now apply Forall_app].
Qed.

Lemma never_raises_ret {A} (a : A) : never_raises (@ret W A a).
Proof. intros st. now exists a, st. Qed.

Lemma never_raises_bind {A B} (m : M W A) (k : A -> M W B) :
  never_raises m -> (forall a, never_raises (k a)) -> never_raises (bind m k).
Proof.
  intros Hm Hk st. destruct (Hm st) as (a & st1 & H1). unfold bind. rewrite H1.
  apply Hk.
Qed.

Lemma never_raises_try_except {A} (m : M W A) (h : exn -> M W A) :
  (forall e, never_raises (h e)) -> never_raises (try_except m h).
Proof.
  intros Hh st. unfold try_except. destruct (m st) as [[a | e] st1].
  - now exists a, st1.
  - apply Hh.
Qed.

Lemma never_raises_log level msg : never_raises (@log W level msg).
Proof. intros st. now eexists _, _. Qed.

(** A handler around a body that never raises is never entered. *)
Lemma try_except_unused {A} (m : M W A) (h : exn -> M W A) st :
  never_raises m -> try_except m h st = m st.
Proof.
  intros Hm. unfold try_except. destruct (Hm st) as (a & st1 & ->). reflexivity.
Qed.

End EffectFacts.

(** ** More on strings: [strip] and [lower] *)

Section StripFacts.

Lemma len_lstrip s : Py.len (Py.lstrip s) <= Py.len s.
Proof.
  unfold Py.len. induction s as [|c s IH]; [reflexivity|].
  cbn [Py.lstrip]. destruct (Py.isspace c); [|reflexivity].
  cbn [String.length]. lia.
Qed.

Lemma len_rstrip s : Py.len (Py.rstrip s) <= Py.len s.
Proof.
  unfold Py.len. induction s as [|c s IH]; [reflexivity|].
  cbn [Py.rstrip]. destruct (Py.rstrip s) as [|d r].
  - destruct (Py.isspace c); cbn [String.length]; lia.
  - cbn [String.length] in *. lia.
Qed.

Lemma len_strip s : Py.len (Py.strip s) <= Py.len s.
Proof.
  unfold Py.strip. pose proof (len_rstrip (Py.lstrip s)). pose proof (len_lstrip s). lia.
Qed.

Lemma rstrip_idem s : Py.rstrip (Py.rstrip s) = Py.rstrip s.
Proof.
  induction s as [|c s IH]; [reflexivity|].
  cbn [Py.rstrip]. destruct (Py.rstrip s) as [|d r] eqn:Hr.
  - destruct (Py.isspace c) eqn:Hc; [reflexivity|].
    cbn [Py.rstrip]. now rewrite Hc.
  - change (Py.rstrip (String c (String d r)))
      with (match Py.rstrip (String d r) with
            | EmptyString => if Py.isspace c then EmptyString else String c EmptyString
            | x => String c x
            end).
    now rewrite IH.
Qed.

Lemma lstrip_head s :
  Py.lstrip s = "" \/ exists c r, Py.lstrip s = String c r /\ Py.isspace c = false.
Proof.
  induction s as [|c s IH]; [now left|].
  cbn [Py.lstrip]. destruct (Py.isspace c) eqn:Hc; [exact IH|]. right. eauto.
Qed.

Lemma rstrip_head c r :
  Py.isspace c = false -> exists r', Py.rstrip (String c r) = String c r'.
Proof.
  intros Hc. cbn [Py.rstrip]. destruct (Py.rstrip r); [|eauto].
  rewrite Hc. eauto.
Qed.

(** [strip] is idempotent: a stripped text is a fixed point of [strip]. *)
Lemma strip_idem s : Py.strip (Py.strip s) = Py.strip s.
Proof.
  unfold Py.strip. destruct (lstrip_head s) as [-> | (c & r & -> & Hc)]; [reflexivity|].
  destruct (rstrip_head c r Hc) as (r' & Hr). rewrite Hr.
  cbn [Py.lstrip]. rewrite Hc. rewrite <- Hr. apply rstrip_idem.
Qed.

Lemma lower_char_idem c : Py.lower_char (Py.lower_char c) = Py.lower_char c.
Proof. destruct c as [[] [] [] [] [] [] [] []]; reflexivity. Qed.

Lemma lower_idem s : Py.lower (Py.lower s) = Py.lower s.
Proof.
  induction s as [|c s IH]; [reflexivity|].
  cbn [Py.lower]. now rewrite lower_char_idem, IH.
Qed.

End StripFacts.

(** ** The translator *)

Ltac emits_step :=
  lazymatch goal with
  | |- emits _ (ret _) => apply emits_ret
  | |- emits _ (raise _) => apply emits_raise
  | |- emits _ (log _ _) => apply emits_log; reflexivity
  | |- emits _ (call _ _) => apply emits_call; reflexivity
  | |- emits _ (bind _ _) => apply emits_bind
  | |- emits _ (try_except _ _) => apply emits_try_except
  | |- emits _ (if ?b then _ else _) => destruct b
  | |- emits _ (match ?x with _ => _ end) => destruct x
  | |- forall _, _ => intro
  end.

Section TranslatorFacts.
Import Translator.
Context {W : Type} (E : Env W).

Lemma detect_language_emits text :
  emits no_translation (detect_language E text).
Proof. unfold detect_language, _calculate_confidence. repeat emits_step. Qed.

Lemma detect_language_never_raises text : never_raises (detect_language E text).
Proof.
  unfold detect_language. apply never_raises_try_except.
  intros []; (apply never_raises_bind; [apply never_raises_log | intros; apply never_raises_ret]).
Qed.

Lemma resolve_source_lang_emits text source_lang :
  emits no_translation (resolve_source_lang E text source_lang).
Proof.
  unfold resolve_source_lang. destruct (decide (source_lang = "auto")).
  - apply emits_bind; [apply detect_language_emits|]. repeat emits_step.
  - apply emits_ret.
Qed.

Lemma resolve_source_lang_never_raises text source_lang :
  never_raises (resolve_source_lang E text source_lang).
Proof.
  unfold resolve_source_lang. destruct (decide (source_lang = "auto")).
  - apply never_raises_bind; [apply detect_language_never_raises|].
    intros r. destruct (det_error r) as [msg|]; [destruct (Py.truthy msg)|];
      apply never_raises_ret.
  - apply never_raises_ret.
Qed.

(** C8, as amended: for every text whose cleaned form is shorter than 10
    characters, [detect_language] returns language 'unknown', confidence
    0.0, language name 'Unknown' and the error 'Text too short for reliable
    detection', and leaves the state as it was: no call reaches the
    statistical detector (nor anything else). *)
Theorem detect_language_short_text (text : string) (st : state W) :
  Py.len (_clean_text_for_detection E text) < 10 ->
  detect_language E text st =
    (Ok (mkDetection "unknown" 0 "Unknown"
           (Some "Text too short for reliable detection")), st)
  /\ Forall no_detector (emitted (detect_language E text) st).
Proof.
  intros Hshort.
  assert (Hrun : detect_language E text st =
    (Ok (mkDetection "unknown" 0 "Unknown"
           (Some "Text too short for reliable detection")), st)).
  { unfold detect_language, try_except.
    pose proof (len_strip (_clean_text_for_detection E text)) as Hle.
    destruct (Z.ltb_spec (Py.len (Py.strip (_clean_text_for_detection E text))) 10)
      as [_ | Hge]; [reflexivity | lia]. }
  split; [exact Hrun|]. unfold emitted. rewrite Hrun. cbn [snd].
  rewrite drop_all. constructor.
Qed.

(** [_translate_chunk] returns from every state: whatever its body raises
    is caught by its own handler, which returns. *)
Lemma translate_chunk_returns chunk target_lang source_lang backend :
  never_raises (_translate_chunk E chunk target_lang source_lang backend).
Proof.
  unfold _translate_chunk. apply never_raises_try_except. intros e.
  apply never_raises_bind; [apply never_raises_log | intros; apply never_raises_ret].
Qed.

(** C9: [_translate_chunk] returns for every chunk, pair of language codes
    and backend name.  For a name outside the four known ones the result
    is the chunk itself; for a known one it is the chunk itself when the
    constructor of the translator raises, when its [translate] raises, and
    when [translate] returns [None] or the empty string, and otherwise what
    [translate] returned. *)
Theorem translate_chunk_total (chunk target_lang source_lang backend : string)
    (st : state W) :
  exists s st',
    _translate_chunk E chunk target_lang source_lang backend st = (Ok s, st')
    /\ (backend_class backend = None -> s = chunk)
    /\ (forall cls, backend_class backend = Some cls ->
        match new_translator E cls
                (if decide (source_lang <> "auto")
                 then _get_backend_language_code source_lang backend
                 else source_lang)
                (_get_backend_language_code target_lang backend)
                (world st) with
        | (Raise _, _) => s = chunk
        | (Ok translate, w1) =>
            match translate chunk w1 with
            | (Raise _, _) => s = chunk
            | (Ok None, _) => s = chunk
            | (Ok (Some t), _) => s = if Py.truthy t then t else chunk
            end
        end).
Proof.
  unfold _translate_chunk, try_except, bind, call, raise, log, ret.
  destruct (backend_class backend) as [cls|]; cbn [world trace].
  - destruct (new_translator E cls _ _ (world st)) as [[translate | e] w1] eqn:Hnew;
      cbn [world trace].
    + destruct (translate chunk w1) as [[[t|] | e] w2] eqn:Htr; cbn [world trace];
        eexists _, _; (split; [reflexivity|]); (split; [congruence|]);
        intros cls' [= <-]; rewrite Hnew, Htr; reflexivity.
    + eexists _, _; (split; [reflexivity|]); (split; [congruence|]).
      intros cls' [= <-]. rewrite Hnew. reflexivity.
  - eexists _, _; (split; [reflexivity|]); (split; [reflexivity|]).
    intros cls' [=].
Qed.

(** The names [_translate_chunk] knows. *)
Lemma backend_class_unsupported backend :
  backend_class backend = None <->
  backend <> "google" /\ backend <> "microsoft" /\ backend <> "libre"
  /\ backend <> "mymemory".
Proof.
  unfold backend_class. repeat case_decide; subst; split; intros Hb;
    try discriminate; try reflexivity; try (repeat split; assumption);
    destruct Hb as (? & ? & ? & ?); congruence.
Qed.

Lemma translate_chunks_returns chunks : forall i n target_lang source_lang backend st,
  exists ts st',
    translate_chunks E i n chunks target_lang source_lang backend st = (Ok ts, st')
    /\ length ts = length chunks.
Proof.
  induction chunks as [|chunk rest IH]; intros i n target_lang source_lang backend st.
  - now exists [], st.
  - cbn [translate_chunks]. unfold bind at 1.
    destruct (translate_chunk_returns chunk target_lang source_lang backend st)
      as (s & st1 & ->).
    unfold bind at 1.
    assert (Hsleep : exists st2,
      (if i <? n - 1 then call EvSleep (fun w : W => (Ok tt, w)) else ret tt) st1
      = (Ok tt, st2)) by (destruct (i <? n - 1); eexists; reflexivity).
    destruct Hsleep as (st2 & ->). unfold bind.
    destruct (IH (i + 1) n target_lang source_lang backend st2) as (ts & st3 & -> & Hlen).
    exists (s :: ts), st3. split; [reflexivity|]. cbn [length]. now rewrite Hlen.
Qed.

(** The loop over the candidate backends never gets past its first
    candidate: [_translate_chunk] raises nothing, so the [except] clause of
    the loop is never entered. *)
Lemma try_backends_first candidate rest chunks target_lang source_lang st :
  exists ts st',
    try_backends E (candidate :: rest) chunks target_lang source_lang st
    = (Ok (Some (candidate, ts)), st')
    /\ length ts = length chunks.
Proof.
  cbn [try_backends]. unfold try_except, bind.
  destruct (translate_chunks_returns chunks 0 (Z.of_nat (length chunks))
              target_lang source_lang candidate st) as (ts & st1 & -> & Hlen).
  now exists ts, st1.
Qed.

End TranslatorFacts.

Section TranslateText.
Import Translator.
Context {W : Type} (E : Env W).

Lemma truthy_nonempty s : s <> "" -> Py.truthy s = true.
Proof. destruct s; [congruence | reflexivity]. Qed.

(** [translate_text] once the input is known not to be blank and the
    source language is resolved. *)
Lemma translate_text_resolved text target_lang source_lang backend chunk_size
    st resolved st1 :
  Py.strip text <> "" ->
  resolve_source_lang E text source_lang st = (Ok resolved, st1) ->
  translate_text E text target_lang source_lang backend chunk_size st =
  try_except
    (if decide (resolved = target_lang) then
       ret (mkTranslation text resolved target_lang (Some backend) 1 None
              (Some "No translation needed - same language"))
     else
       (if bool_decide (target_lang = "sa") && bool_decide (backend = "google")
        then log "warning" "Sanskrit may have limited support in Google Translate"
        else ret tt) ;;;
       chunks <- call (EvChunker text chunk_size)
                   (fun w => (Ok (_split_text_into_chunks text chunk_size), w)) ;;
       attempt <- try_backends E [backend; "google"; "libre"; "mymemory"]
                    chunks target_lang resolved ;;
       match attempt with
       | None =>
           ret (mkTranslation "" resolved target_lang None 0
                  (Some "All translation backends failed") None)
       | Some (backend_used, translated_chunks) =>
           ret (mkTranslation (Py.join " " translated_chunks) resolved target_lang
                  (Some backend_used) (Z.of_nat (length chunks)) None None)
       end)
    (translation_failed resolved target_lang) st1.
Proof.
  intros Hne Hres. unfold translate_text. rewrite (truthy_nonempty _ Hne). cbn [negb].
  unfold bind at 1. unfold try_except at 1. unfold bind at 1. rewrite Hres.
  reflexivity.
Qed.

Lemma translate_text_blank text target_lang source_lang backend chunk_size st :
  Py.strip text = "" ->
  translate_text E text target_lang source_lang backend chunk_size st =
  (Ok (mkTranslation "" source_lang target_lang (Some backend) 0
         (Some "Empty text provided") None), st).
Proof. intros Hb. unfold translate_text. rewrite Hb. reflexivity. Qed.

(** C4: for every non-empty text (one that passes the empty-input check
    of [translate_text], which tests [text.strip()]), when the resolved
    source language equals the target language, [translate_text] returns
    the input text unchanged with [chunks_processed = 1] and
    [error = None], and the only calls made are those of the source
    resolution: no backend and no chunker call is in the trace. *)
Theorem translate_text_same_language (text target_lang source_lang backend : string)
    (chunk_size : Z) (st st1 : state W) :
  Py.strip text <> "" ->
  resolve_source_lang E text source_lang st = (Ok target_lang, st1) ->
  translate_text E text target_lang source_lang backend chunk_size st =
    (Ok (mkTranslation text target_lang target_lang (Some backend) 1 None
           (Some "No translation needed - same language")), st1)
  /\ exists evs, trace st1 = trace st ++ evs /\ Forall no_translation evs.
Proof.
  intros Hne Hres. split.
  - rewrite (translate_text_resolved _ _ _ _ _ _ _ _ Hne Hres).
    unfold try_except. now rewrite decide_True.
  - destruct (resolve_source_lang_emits E text source_lang st) as (evs & Htr & Hq).
    rewrite Hres in Htr. now exists evs.
Qed.

(** Whatever the backends do, a text that is not blank is answered by the
    preferred backend and without error: the loop over the candidates
    stops at its first one, and the result 'All translation backends
    failed' is out of reach. *)
Lemma translate_text_never_fails_over text target_lang source_lang backend
    chunk_size st :
  Py.strip text <> "" ->
  exists r st',
    translate_text E text target_lang source_lang backend chunk_size st = (Ok r, st')
    /\ error r = None /\ backend_used r = Some backend.
Proof.
  intros Hne.
  destruct (resolve_source_lang_never_raises E text source_lang st)
    as (resolved & st1 & Hres).
  rewrite (translate_text_resolved _ _ _ _ _ _ _ _ Hne Hres). unfold try_except.
  destruct (decide (resolved = target_lang)); [now eexists _, _|].
  unfold bind at 1.
  assert (Hlog : exists st2,
    (if bool_decide (target_lang = "sa") && bool_decide (backend = "google")
     then log "warning" "Sanskrit may have limited support in Google Translate"
     else ret tt) st1 = (Ok tt, st2))
    by (destruct (_ && _); eexists; reflexivity).
  destruct Hlog as (st2 & ->). unfold bind at 1. unfold call at 1.
  unfold bind at 1.
  destruct (try_backends_first E backend ["google"; "libre"; "mymemory"]
              (_split_text_into_chunks text chunk_size) target_lang resolved
              (mkState (world st2) (trace st2 ++ [EvChunker text chunk_size])))
    as (ts & st3 & -> & _).
  now eexists _, _.
Qed.

(** The only result with an error that [translate_text] produces is that
    of the blank-input branch, and it names the requested backend. *)
Lemma translate_text_error_only_blank text target_lang source_lang backend
    chunk_size st r st' :
  translate_text E text target_lang source_lang backend chunk_size st = (Ok r, st') ->
  error r <> None ->
  Py.strip text = ""
  /\ r = mkTranslation "" source_lang target_lang (Some backend) 0
           (Some "Empty text provided") None.
Proof.
  intros Hrun Herr. destruct (decide (Py.strip text = "")) as [Hb | Hne].
  - rewrite (translate_text_blank _ _ _ _ _ _ Hb) in Hrun. split; congruence.
  - destruct (translate_text_never_fails_over text target_lang source_lang backend
                chunk_size st Hne) as (r' & st'' & Hrun' & Hnone & _).
    congruence.
Qed.

(** C3, at the failing input: the empty text with target 'en', source
    'auto' and backend 'google'.  The result carries the error 'Empty text
    provided' together with [backend_used = 'google'], not [None]. *)
Theorem translate_text_empty_input_names_backend (st : state W) :
  translate_text E "" "en" "auto" "google" 5000 st =
  (Ok (mkTranslation "" "auto" "en" (Some "google") 0
         (Some "Empty text provided") None), st).
Proof. reflexivity. Qed.

End TranslateText.

Section TranslatorExamples.
Import Translator.

Lemma detect_language_short_text_witness :
  Py.len (_clean_text_for_detection (Samples.backends Samples.only_google) "hi") < 10
  /\ detect_language (Samples.backends Samples.only_google) "hi" Samples.st0 =
       (Ok (mkDetection "unknown" 0 "Unknown"
              (Some "Text too short for reliable detection")), Samples.st0).
Proof.
  assert (H : Py.len (_clean_text_for_detection
                        (Samples.backends Samples.only_google) "hi") < 10)
    by reflexivity.
  split; [exact H|].
  exact (proj1 (detect_language_short_text
                  (Samples.backends Samples.only_google) "hi" Samples.st0 H)).
Defined.

(** C8, as stated, fails on the error text: for "hi" and for the empty
    text the result is language 'unknown' with confidence 0.0, but the
    error is 'Text too short for reliable detection', not 'text too
    short'. *)
Lemma detect_language_short_text_message :
  Py.len (_clean_text_for_detection (Samples.backends Samples.only_google) "hi") < 10
  /\ (forall r st',
       detect_language (Samples.backends Samples.only_google) "hi" Samples.st0
       = (Ok r, st') ->
       language r = "unknown" /\ confidence r = 0%Q
       /\ det_error r <> Some "text too short")
  /\ (forall r st',
       detect_language (Samples.backends Samples.only_google) "" Samples.st0
       = (Ok r, st') ->
       det_error r <> Some "text too short").
Proof.
  split; [reflexivity|]. split.
  - intros r st' [= <- _]. repeat split. discriminate.
  - intros r st' [= <- _]. discriminate.
Qed.

Lemma translate_chunk_total_witness :
  backend_class "bing" = None
  /\ exists st',
       _translate_chunk (Samples.backends Samples.only_google)
         "good morning" "hi" "en" "bing" Samples.st0 = (Ok "good morning", st').
Proof.
  assert (H : backend_class "bing" = None) by reflexivity.
  split; [exact H|].
  destruct (translate_chunk_total (Samples.backends Samples.only_google)
              "good morning" "hi" "en" "bing" Samples.st0)
    as (s & st' & Hrun & Hnone & _).
  exists st'. rewrite Hrun. now rewrite (Hnone H).
Defined.

Lemma translate_text_same_language_witness :
  Py.strip "hello" <> ""
  /\ translate_text (Samples.backends Samples.only_google)
       "hello" "en" "auto" "google" 5000 Samples.st0 =
     (Ok (mkTranslation "hello" "en" "en" (Some "google") 1 None
            (Some "No translation needed - same language")), Samples.st0).
Proof.
  assert (H1 : Py.strip "hello" <> "") by (vm_compute; discriminate).
  assert (H2 : resolve_source_lang (Samples.backends Samples.only_google)
                 "hello" "auto" Samples.st0 = (Ok "en", Samples.st0))
    by reflexivity.
  split; [exact H1|].
  exact (proj1 (translate_text_same_language
                  (Samples.backends Samples.only_google)
                  "hello" "en" "auto" "google" 5000 Samples.st0 Samples.st0 H1 H2)).
Defined.

(** A text of blanks only counts as empty input: the one space " " with
    source and target both 'en' gets the error 'Empty text provided',
    empty [translated_text] and [chunks_processed = 0], and no source is
    resolved for it. *)
Lemma translate_text_blank_same_language :
  " " <> ""
  /\ resolve_source_lang (Samples.backends Samples.only_google) " " "en" Samples.st0
     = (Ok "en", Samples.st0)
  /\ forall r st',
       translate_text (Samples.backends Samples.only_google)
         " " "en" "en" "google" 5000 Samples.st0 = (Ok r, st') ->
       translated_text r <> " " /\ chunks_processed r <> 1 /\ error r <> None.
Proof.
  split; [discriminate|]. split; [reflexivity|].
  intros r st' [= <- _]. repeat split; discriminate.
Qed.

(** C1, at the failing input: two chunks ("good", "morning"), target 'hi',
    source 'en', and backends of which only google works.  Asked for
    google, the result is the google translation of the two chunks joined
    by a space.  Asked for microsoft, whose translator raises on every
    chunk, the result is not that of google: it is the untranslated text,
    with [backend_used = 'microsoft'] and no error; the trace shows the
    two failures logged by [_translate_chunk] and no call to google. *)
Theorem translate_text_preferred_raises :
  fst (translate_text (Samples.backends Samples.only_google)
         "good morning" "hi" "en" "google" 6 Samples.st0)
  = Ok (mkTranslation "[hi]good [hi]morning" "en" "hi" (Some "google") 2 None None)
  /\ translate_text (Samples.backends Samples.only_google)
       "good morning" "hi" "en" "microsoft" 6 Samples.st0
     = (Ok (mkTranslation "good morning" "en" "hi" (Some "microsoft") 2 None None),
        mkState tt
          [EvChunker "good morning" 6;
           EvNewTranslator MicrosoftTranslator "en" "hi";
           EvTranslate MicrosoftTranslator "good";
           EvLog "error" "Chunk translation failed with microsoft: service unavailable";
           EvSleep;
           EvNewTranslator MicrosoftTranslator "en" "hi";
           EvTranslate MicrosoftTranslator "morning";
           EvLog "error" "Chunk translation failed with microsoft: service unavailable"]).
Proof. split; reflexivity. Qed.

(** C2, at the failing input: the same two chunks with backends that all
    raise on every chunk.  The result is not the error 'All translation
    backends failed': it is the untranslated text with
    [backend_used = 'google'], [chunks_processed = 2] and [error = None],
    and the trace shows a single pass over the chunks, with google alone:
    libre and mymemory are not tried. *)
Theorem translate_text_all_backends_raise :
  translate_text (Samples.backends Samples.none_works)
    "good morning" "hi" "en" "google" 6 Samples.st0
  = (Ok (mkTranslation "good morning" "en" "hi" (Some "google") 2 None None),
     mkState tt
       [EvChunker "good morning" 6;
        EvNewTranslator GoogleTranslator "en" "hi";
        EvTranslate GoogleTranslator "good";
        EvLog "error" "Chunk translation failed with google: service unavailable";
        EvSleep;
        EvNewTranslator GoogleTranslator "en" "hi";
        EvTranslate GoogleTranslator "morning";
        EvLog "error" "Chunk translation failed with google: service unavailable"]).
Proof. reflexivity. Qed.

End TranslatorExamples.

(** ** The document processor *)

(** Case analysis on every outcome the run recorded in [H] goes through. *)
Ltac run_cases H :=
  repeat match type of H with
         | context [match ?x with _ => _ end] =>
             lazymatch x with
             | context [match _ with _ => _ end] => fail
             | _ => destruct x eqn:?
             end
         end.

Section ProcessorFacts.
Import DocumentProcessor.
Context {W : Type} (E : Env W).

Lemma extract_pdf_text_trimmed input st r st' :
  _extract_pdf_text E input st = (Ok r, st') ->
  Py.strip (text r) = text r /\ (error r <> None -> text r = "").
Proof.
  intros H. unfold _extract_pdf_text, try_except, bind, call, log, ret in H.
  run_cases H; injection H as <- <-; cbn [text error];
    (split; [first [apply strip_idem | reflexivity] | congruence]).
Qed.

Lemma extract_docx_text_trimmed input st r st' :
  _extract_docx_text E input st = (Ok r, st') ->
  (method r = Some "python-docx" -> Py.strip (text r) = text r)
  /\ (error r <> None -> text r = "").
Proof.
  intros H. unfold _extract_docx_text, try_except, bind, call, log, ret in H.
  run_cases H; injection H as <- <-; cbn [text error method];
    (split; [first [intros _; apply strip_idem | discriminate] | congruence]).
Qed.

Lemma encodings_loop_verbatim input encodings : forall st r st',
  encodings_loop E input encodings st = (Ok r, st') ->
  (error r <> None -> text r = "")
  /\ (error r = None ->
      exists encoding st0, read_as E input encoding st0 = (Ok (text r), st')).
Proof.
  induction encodings as [|encoding rest IH]; intros st r st' H.
  - injection H as <- <-. cbn [text error]. split; [reflexivity | discriminate].
  - cbn [encodings_loop] in H. unfold try_except, bind, ret in H.
    destruct (read_as E input encoding st) as [[s | e] st1] eqn:Hread.
    + injection H as <- <-. cbn [text error]. split; [congruence|].
      intros _. now exists encoding, st.
    + now apply IH in H.
Qed.

Lemma extract_txt_text_verbatim input st r st' :
  _extract_txt_text E input st = (Ok r, st') ->
  (error r <> None -> text r = "")
  /\ (error r = None ->
      exists encoding st0, read_as E input encoding st0 = (Ok (text r), st')).
Proof.
  intros H. unfold _extract_txt_text, try_except, bind, ret in H.
  destruct (read_as E input "utf-8" st) as [[s | e] st1] eqn:Hread.
  - injection H as <- <-. cbn [text error]. split; [congruence|].
    intros _. now exists "utf-8", st.
  - destruct e; try (unfold log in H; injection H as <- <-; cbn [text error];
                     split; [reflexivity | discriminate]).
    now apply encodings_loop_verbatim in H.
Qed.

Lemma extract_text_returns input file_extension :
  never_raises (extract_text E input file_extension).
Proof.
  unfold extract_text. apply never_raises_try_except. intros e.
  apply never_raises_bind; [apply never_raises_log | intros; apply never_raises_ret].
Qed.

(** C6, as amended: [extract_text] returns for every input, and the text
    it returns is trimmed when it comes from the PDF branch (both methods)
    or from the primary DOCX method, and is empty with every error; the
    plain-text branch returns, untrimmed, exactly the text that reading or
    decoding the input in one of the encodings gave. *)
Theorem extract_text_trimmed (input : file_input) (file_extension : string)
    (st : state W) :
  exists r st',
    extract_text E input file_extension st = (Ok r, st')
    /\ (Py.lower file_extension = ".pdf" -> Py.strip (text r) = text r)
    /\ (Py.lower file_extension = ".docx" -> method r = Some "python-docx" ->
        Py.strip (text r) = text r)
    /\ (error r <> None -> text r = "")
    /\ (Py.lower file_extension = ".txt" -> error r = None ->
        exists encoding st0, read_as E input encoding st0 = (Ok (text r), st')).
Proof.
  destruct (extract_text_returns input file_extension st) as (r & st' & H).
  exists r, st'. split; [exact H|].
  unfold extract_text, try_except in H. cbv zeta in H.
  destruct (decide (Py.lower file_extension = ".pdf")) as [Hpdf | Hpdf].
  { destruct (_extract_pdf_text E input st) as [[r0 | e] st1] eqn:Hrun.
    - injection H as <- <-. apply extract_pdf_text_trimmed in Hrun as [H1 H2].
      rewrite Hpdf. repeat split; try discriminate; auto.
    - unfold bind, log, ret in H. injection H as <- <-. cbn [text error method].
      rewrite Hpdf. repeat split; try discriminate; auto. }
  destruct (decide (Py.lower file_extension = ".docx")) as [Hdocx | Hdocx].
  { destruct (_extract_docx_text E input st) as [[r0 | e] st1] eqn:Hrun.
    - injection H as <- <-. apply extract_docx_text_trimmed in Hrun as [H1 H2].
      rewrite Hdocx. repeat split; try discriminate; auto.
    - unfold bind, log, ret in H. injection H as <- <-. cbn [text error method].
      rewrite Hdocx. repeat split; try discriminate; auto. }
  destruct (decide (Py.lower file_extension = ".txt")) as [Htxt | Htxt].
  { destruct (_extract_txt_text E input st) as [[r0 | e] st1] eqn:Hrun.
    - injection H as <- <-. apply extract_txt_text_verbatim in Hrun as [H1 H2].
      repeat split; try congruence; auto.
    - unfold bind, log, ret in H. injection H as <- <-. cbn [text error method].
      repeat split; try congruence; auto; discriminate. }
  unfold raise, bind, log, ret in H. injection H as <- <-. cbn [text error method].
  repeat split; try congruence; auto.
Qed.

Lemma extract_pdf_text_returns input : never_raises (_extract_pdf_text E input).
Proof.
  unfold _extract_pdf_text. apply never_raises_try_except. intros e.
  apply never_raises_bind; [apply never_raises_log|]. intros _.
  apply never_raises_try_except. intros e2.
  apply never_raises_bind; [apply never_raises_log | intros; apply never_raises_ret].
Qed.

Lemma extract_docx_text_returns input : never_raises (_extract_docx_text E input).
Proof.
  unfold _extract_docx_text. apply never_raises_try_except. intros e.
  apply never_raises_bind; [apply never_raises_log|]. intros _.
  apply never_raises_try_except. intros e2.
  apply never_raises_bind; [apply never_raises_log | intros; apply never_raises_ret].
Qed.

Lemma encodings_loop_returns input encodings :
  never_raises (encodings_loop E input encodings).
Proof.
  induction encodings as [|encoding rest IH]; cbn [encodings_loop].
  - apply never_raises_ret.
  - apply never_raises_try_except. intros _. exact IH.
Qed.

Lemma extract_txt_text_returns input : never_raises (_extract_txt_text E input).
Proof.
  unfold _extract_txt_text. apply never_raises_try_except.
  intros []; try (apply never_raises_bind;
                  [apply never_raises_log | intros; apply never_raises_ret]).
  apply encodings_loop_returns.
Qed.

(** C10: the extension is lower-cased before the dispatch, so
    [extract_text] on an extension is [extract_text] on its lower-case form
    ('.PDF' and '.Pdf' go exactly where '.pdf' goes): the lower-case forms
    '.pdf', '.docx' and '.txt' select the three extraction methods, and
    when the lower-case form is none of them the call returns, without
    raising, the result with [text = ''], [pages = 0] and the error
    'Unsupported file format: <extension>'. *)
Theorem extract_text_dispatch (input : file_input) (file_extension : string)
    (st : state W) :
  extract_text E input file_extension st
    = extract_text E input (Py.lower file_extension) st
  /\ extract_text E input ".PDF" st = extract_text E input ".pdf" st
  /\ extract_text E input ".Pdf" st = extract_text E input ".pdf" st
  /\ (Py.lower file_extension = ".pdf" ->
      extract_text E input file_extension st = _extract_pdf_text E input st)
  /\ (Py.lower file_extension = ".docx" ->
      extract_text E input file_extension st = _extract_docx_text E input st)
  /\ (Py.lower file_extension = ".txt" ->
      extract_text E input file_extension st = _extract_txt_text E input st)
  /\ (Py.lower file_extension <> ".pdf" -> Py.lower file_extension <> ".docx" ->
      Py.lower file_extension <> ".txt" ->
      exists st',
        extract_text E input file_extension st =
        (Ok (mkExtraction "" (Some 0) None None None None
               (Some ("Unsupported file format: " +:+ Py.lower file_extension))),
         st')).
Proof.
  split; [|split; [|split; [|split; [|split; [|split]]]]].
  - unfold extract_text. cbv zeta. now rewrite lower_idem.
  - reflexivity.
  - reflexivity.
  - intros Hext. unfold extract_text. cbv zeta. rewrite Hext.
    rewrite decide_True by reflexivity.
    apply try_except_unused, extract_pdf_text_returns.
  - intros Hext. unfold extract_text. cbv zeta. rewrite Hext.
    rewrite decide_False by discriminate. rewrite decide_True by reflexivity.
    apply try_except_unused, extract_docx_text_returns.
  - intros Hext. unfold extract_text. cbv zeta. rewrite Hext.
    rewrite !decide_False by discriminate. rewrite decide_True by reflexivity.
    apply try_except_unused, extract_txt_text_returns.
  - intros Hpdf Hdocx Htxt. unfold extract_text, try_except. cbv zeta.
    rewrite !decide_False by assumption. now eexists.
Qed.

End ProcessorFacts.

Section ProcessorExamples.
Import DocumentProcessor.

Lemma extract_text_trimmed_witness :
  Py.lower ".PDF" = ".pdf"
  /\ exists r st',
       extract_text Samples.one_page_pdf (RawBytes []) ".PDF" Samples.st0 = (Ok r, st')
       /\ Py.strip (text r) = text r.
Proof.
  assert (H : Py.lower ".PDF" = ".pdf") by reflexivity.
  split; [exact H|].
  destruct (extract_text_trimmed Samples.one_page_pdf (RawBytes []) ".PDF" Samples.st0)
    as (r & st' & Hrun & Hpdf & _).
  exists r, st'. split; [exact Hrun | exact (Hpdf H)].
Defined.

(** The PDF branch at work: a page text with blanks around it comes back
    trimmed. *)
Example extract_text_one_page :
  extract_text Samples.one_page_pdf (RawBytes []) ".PDF" Samples.st0 =
  (Ok (mkExtraction "Hello PDF" (Some 1) None None None (Some "PyMuPDF") None),
   mkState tt [EvLib "fitz.open"; EvLib "page.get_text"; EvLib "doc.close"]).
Proof. reflexivity. Qed.

(** C6, as stated, fails in the plain-text branch: the bytes of " hi "
    with the extension '.txt' come back as " hi ", blanks included. *)
Lemma extract_text_txt_untrimmed :
  exists r st',
    extract_text Samples.text_files (RawBytes (list_byte_of_string " hi ")) ".txt"
      Samples.st0 = (Ok r, st')
    /\ error r = None /\ text r = " hi " /\ Py.strip (text r) <> text r.
Proof.
  eexists _, _. split; [reflexivity|]. cbn [text error].
  repeat split. vm_compute. discriminate.
Qed.

Lemma extract_text_dispatch_witness :
  Py.lower ".XLSX" = ".xlsx"
  /\ exists st',
       extract_text Samples.text_files (RawBytes []) ".XLSX" Samples.st0 =
       (Ok (mkExtraction "" (Some 0) None None None None
              (Some "Unsupported file format: .xlsx")), st').
Proof.
  split; [reflexivity|].
  destruct (extract_text_dispatch Samples.text_files (RawBytes []) ".XLSX" Samples.st0)
    as (_ & _ & _ & _ & _ & _ & H).
  apply H; vm_compute; discriminate.
Defined.

End ProcessorExamples.

(** ** The PDF renderer *)

Section RendererFacts.
Import DocumentUtils.
Context {W P : Type} (E : Env W P).

Lemma never_raises_call {A} ev (op : W -> outcome A * W) :
  (forall w, exists a w', op w = (Ok a, w')) -> never_raises (call ev op).
Proof.
  intros Hop st. unfold call. destruct (Hop (world st)) as (a & w' & ->).
  now eexists _, _.
Qed.

Lemma never_raises_call_unit ev (op : W -> outcome unit * W) :
  (forall w, exists w', op w = (Ok tt, w')) -> never_raises (call ev op).
Proof.
  intros Hop. apply never_raises_call. intros w.
  destruct (Hop w) as (w' & ->). now eexists _, _.
Qed.

Lemma pdf_cell_returns pdf w h txt align :
  dependable E -> never_raises (pdf_cell E pdf w h txt align).
Proof. intros HE. apply never_raises_call_unit. intros ?. apply HE. Qed.

Lemma wrap_loop_returns pdf words : forall current_line,
  dependable E -> never_raises (wrap_loop E pdf words current_line).
Proof.
  induction words as [|word rest IH]; intros current_line HE; cbn [wrap_loop].
  - apply never_raises_ret.
  - destruct (Py.len (current_line +:+ word +:+ " ") >? 80); [|now apply IH].
    apply never_raises_bind; [|intros _; now apply IH].
    destruct (Py.truthy current_line);
      [now apply pdf_cell_returns | apply never_raises_ret].
Qed.

(** With a dependable FPDF the body loop returns for every list of lines:
    blank lines, and lines of any length, raise nothing of their own. *)
Lemma lines_loop_returns pdf lines :
  dependable E -> never_raises (lines_loop E pdf lines).
Proof.
  intros HE. induction lines as [|line rest IH]; cbn [lines_loop].
  - apply never_raises_ret.
  - apply never_raises_bind; [|intros _; exact IH].
    destruct (Py.truthy (Py.strip line)).
    + destruct (Py.len line >? 80); [|now apply pdf_cell_returns].
      apply never_raises_bind; [now apply wrap_loop_returns|].
      intros current_line. destruct (Py.truthy current_line);
        [now apply pdf_cell_returns | apply never_raises_ret].
    + apply never_raises_call_unit. intros ?. apply HE.
Qed.

Lemma render_translation_returns original_filename translated_text
    source_lang target_lang :
  dependable E ->
  never_raises (render_translation E original_filename translated_text
                  source_lang target_lang).
Proof.
  intros HE. unfold render_translation.
  apply never_raises_bind; [apply never_raises_call; intros ?; apply HE|]. intros pdf.
  repeat (apply never_raises_bind;
          [first [apply never_raises_call_unit; intros ?; apply HE
                 | now apply pdf_cell_returns
                 | now apply lines_loop_returns
                 | apply never_raises_call; intros ?; apply HE]
          | intros ?]).
  intros st. unfold bind, call.
  destruct (dep_output E HE pdf "S" (world st)) as (b & w' & ->).
  now eexists _, _.
Qed.

Lemma bind_ok {A B} (m : M W A) (k : A -> M W B) st b st' :
  bind m k st = (Ok b, st') ->
  exists a st1, m st = (Ok a, st1) /\ k a st1 = (Ok b, st').
Proof.
  unfold bind. destruct (m st) as [[a | e] st1]; [eauto | discriminate].
Qed.

Lemma output_to_bytes pdf st b st' :
  (out <- call (EvLib "FPDF.output") (output E pdf "S") ;; lift (to_bytes out)) st
    = (Ok b, st') ->
  exists w w', output E pdf "S" w = (Ok (Bytearray b), w').
Proof.
  intros H. apply bind_ok in H as (out & st1 & Hcall & Hlift).
  unfold call in Hcall. destruct (output E pdf "S" (world st)) as [r w'] eqn:Ho.
  injection Hcall as -> _. destruct out as [b0 | s]; [|discriminate].
  injection Hlift as <- _. eauto.
Qed.

(** What the main rendering returns is the buffer of an [output] call. *)
Lemma render_translation_output original_filename translated_text
    source_lang target_lang st b st' :
  render_translation E original_filename translated_text source_lang target_lang st
    = (Ok b, st') ->
  exists pdf w w', output E pdf "S" w = (Ok (Bytearray b), w').
Proof.
  intros H. unfold render_translation in H.
  apply bind_ok in H as (pdf & ? & _ & H). exists pdf.
  do 11 (apply bind_ok in H as (? & ? & _ & H)).
  now apply output_to_bytes in H.
Qed.

Lemma render_error_page_output e st b st' :
  render_error_page E e st = (Ok b, st') ->
  exists pdf w w', output E pdf "S" w = (Ok (Bytearray b), w').
Proof.
  intros H. unfold render_error_page in H.
  apply bind_ok in H as (? & ? & _ & H).
  apply bind_ok in H as (pdf & ? & _ & H). exists pdf.
  do 5 (apply bind_ok in H as (? & ? & _ & H)).
  now apply output_to_bytes in H.
Qed.

(** What the handler does give: [create_translated_pdf] propagates no
    exception of the main rendering.  Provided the rendering of the error
    page does not itself raise, the call returns for every input; when
    the main rendering raised, what it returns is the error page naming
    that failure; and the bytes returned are not empty as long as the
    buffer FPDF's [output] hands back is not. *)
Lemma create_translated_pdf_recovers (original_filename translated_text
    source_lang target_lang : string) (st : state W) :
  (forall e, never_raises (render_error_page E e)) ->
  output_nonempty E ->
  exists b st',
    create_translated_pdf E original_filename translated_text
      source_lang target_lang st = (Ok b, st')
    /\ b <> []
    /\ (forall e st1,
         render_translation E original_filename translated_text
           source_lang target_lang st = (Raise e, st1) ->
         render_error_page E e st1 = (Ok b, st')).
Proof.
  intros Hpage Hout. unfold create_translated_pdf, try_except.
  destruct (render_translation E original_filename translated_text
              source_lang target_lang st) as [[b | e] st1] eqn:Hmain.
  - exists b, st1. split; [reflexivity|]. split; [|discriminate].
    destruct (render_translation_output _ _ _ _ _ _ _ Hmain) as (pdf & w & w' & Ho).
    exact (Hout _ _ _ _ _ Ho).
  - destruct (Hpage e st1) as (b & st2 & Herr). exists b, st2.
    split; [exact Herr|]. split.
    + destruct (render_error_page_output _ _ _ _ Herr) as (pdf & w & w' & Ho).
      exact (Hout _ _ _ _ _ Ho).
    + intros e' st1' [= <- <-]. exact Herr.
Qed.

(** With a dependable FPDF the main rendering of every input returns, so
    the error page is not even needed: whitespace-only text and lines
    longer than 80 characters included. *)
Lemma create_translated_pdf_dependable original_filename translated_text
    source_lang target_lang st :
  dependable E ->
  exists b st',
    create_translated_pdf E original_filename translated_text
      source_lang target_lang st = (Ok b, st')
    /\ render_translation E original_filename translated_text
         source_lang target_lang st = (Ok b, st').
Proof.
  intros HE. unfold create_translated_pdf, try_except.
  destruct (render_translation_returns original_filename translated_text
              source_lang target_lang HE st) as (b & st1 & ->).
  now exists b, st1.
Qed.

End RendererFacts.

Section RendererExamples.
Import DocumentUtils.

Lemma fpdf2_error_page e : never_raises (render_error_page Samples.fpdf2 e).
Proof. intros st. eexists _, _. reflexivity. Qed.

Lemma fpdf2_output_nonempty : output_nonempty Samples.fpdf2.
Proof. intros pdf dest w b w' [= <- _]. discriminate. Qed.

Lemma create_translated_pdf_recovers_fpdf2 :
  exists b st',
    create_translated_pdf Samples.fpdf2 "report.txt" "   " "en" "hi" Samples.st0
    = (Ok b, st')
    /\ b <> [].
Proof.
  destruct (create_translated_pdf_recovers Samples.fpdf2 "report.txt" "   " "en" "hi"
              Samples.st0 fpdf2_error_page fpdf2_output_nonempty)
    as (b & st' & H1 & H2 & _).
  now exists b, st'.
Qed.

(** Another way into the same defect: with an FPDF whose
    [output(dest='S')] is a [str] (PyFPDF under Python 3), [bytes(...)]
    raises a TypeError in the main rendering, the handler renders the
    error page, and the same [bytes(...)] raises again, this time outside
    any [try]: the call raises. *)
Lemma create_translated_pdf_raises :
  fst (create_translated_pdf Samples.pyfpdf "report.txt" "hello" "en" "hi" Samples.st0)
  = Raise (TypeError "string argument without an encoding")
  /\ ~ exists b st',
        create_translated_pdf Samples.pyfpdf "report.txt" "hello" "en" "hi" Samples.st0
        = (Ok b, st').
Proof.
  split; [reflexivity|]. intros (b & st' & H). vm_compute in H. discriminate.
Qed.

End RendererExamples.

(** ** The error page of the PDF renderer *)

Section FontFacts.
Context (font : ascii -> bool).
Hypothesis font_covers_blanks : forall ch, Py.isspace ch = true -> font ch = true.

Lemma outside_app a b : outside font (a +:+ b) = outside font a || outside font b.
Proof.
  unfold outside. induction a as [|x a IH]; [reflexivity|].
  change (String x a +:+ b) with (String x (a +:+ b)).
  cbn [list_ascii_of_string existsb]. rewrite IH. now rewrite orb_assoc.
Qed.

Lemma outside_cons c s : outside font (String c s) = negb (font c) || outside font s.
Proof. reflexivity. Qed.

Lemma outside_lstrip s : outside font (Py.lstrip s) = outside font s.
Proof.
  induction s as [|c s IH]; [reflexivity|].
  cbn [Py.lstrip]. destruct (Py.isspace c) eqn:Hc; [|reflexivity].
  rewrite IH, outside_cons, (font_covers_blanks c Hc). reflexivity.
Qed.

Lemma outside_rstrip s : outside font (Py.rstrip s) = outside font s.
Proof.
  induction s as [|c s IH]; [reflexivity|].
  cbn [Py.rstrip]. rewrite (outside_cons c s), <- IH.
  destruct (Py.rstrip s) as [|d r].
  - destruct (Py.isspace c) eqn:Hc; [|reflexivity].
    now rewrite (font_covers_blanks c Hc).
  - reflexivity.
Qed.

Lemma outside_strip s : outside font (Py.strip s) = outside font s.
Proof. unfold Py.strip. now rewrite outside_rstrip, outside_lstrip. Qed.

(** Cutting at a character of the font loses no character outside it. *)
Lemma outside_split_on sep s :
  font sep = true ->
  existsb (outside font) (Py.split_on sep s) = outside font s.
Proof.
  intros Hsep. induction s as [|c s IH]; [reflexivity|].
  cbn [Py.split_on]. destruct (Ascii.eqb_spec c sep) as [-> | Hc].
  - cbn [existsb]. rewrite IH, outside_cons, Hsep. reflexivity.
  - destruct (Py.split_on sep s) as [|w ws].
    + cbn [existsb] in *. rewrite !outside_cons, <- IH.
      change (outside font "") with false. now rewrite !orb_false_r.
    + cbn [existsb] in *. rewrite !outside_cons, <- IH. now rewrite orb_assoc.
Qed.

End FontFacts.

Section ErrorPageFacts.
Import DocumentUtils.
Context {W P : Type} (E : Env W P) (font : ascii -> bool).
Hypothesis HE : core_font E font.

Lemma quoting_bind {A B} (m : M W A) (k : A -> M W B) st :
  quoting font (m st) -> quoting font (bind m k st).
Proof.
  intros (e & st' & Hm & Hq). unfold bind. rewrite Hm. now exists e, st'.
Qed.

Lemma bind_returned {A B} (m : M W A) (k : A -> M W B) st a st1 :
  m st = (Ok a, st1) -> bind m k st = k a st1.
Proof. intros Hm. unfold bind. now rewrite Hm. Qed.

Lemma pdf_cell_cases pdf w h txt align st :
  if outside font txt then quoting font (pdf_cell E pdf w h txt align st)
  else exists st', pdf_cell E pdf w h txt align st = (Ok tt, st').
Proof.
  unfold pdf_cell, call. destruct (outside font txt) eqn:Ho.
  - destruct (font_cell_outside E font HE pdf w h txt true align (world st) Ho)
      as (e & w' & -> & Hq).
    now eexists _, _.
  - destruct (font_cell_inside E font HE pdf w h txt true align (world st) Ho)
      as (w' & ->).
    now eexists.
Qed.

Lemma blank_inside : outside font " " = false.
Proof.
  unfold outside. cbn [list_ascii_of_string existsb].
  now rewrite (font_blanks E font HE " "%char eq_refl).
Qed.

Lemma newline_inside : font "010"%char = true.
Proof. exact (font_blanks E font HE "010"%char eq_refl). Qed.

(** The wrapping loop raises with a character outside the font in the
    message, or it returns, and then what it leaves to be written has a
    character outside the font exactly when the line it was given or the
    words it went through had one: nothing outside the font was written
    on the way. *)
Lemma wrap_loop_outside pdf words : forall current_line st,
  quoting font (wrap_loop E pdf words current_line st)
  \/ exists final st',
       wrap_loop E pdf words current_line st = (Ok final, st')
       /\ outside font final
          = outside font current_line || existsb (outside font) words.
Proof.
  induction words as [|word rest IH]; intros current_line st;
    cbn [wrap_loop existsb].
  - right. exists current_line, st. split; [reflexivity | now rewrite orb_false_r].
  - assert (Hword : outside font (word +:+ " ") = outside font word)
      by (now rewrite outside_app, blank_inside, orb_false_r).
    destruct (Py.len (current_line +:+ word +:+ " ") >? 80).
    + destruct current_line as [|c current_line]; cbn [Py.truthy].
      * rewrite (bind_returned (ret tt) _ st tt st eq_refl).
        destruct (IH (word +:+ " ") st) as [Hq | (final & st' & Hrun & Hout)];
          [now left|].
        right. exists final, st'. split; [exact Hrun|]. now rewrite Hout, Hword.
      * pose proof (pdf_cell_cases pdf 0 6 (Py.strip (String c current_line)) "" st)
          as Hcell.
        rewrite (outside_strip font (font_blanks E font HE)) in Hcell.
        destruct (outside font (String c current_line)).
        { left. now apply quoting_bind. }
        destruct Hcell as (st1 & Hcell). rewrite (bind_returned _ _ _ _ _ Hcell).
        destruct (IH (word +:+ " ") st1) as [Hq | (final & st' & Hrun & Hout)];
          [now left|].
        right. exists final, st'. split; [exact Hrun|]. now rewrite Hout, Hword.
    + destruct (IH (current_line +:+ word +:+ " ") st)
        as [Hq | (final & st' & Hrun & Hout)]; [now left|].
      right. exists final, st'. split; [exact Hrun|].
      now rewrite Hout, outside_app, Hword, orb_assoc.
Qed.

(** The loop over the lines raises with a character outside the font in
    the message, or it returns, and then no line had such a character. *)
Lemma lines_loop_outside pdf lines : forall st,
  quoting font (lines_loop E pdf lines st)
  \/ exists st',
       lines_loop E pdf lines st = (Ok tt, st')
       /\ existsb (outside font) lines = false.
Proof.
  induction lines as [|line rest IH]; intros st; cbn [lines_loop existsb].
  - right. now exists st.
  - match goal with
    | |- quoting font (bind ?A ?K st) \/ _ =>
        assert (HA : quoting font (A st)
                     \/ exists st1, A st = (Ok tt, st1) /\ outside font line = false)
    end.
    { destruct (Py.truthy (Py.strip line)) eqn:Hblank.
      - destruct (Py.len line >? 80).
        + destruct (wrap_loop_outside pdf (Py.split_on " " line) "" st)
            as [Hq | (final & st1 & Hrun & Hout)]; [left; now apply quoting_bind|].
          rewrite (bind_returned _ _ _ _ _ Hrun).
          rewrite (outside_split_on font " " line
                     (font_blanks E font HE " "%char eq_refl)) in Hout.
          change (outside font "") with false in Hout. cbn [orb] in Hout.
          destruct final as [|c final]; cbn [Py.truthy].
          * right. exists st1. split; [reflexivity | now rewrite <- Hout].
          * pose proof (pdf_cell_cases pdf 0 6 (Py.strip (String c final)) "" st1)
              as Hcell.
            rewrite (outside_strip font (font_blanks E font HE)), Hout in Hcell.
            destruct (outside font line); [now left|].
            destruct Hcell as (st2 & ->). right. now exists st2.
        + pose proof (pdf_cell_cases pdf 0 6 line "" st) as Hcell.
          destruct (outside font line); [now left|].
          destruct Hcell as (st2 & ->). right. now exists st2.
      - right.
        destruct (never_raises_call_unit (EvLib "FPDF.ln") (ln E pdf 3)
                    (font_ln E font HE pdf 3) st) as ([] & st1 & ->).
        exists st1. split; [reflexivity|].
        rewrite <- (outside_strip font (font_blanks E font HE)).
        now destruct (Py.strip line). }
    destruct HA as [Hq | (st1 & HA & Hline)]; [left; now apply quoting_bind|].
    rewrite (bind_returned _ _ _ _ _ HA), Hline. cbn [orb]. apply IH.
Qed.

Ltac returned_call Hop :=
  match goal with
  | |- quoting _ (bind (call ?ev ?op) ?k ?st) =>
      let a := fresh "a" in
      let st1 := fresh "st" in
      let Hc := fresh "Hc" in
      destruct (never_raises_call ev op Hop st) as (a & st1 & Hc);
      rewrite (bind_returned _ _ _ _ _ Hc); clear Hc; cbv beta
  end.

Ltac returned_unit_call Hop :=
  match goal with
  | |- quoting _ (bind (call ?ev ?op) ?k ?st) =>
      let a := fresh "a" in
      let st1 := fresh "st" in
      let Hc := fresh "Hc" in
      destruct (never_raises_call_unit ev op Hop st) as (a & st1 & Hc);
      rewrite (bind_returned _ _ _ _ _ Hc); clear Hc; cbv beta
  end.

Ltac cell_written Ho :=
  match goal with
  | |- quoting _ (bind (pdf_cell _ ?pdf ?w ?h ?txt ?al) ?k ?st) =>
      let Hcell := fresh "Hcell" in
      let st1 := fresh "st" in
      pose proof (pdf_cell_cases pdf w h txt al st) as Hcell;
      destruct (outside font txt) eqn:Ho;
      [now apply quoting_bind
      | destruct Hcell as (st1 & Hcell);
        rewrite (bind_returned _ _ _ _ _ Hcell); clear Hcell; cbv beta]
  end.

(** The main rendering of a file name or a text with a character outside
    the font raises, and the message has such a character in it. *)
Lemma render_translation_outside original_filename translated_text
    source_lang target_lang st :
  outside font original_filename = true \/ outside font translated_text = true ->
  quoting font (render_translation E original_filename translated_text
                  source_lang target_lang st).
Proof.
  intros Hout. unfold render_translation.
  returned_call (font_FPDF E font HE).
  returned_unit_call (font_add_page E font HE a).
  returned_unit_call (font_set_font E font HE a "Arial" "B" 16).
  cell_written Htitle.
  returned_unit_call (font_ln E font HE a 5).
  returned_unit_call (font_set_font E font HE a "Arial" "I" 10).
  cell_written Hinfo.
  returned_call (font_now E font HE "%Y-%m-%d %H:%M:%S").
  cell_written Hdate.
  returned_unit_call (font_ln E font HE a 10).
  returned_unit_call (font_set_font E font HE a "Arial" "" 12).
  destruct (lines_loop_outside a (Py.split_on "010" translated_text) st10)
    as [Hq | (st' & _ & Hnone)]; [now apply quoting_bind|].
  rewrite (outside_split_on font "010" translated_text newline_inside) in Hnone.
  rewrite outside_app in Htitle. apply orb_false_elim in Htitle as [_ Hname].
  destruct Hout; congruence.
Qed.

(** The error page for an exception whose message has a character outside
    the font raises in its turn, with such a character in the message. *)
Lemma render_error_page_outside e st :
  outside font (str_exn e) = true -> quoting font (render_error_page E e st).
Proof.
  intros He. unfold render_error_page.
  rewrite (bind_returned (log _ _) _ st tt _ eq_refl). cbv beta.
  returned_call (font_FPDF E font HE).
  returned_unit_call (font_add_page E font HE a).
  returned_unit_call (font_set_font E font HE a "Arial" "B" 16).
  cell_written Htitle.
  returned_unit_call (font_set_font E font HE a "Arial" "" 12).
  apply quoting_bind.
  pose proof (pdf_cell_cases a 0 10 ("Error creating translated PDF: " +:+ str_exn e)
                "" st4) as Hcell.
  now rewrite outside_app, He, orb_true_r in Hcell.
Qed.

(** C7: the recovery of [create_translated_pdf] fails where it is needed.
    With an FPDF whose font lacks a character, a file name or a text with
    such a character makes the main rendering raise; the handler then
    writes the message of that exception, which has the character in it,
    on the error page with the same font, outside any [try]: the error
    page raises too, and that exception leaves [create_translated_pdf]. *)
Theorem create_translated_pdf_error_page_raises (original_filename translated_text
    source_lang target_lang : string) (st : state W) :
  outside font original_filename = true \/ outside font translated_text = true ->
  exists e0 st1 e st',
    render_translation E original_filename translated_text source_lang target_lang st
      = (Raise e0, st1)
    /\ render_error_page E e0 st1 = (Raise e, st')
    /\ create_translated_pdf E original_filename translated_text
         source_lang target_lang st = (Raise e, st').
Proof.
  intros Hout.
  destruct (render_translation_outside original_filename translated_text
              source_lang target_lang st Hout) as (e0 & st1 & Hmain & Hq0).
  destruct (render_error_page_outside e0 st1 Hq0) as (e & st' & Hpage & _).
  exists e0, st1, e, st'. split; [exact Hmain|]. split; [exact Hpage|].
  unfold create_translated_pdf, try_except. now rewrite Hmain.
Qed.

End ErrorPageFacts.

Section ErrorPageExamples.
Import DocumentUtils.

Lemma find_existsb_true {A} (f : A -> bool) l :
  existsb f l = true -> exists x, List.find f l = Some x /\ f x = true.
Proof.
  induction l as [|y l IH]; [discriminate|].
  cbn [existsb List.find]. destruct (f y) eqn:Hy; [now exists y|]. exact IH.
Qed.

Lemma find_existsb_false {A} (f : A -> bool) l :
  existsb f l = false -> List.find f l = None.
Proof.
  induction l as [|y l IH]; [reflexivity|].
  cbn [existsb List.find]. destruct (f y); [discriminate | exact IH].
Qed.

Lemma narrow_fpdf_core_font : core_font Samples.narrow_fpdf Samples.narrow_font.
Proof.
  split.
  - intros w. now eexists _, _.
  - intros pdf w. now eexists.
  - intros pdf family style size w. now eexists.
  - intros pdf h w. now eexists.
  - intros fmt w. now eexists _, _.
  - intros ch Hch. unfold Samples.narrow_font. rewrite Hch. apply orb_true_r.
  - intros pdf w0 h txt ln align w Ho. cbn [cell Samples.narrow_fpdf].
    rewrite (find_existsb_false _ _ Ho). now eexists.
  - intros pdf w0 h txt ln align w Ho. cbn [cell Samples.narrow_fpdf].
    destruct (find_existsb_true _ _ Ho) as (ch & -> & Hch).
    eexists _, _. split; [reflexivity|]. cbn [str_exn].
    cbv beta in Hch.
    rewrite !outside_app, (outside_cons _ ch ""), Hch. cbn [orb]. apply orb_true_r.
Qed.

Lemma create_translated_pdf_error_page_raises_witness :
  outside Samples.narrow_font ("na" +:+ String "239" "ve") = true
  /\ exists e0 st1 e st',
       render_translation Samples.narrow_fpdf "notes.txt"
         ("na" +:+ String "239" "ve") "en" "hi" Samples.st0 = (Raise e0, st1)
       /\ render_error_page Samples.narrow_fpdf e0 st1 = (Raise e, st')
       /\ create_translated_pdf Samples.narrow_fpdf "notes.txt"
            ("na" +:+ String "239" "ve") "en" "hi" Samples.st0 = (Raise e, st').
Proof.
  assert (H : outside Samples.narrow_font ("na" +:+ String "239" "ve") = true)
    by reflexivity.
  split; [exact H|].
  exact (create_translated_pdf_error_page_raises Samples.narrow_fpdf Samples.narrow_font
           narrow_fpdf_core_font "notes.txt" ("na" +:+ String "239" "ve") "en" "hi"
           Samples.st0 (or_intror H)).
Defined.

(** The same run, step by step: the title and the two information lines
    are written, the cell of the text raises, the failure is logged, and
    the second cell of the error page raises the exception that leaves
    the call. *)
Example create_translated_pdf_unencodable_text :
  create_translated_pdf Samples.narrow_fpdf "notes.txt"
    ("na" +:+ String "239" "ve") "en" "hi" Samples.st0
  = (Raise (OtherException
              ("Character " +:+ String "239"
                 " is outside the range of characters supported by the font")),
     mkState tt
       [EvLib "FPDF"; EvLib "FPDF.add_page"; EvLib "FPDF.set_font"; EvLib "FPDF.cell";
        EvLib "FPDF.ln"; EvLib "FPDF.set_font"; EvLib "FPDF.cell";
        EvLib "datetime.now"; EvLib "FPDF.cell"; EvLib "FPDF.ln";
        EvLib "FPDF.set_font"; EvLib "FPDF.cell";
        EvLog "error"
          ("Error creating PDF: Character " +:+ String "239"
             " is outside the range of characters supported by the font");
        EvLib "FPDF"; EvLib "FPDF.add_page"; EvLib "FPDF.set_font"; EvLib "FPDF.cell";
        EvLib "FPDF.set_font"; EvLib "FPDF.cell"]).
Proof. vm_compute. reflexivity. Qed.

End ErrorPageExamples.

(** * Further properties *)

(** ** The language-code mapper *)

Section MapperFacts.
Import Translator.

(** The code handed to a backend is the internal code, except that
    Sanskrit is sent to libre as English: the table overrides nothing
    else. *)
Theorem get_backend_language_code_override (lang_code backend : string) :
  _get_backend_language_code lang_code backend =
  if bool_decide (lang_code = "sa" /\ backend = "libre") then "en" else lang_code.
Proof.
  unfold _get_backend_language_code, language_mappings.
  destruct (decide (lang_code = "sa")) as [-> | Hne].
  - rewrite lookup_singleton_eq. unfold list_to_map. cbn [foldr uncurry].
    rewrite !lookup_insert, lookup_empty.
    repeat case_decide; cbn [fst snd] in *; subst; try congruence; cbn [default];
      case_bool_decide as Hb; try reflexivity;
      try (destruct Hb as [_ Hb]; congruence);
      exfalso; apply Hb; now split.
  - rewrite lookup_singleton_ne by congruence.
    rewrite bool_decide_eq_false_2; [reflexivity|]. intros [? _]. congruence.
Qed.

(** A name for every code: the table of [_get_language_name] extends
    [supported_languages], so the default given to [.get] in
    [detect_language] never differs from what the lookup finds. *)
Lemma supported_language_names lang_code :
  default (_get_language_name lang_code) (supported_languages !! lang_code)
  = _get_language_name lang_code.
Proof.
  unfold supported_languages, _get_language_name, list_to_map. cbn [foldr uncurry].
  rewrite !lookup_insert, !lookup_empty.
  repeat case_decide; cbn [fst snd] in *; subst; try congruence; reflexivity.
Qed.

End MapperFacts.

(** ** More on the chunker *)

Section ChunkerStructure.
Import Translator.

Lemma join_word_nonempty w ws : w <> "" -> Py.join " " (w :: ws) <> "".
Proof.
  intros Hw. destruct w as [|c w]; [congruence|]. destruct ws; discriminate.
Qed.

(** What the loop adds to [chunks]: the joins of non-empty groups that
    cut [current_chunk ++ words] into consecutive pieces. *)
Lemma chunk_loop_groups size words : forall chunks cur n,
  exists groups,
    chunk_loop size words chunks cur n = chunks ++ map (Py.join " ") groups
    /\ concat groups = cur ++ words
    /\ Forall (fun g => g <> []) groups.
Proof.
  induction words as [|word rest IH]; intros chunks cur n.
  - cbn [chunk_loop]. destruct cur as [|w cur'].
    + exists []. now rewrite app_nil_r.
    + exists [w :: cur']. cbn [map concat]. rewrite !app_nil_r.
      repeat split. constructor; [discriminate | constructor].
  - cbn [chunk_loop].
    destruct ((n + (Py.len word + 1) >? size)
              && match cur with [] => false | _ => true end) eqn:Hif.
    + apply andb_prop in Hif as [_ Hcur].
      destruct (IH (chunks ++ [Py.join " " cur]) [word] (Py.len word + 1))
        as (groups & -> & Hcat & Hne).
      exists (cur :: groups). cbn [map concat]. rewrite <- app_assoc. cbn [app].
      rewrite Hcat. repeat split.
      constructor; [destruct cur; [discriminate | congruence] | exact Hne].
    + destruct (IH chunks (cur ++ [word]) (n + (Py.len word + 1)))
        as (groups & -> & Hcat & Hne).
      exists groups. rewrite Hcat, <- app_assoc. now repeat split.
Qed.

(** For a text longer than the chunk size, the chunks are the single-space
    joins of non-empty groups of consecutive words of the text, in order;
    so no chunk is empty, there are at most as many chunks as words, and
    there is no chunk at all exactly when the text has no word. *)
Theorem split_text_into_chunks_groups (t : string) (size : Z) :
  size < Py.len t ->
  (exists groups,
     _split_text_into_chunks t size = map (Py.join " ") groups
     /\ concat groups = Py.split t
     /\ Forall (fun g => g <> []) groups)
  /\ Forall (fun c => c <> "") (_split_text_into_chunks t size)
  /\ (length (_split_text_into_chunks t size) <= length (Py.split t))%nat
  /\ (_split_text_into_chunks t size = [] <-> Py.split t = []).
Proof.
  intros Hlong. unfold _split_text_into_chunks.
  destruct (Z.leb_spec (Py.len t) size) as [Hle | _]; [lia|].
  destruct (chunk_loop_groups size (Py.split t) [] [] 0) as (groups & -> & Hcat & Hne).
  cbn [app] in *. pose proof (split_words t) as Hwords. rewrite <- Hcat in Hwords.
  split; [now exists groups|]. split; [|split].
  - clear Hcat. induction groups as [|g groups IH]; [constructor|].
    inversion Hne as [|? ? Hg Hne']; subst. cbn [concat] in Hwords.
    apply Forall_app in Hwords as [Hgw Hrest]. cbn [map].
    constructor; [|now apply IH].
    destruct g as [|w g]; [congruence|]. inversion Hgw as [|? ? [Hw _] _]; subst.
    now apply join_word_nonempty.
  - rewrite <- Hcat, length_map. clear Hcat Hwords.
    induction Hne as [|g groups Hg _ IH]; [reflexivity|].
    cbn [concat length]. rewrite length_app.
    destruct g; [congruence|]. cbn [length]. lia.
  - rewrite <- Hcat. split.
    + intros Hnil. destruct groups; [reflexivity | discriminate].
    + intros Hnil. destruct groups as [|g groups]; [reflexivity|].
      inversion Hne as [|? ? Hg _]; subst. destruct g; [congruence | discriminate].
Qed.

Lemma split_text_into_chunks_groups_witness :
  4 < Py.len "a  b c"
  /\ (length (_split_text_into_chunks "a  b c" 4) <= length (Py.split "a  b c"))%nat.
Proof.
  assert (H : 4 < Py.len "a  b c") by reflexivity.
  split; [exact H|].
  exact (proj1 (proj2 (proj2 (split_text_into_chunks_groups "a  b c" 4 H)))).
Defined.

(** The budget, whatever the words: a chunk has more than [size]
    characters only if it is a single word of the text. *)
Lemma chunk_loop_budget size all words : forall chunks cur n,
  Forall (fun w => In w all) words ->
  Forall (fun c => Py.len c < size \/ In c all) chunks ->
  match cur with
  | [] => n = 0
  | [w] => n = Py.len w + 1 /\ In w all
  | _ => n = Py.len (Py.join " " cur) + 1 /\ n <= size
  end ->
  Forall (fun c => Py.len c < size \/ In c all)
         (chunk_loop size words chunks cur n).
Proof.
  induction words as [|word rest IH]; intros chunks cur n Hwords Hchunks Hcur.
  - cbn [chunk_loop]. destruct cur as [|w [|w2 cur']]; [assumption| |].
    + apply Forall_app; split; [assumption|]. constructor; [|constructor].
      right. apply Hcur.
    + apply Forall_app; split; [assumption|]. constructor; [|constructor].
      left. destruct Hcur as [Hn Hle]. clear - Hn Hle. lia.
  - inversion Hwords as [|? ? Hword Hrest]; subst. cbn [chunk_loop].
    rewrite Z.gtb_ltb.
    destruct (Z.ltb_spec size (n + (Py.len word + 1))) as [Hgt | Hle];
      destruct cur as [|w [|w2 cur']]; cbn [andb].
    + subst n. apply IH; try assumption. cbn [app]. split; [lia | assumption].
    + destruct Hcur as [Hn Hin]. apply IH; try assumption; [|split; [lia | assumption]].
      apply Forall_app; split; [assumption|]. constructor; [|constructor]. now right.
    + destruct Hcur as [Hn HnN]. apply IH; try assumption; [|split; [lia | assumption]].
      apply Forall_app; split; [assumption|]. constructor; [|constructor].
      left. clear - Hn HnN. lia.
    + subst n. apply IH; try assumption. cbn [app]. split; [lia | assumption].
    + destruct Hcur as [Hn Hin]. apply IH; try assumption. cbn [app].
      change (Py.join " " [w; word]) with (w +:+ " " +:+ word).
      rewrite !len_append. change (Py.len " ") with 1. clear - Hn Hle. lia.
    + destruct Hcur as [Hn HnN]. apply IH; try assumption.
      cbn [app]. change (w :: w2 :: cur' ++ [word]) with ((w :: w2 :: cur') ++ [word]).
      rewrite join_app by congruence. change (Py.join " " [word]) with word.
      rewrite !len_append. change (Py.len " ") with 1. clear - Hn Hle. lia.
Qed.

(** No chunk exceeds the chunk size unless it is a single word of the
    text that is itself too long: words are never cut to fit. *)
Theorem split_text_into_chunks_budget (t : string) (size : Z) :
  Forall (fun c => Py.len c <= size \/ In c (Py.split t))
         (_split_text_into_chunks t size).
Proof.
  unfold _split_text_into_chunks.
  destruct (Z.leb_spec (Py.len t) size) as [Hle | Hgt].
  - constructor; [now left | constructor].
  - eapply Forall_impl.
    + apply (chunk_loop_budget size (Py.split t)); [|constructor|reflexivity].
      apply Forall_forall. intros w Hw. now apply list_elem_of_In.
    + intros c [Hc | Hc]; [left; lia | now right].
Qed.




End ChunkerStructure.

(** ** Cleaning and detection *)

Section CleaningFacts.

Lemma rstrip_cons_nonspace c x :
  Py.isspace c = false -> Py.rstrip (String c x) = String c (Py.rstrip x).
Proof. intros Hc. cbn [Py.rstrip]. destruct (Py.rstrip x); [now rewrite Hc | reflexivity]. Qed.

Lemma rstrip_space_cons x :
  Py.rstrip x <> "" -> Py.rstrip (String " " x) = String " " (Py.rstrip x).
Proof. intros Hx. cbn [Py.rstrip]. destruct (Py.rstrip x); [congruence | reflexivity]. Qed.

Lemma collapse_ws_space c s :
  Py.isspace c = true ->
  Py.collapse_ws (String c s) =
  match s with
  | String d _ => if Py.isspace d then Py.collapse_ws s else String " " (Py.collapse_ws s)
  | EmptyString => " "
  end.
Proof. intros Hc. cbn [Py.collapse_ws]. now rewrite Hc. Qed.

Lemma collapse_ws_nonspace c s :
  Py.isspace c = false ->
  Py.collapse_ws (String c s) = String c (Py.collapse_ws s).
Proof. intros Hc. cbn [Py.collapse_ws]. now rewrite Hc. Qed.

Lemma split_lstrip s : Py.split (Py.lstrip s) = Py.split s.
Proof.
  induction s as [|c s IH]; [reflexivity|].
  cbn [Py.lstrip]. destruct (Py.isspace c) eqn:Hc; [|reflexivity].
  now rewrite split_cons_space.
Qed.

Lemma lstrip_collapse_ws s :
  Py.lstrip (Py.collapse_ws s) = Py.collapse_ws (Py.lstrip s).
Proof.
  induction s as [|c s IH]; [reflexivity|].
  destruct (Py.isspace c) eqn:Hc.
  - rewrite collapse_ws_space by assumption. cbn [Py.lstrip]. rewrite Hc.
    destruct s as [|d s']; [reflexivity|].
    destruct (Py.isspace d) eqn:Hd; [exact IH|].
    change (Py.lstrip (String " " (Py.collapse_ws (String d s'))))
      with (Py.lstrip (Py.collapse_ws (String d s'))).
    exact IH.
  - rewrite collapse_ws_nonspace by assumption. cbn [Py.lstrip]. rewrite Hc.
    now rewrite collapse_ws_nonspace.
Qed.

Lemma rstrip_collapse_ws s :
  Py.rstrip (Py.collapse_ws s) =
  match s with
  | EmptyString => ""
  | String c _ =>
      if Py.isspace c
      then match Py.split s with [] => "" | ws => " " +:+ Py.join " " ws end
      else Py.join " " (Py.split s)
  end.
Proof.
  induction s as [|c s IH]; [reflexivity|].
  destruct (Py.isspace c) eqn:Hc.
  - rewrite collapse_ws_space, split_cons_space by assumption.
    destruct s as [|d s']; [reflexivity|].
    destruct (Py.isspace d) eqn:Hd; [exact IH|].
    destruct (split_head_nonspace d s' Hd) as (w & ws & Hsplit).
    pose proof (split_words (String d s')) as Hw. rewrite Hsplit in *.
    inversion Hw as [|? ? [Hne _] _]; subst.
    rewrite rstrip_space_cons; rewrite IH; [reflexivity|].
    now apply join_word_nonempty.
  - rewrite collapse_ws_nonspace, rstrip_cons_nonspace, split_cons_nonspace
      by assumption.
    rewrite IH. destruct s as [|d s']; [reflexivity|].
    destruct (Py.isspace d) eqn:Hd.
    + destruct (Py.split (String d s')); reflexivity.
    + destruct (split_head_nonspace d s' Hd) as (w & ws & ->).
      destruct ws; reflexivity.
Qed.

(** Collapsing the whitespace runs and stripping leaves the words joined by
    single spaces. *)
Lemma strip_collapse_ws s :
  Py.strip (Py.collapse_ws s) = Py.join " " (Py.split s).
Proof.
  unfold Py.strip. rewrite lstrip_collapse_ws, rstrip_collapse_ws, <- (split_lstrip s).
  destruct (lstrip_head s) as [-> | (c & r & -> & Hc)]; [reflexivity|].
  now rewrite Hc.
Qed.

End CleaningFacts.

Section DetectionFacts.
Import Translator.
Context {W : Type} (E : Env W).

Lemma clean_text_stripped text :
  Py.strip (_clean_text_for_detection E text) = _clean_text_for_detection E text.
Proof. unfold _clean_text_for_detection. cbv zeta. apply strip_idem. Qed.

(** The cleaned text is the words of the input, once URLs and e-mail
    addresses are taken out, joined by single spaces: no tab, newline or
    double space is left and nothing surrounds it, so the further
    [.strip()] of [detect_language] changes nothing. *)
Theorem clean_text_for_detection_words (text : string) :
  _clean_text_for_detection E text
    = Py.join " " (Py.split (re_sub_email E (re_sub_url E text)))
  /\ Py.strip (_clean_text_for_detection E text) = _clean_text_for_detection E text
  /\ Py.split (_clean_text_for_detection E text)
     = Py.split (re_sub_email E (re_sub_url E text)).
Proof.
  unfold _clean_text_for_detection. cbv zeta. split; [apply strip_collapse_ws|].
  split; [apply strip_idem|].
  rewrite strip_collapse_ws. apply split_join_words, split_words.
Qed.

Lemma confidence_loop_find probs detected_lang :
  confidence_loop E probs detected_lang =
  match List.find (fun lp => bool_decide (fst lp = detected_lang)) probs with
  | Some lp => round2 E (snd lp)
  | None => (1 # 2)%Q
  end.
Proof.
  induction probs as [|[lang prob] rest IH]; [reflexivity|].
  cbn [confidence_loop List.find fst snd].
  destruct (decide (lang = detected_lang)) as [Heq | Hne].
  - now rewrite bool_decide_eq_true_2.
  - now rewrite bool_decide_eq_false_2.
Qed.

(** The confidence never fails: it is 0.5 when the ranked detection
    raises or does not list the detected language, and otherwise the
    rounded probability of the first entry for that language. *)
Theorem calculate_confidence_default (text detected_lang : string) (st : state W) :
  exists q st',
    _calculate_confidence E text detected_lang st = (Ok q, st')
    /\ match langdetect_detect_langs E text (world st) with
       | (Ok probs, _) =>
           q = match List.find (fun lp => bool_decide (fst lp = detected_lang)) probs with
               | Some lp => round2 E (snd lp)
               | None => (1 # 2)%Q
               end
       | (Raise _, _) => q = (1 # 2)%Q
       end.
Proof.
  unfold _calculate_confidence, try_except, bind, call, ret.
  destruct (langdetect_detect_langs E text (world st)) as [[probs | e] w].
  - eexists _, _. split; [reflexivity|]. apply confidence_loop_find.
  - eexists _, _. split; reflexivity.
Qed.

Lemma calculate_confidence_returns text detected_lang :
  never_raises (_calculate_confidence E text detected_lang).
Proof.
  unfold _calculate_confidence. apply never_raises_try_except.
  intros _. apply never_raises_ret.
Qed.

(** [detect_language] always answers.  An answer with an error has
    language 'unknown', confidence 0.0 and name 'Unknown'; an answer
    without error comes from a cleaned text of at least 10 characters,
    carries the language the detector returned for it, and the name
    [_get_language_name] gives that language. *)
Theorem detect_language_outcomes (text : string) (st : state W) :
  exists r st',
    detect_language E text st = (Ok r, st')
    /\ (det_error r <> None ->
        language r = "unknown" /\ confidence r = 0%Q /\ language_name r = "Unknown")
    /\ (det_error r = None ->
        10 <= Py.len (_clean_text_for_detection E text)
        /\ language_name r = _get_language_name (language r)
        /\ exists w,
             langdetect_detect E (_clean_text_for_detection E text) (world st)
             = (Ok (language r), w)).
Proof.
  unfold detect_language, try_except. cbv zeta.
  rewrite clean_text_stripped.
  destruct (Z.ltb_spec (Py.len (_clean_text_for_detection E text)) 10) as [Hlt | Hge].
  { eexists _, _. split; [reflexivity|]. cbn [det_error language confidence language_name].
    split; [now repeat split | discriminate]. }
  unfold bind at 1. unfold call at 1.
  destruct (langdetect_detect E (_clean_text_for_detection E text) (world st))
    as [[lang | e] w] eqn:Hdet.
  - unfold bind at 1.
    destruct (calculate_confidence_returns (_clean_text_for_detection E text) lang
                (mkState w (trace st ++ [EvDetect (_clean_text_for_detection E text)])))
      as (q & st1 & ->).
    eexists _, _. split; [reflexivity|].
    cbn [det_error language confidence language_name].
    split; [congruence|]. intros _. split; [exact Hge|].
    split; [apply supported_language_names | now exists w].
  - destruct e; eexists _, _; (split; [reflexivity|]);
      cbn [det_error language confidence language_name];
      (split; [now repeat split | discriminate]).
Qed.

End DetectionFacts.

(** ** What [translate_text] returns *)

Section TranslationFacts.
Import Translator.
Context {W : Type} (E : Env W).

Lemma translate_chunks_map (g : string -> string) target_lang source_lang backend :
  (forall chunk st, exists st',
     _translate_chunk E chunk target_lang source_lang backend st = (Ok (g chunk), st')) ->
  forall chunks i n st, exists st',
    translate_chunks E i n chunks target_lang source_lang backend st
    = (Ok (map g chunks), st').
Proof.
  intros Hg. induction chunks as [|chunk rest IH]; intros i n st.
  - now exists st.
  - cbn [translate_chunks map]. unfold bind at 1.
    destruct (Hg chunk st) as (st1 & ->). unfold bind at 1.
    assert (Hsleep : exists st2,
      (if i <? n - 1 then call EvSleep (fun w : W => (Ok tt, w)) else ret tt) st1
      = (Ok tt, st2)) by (destruct (i <? n - 1); eexists; reflexivity).
    destruct Hsleep as (st2 & ->). unfold bind.
    destruct (IH (i + 1) n st2) as (st3 & ->). now exists st3.
Qed.

(** [translate_text] past the same-language test: the result is built
    from what the first pass over the chunks, with the requested backend,
    returns. *)
Lemma translate_text_translates text target_lang source_lang backend chunk_size
    st resolved st1 :
  Py.strip text <> "" ->
  resolve_source_lang E text source_lang st = (Ok resolved, st1) ->
  resolved <> target_lang ->
  exists st2 pieces st',
    world st2 = world st1
    /\ translate_chunks E 0
         (Z.of_nat (length (_split_text_into_chunks text chunk_size)))
         (_split_text_into_chunks text chunk_size) target_lang resolved backend st2
       = (Ok pieces, st')
    /\ translate_text E text target_lang source_lang backend chunk_size st
       = (Ok (mkTranslation (Py.join " " pieces) resolved target_lang (Some backend)
                (Z.of_nat (length (_split_text_into_chunks text chunk_size)))
                None None), st').
Proof.
  intros Hne Hres Hdiff.
  rewrite (translate_text_resolved E _ _ _ _ _ _ _ _ Hne Hres). unfold try_except.
  rewrite decide_False by assumption. unfold bind at 1.
  assert (Hlog : exists stl,
    (if bool_decide (target_lang = "sa") && bool_decide (backend = "google")
     then log "warning" "Sanskrit may have limited support in Google Translate"
     else ret tt) st1 = (Ok tt, stl) /\ world stl = world st1)
    by (destruct (_ && _); eexists; split; reflexivity).
  destruct Hlog as (stl & -> & Hw). unfold bind at 1. unfold call at 1.
  unfold bind at 1. cbn [try_backends]. unfold try_except at 1. unfold bind at 1.
  destruct (translate_chunks_returns E (_split_text_into_chunks text chunk_size) 0
              (Z.of_nat (length (_split_text_into_chunks text chunk_size)))
              target_lang resolved backend
              (mkState (world stl) (trace stl ++ [EvChunker text chunk_size])))
    as (pieces & st' & Hrun & _).
  rewrite Hrun. exists (mkState (world stl) (trace stl ++ [EvChunker text chunk_size])),
    pieces, st'.
  repeat split; [exact Hw | exact Hrun].
Qed.

Lemma translate_text_answer (text target_lang source_lang backend : string)
    (chunk_size : Z) (st : state W) :
  exists r st',
    translate_text E text target_lang source_lang backend chunk_size st = (Ok r, st')
    /\ target_language r = target_lang
    /\ backend_used r = Some backend
    /\ (error r <> None <-> Py.strip text = "").
Proof.
  destruct (decide (Py.strip text = "")) as [Hb | Hne].
  - rewrite (translate_text_blank E _ _ _ _ _ _ Hb). eexists _, _.
    split; [reflexivity|]. cbn. repeat split; congruence.
  - destruct (resolve_source_lang_never_raises E text source_lang st)
      as (resolved & st1 & Hres).
    destruct (decide (resolved = target_lang)) as [-> | Hdiff].
    + rewrite (translate_text_resolved E _ _ _ _ _ _ _ _ Hne Hres). unfold try_except.
      rewrite decide_True by reflexivity. eexists _, _. split; [reflexivity|].
      cbn. repeat split; congruence.
    + destruct (translate_text_translates text target_lang source_lang backend
                  chunk_size st resolved st1 Hne Hres Hdiff)
        as (st2 & pieces & st' & _ & _ & ->).
      eexists _, _. split; [reflexivity|]. cbn. repeat split; congruence.
Qed.

(** [translate_text] never raises; the target language and the requested
    backend come back in the result, and the result has an error exactly
    when the text is blank. *)
Theorem translate_text_always_answers (text target_lang source_lang backend : string)
    (chunk_size : Z) (st : state W) :
  exists r st',
    translate_text E text target_lang source_lang backend chunk_size st = (Ok r, st')
    /\ target_language r = target_lang
    /\ backend_used r = Some backend
    /\ (error r <> None <-> Py.strip text = "").
Proof. apply translate_text_answer. Qed.

Lemma translate_chunk_unsupported chunk target_lang source_lang backend st :
  backend_class backend = None ->
  exists st',
    _translate_chunk E chunk target_lang source_lang backend st = (Ok chunk, st').
Proof.
  intros Hnone. unfold _translate_chunk, try_except. cbv zeta. rewrite Hnone.
  now eexists.
Qed.

(** A backend name outside 'google', 'microsoft', 'libre' and 'mymemory'
    is not refused: when a translation is due, [translate_text] answers
    without error with the chunks of the text, untranslated, joined by
    spaces, and names that backend as the one used. *)
Theorem translate_text_unsupported_backend (text target_lang source_lang backend : string)
    (chunk_size : Z) (st : state W) (resolved : string) (st1 : state W) :
  backend_class backend = None ->
  Py.strip text <> "" ->
  resolve_source_lang E text source_lang st = (Ok resolved, st1) ->
  resolved <> target_lang ->
  exists st',
    translate_text E text target_lang source_lang backend chunk_size st
    = (Ok (mkTranslation
             (Py.join " " (_split_text_into_chunks text chunk_size))
             resolved target_lang (Some backend)
             (Z.of_nat (length (_split_text_into_chunks text chunk_size)))
             None None), st').
Proof.
  intros Hnone Hne Hres Hdiff.
  destruct (translate_text_translates text target_lang source_lang backend
              chunk_size st resolved st1 Hne Hres Hdiff)
    as (st2 & pieces & st' & _ & Hrun & ->).
  destruct (translate_chunks_map (fun c => c) target_lang resolved backend
              (fun chunk st0 => translate_chunk_unsupported chunk _ _ _ st0 Hnone)
              (_split_text_into_chunks text chunk_size) 0
              (Z.of_nat (length (_split_text_into_chunks text chunk_size))) st2)
    as (st'' & Hid).
  rewrite map_id in Hid. rewrite Hid in Hrun. injection Hrun as <- <-.
  now exists st''.
Qed.

Lemma translate_chunk_working cls f chunk target_lang source_lang backend st :
  translates_with E cls f ->
  backend_class backend = Some cls ->
  exists st',
    _translate_chunk E chunk target_lang source_lang backend st
    = (Ok (piece f target_lang source_lang backend chunk), st').
Proof.
  intros Hf Hcls. unfold _translate_chunk, try_except, piece. cbv zeta. rewrite Hcls.
  unfold bind at 1. unfold call at 1.
  destruct (Hf (if decide (source_lang <> "auto")
                then _get_backend_language_code source_lang backend
                else source_lang)
               (_get_backend_language_code target_lang backend) (world st))
    as (translate & w' & -> & Htr).
  unfold bind, call. cbn [world trace]. destruct (Htr chunk w') as (w2 & ->).
  now eexists.
Qed.

(** With a backend whose translators work, [translate_text] returns the
    translations of the chunks, each made with the codes mapped for that
    backend, in the order of the chunks and joined by single spaces;
    [chunks_processed] is the number of chunks. *)
Theorem translate_text_joins_translations (cls : translator_class)
    (f : string -> string -> string -> string)
    (text target_lang source_lang backend : string)
    (chunk_size : Z) (st : state W) (resolved : string) (st1 : state W) :
  translates_with E cls f ->
  backend_class backend = Some cls ->
  Py.strip text <> "" ->
  resolve_source_lang E text source_lang st = (Ok resolved, st1) ->
  resolved <> target_lang ->
  exists st',
    translate_text E text target_lang source_lang backend chunk_size st
    = (Ok (mkTranslation
             (Py.join " " (map (piece f target_lang resolved backend)
                               (_split_text_into_chunks text chunk_size)))
             resolved target_lang (Some backend)
             (Z.of_nat (length (_split_text_into_chunks text chunk_size)))
             None None), st').
Proof.
  intros Hf Hcls Hne Hres Hdiff.
  destruct (translate_text_translates text target_lang source_lang backend
              chunk_size st resolved st1 Hne Hres Hdiff)
    as (st2 & pieces & st' & _ & Hrun & ->).
  destruct (translate_chunks_map (piece f target_lang resolved backend)
              target_lang resolved backend
              (fun chunk st0 => translate_chunk_working cls f chunk _ _ _ st0 Hf Hcls)
              (_split_text_into_chunks text chunk_size) 0
              (Z.of_nat (length (_split_text_into_chunks text chunk_size))) st2)
    as (st'' & Hmap).
  rewrite Hmap in Hrun. injection Hrun as <- <-. now exists st''.
Qed.

Lemma detect_language_short text st :
  Py.len (_clean_text_for_detection E text) < 10 ->
  detect_language E text st =
  (Ok (mkDetection "unknown" 0 "Unknown"
         (Some "Text too short for reliable detection")), st).
Proof.
  intros Hshort. unfold detect_language, try_except. cbv zeta.
  rewrite clean_text_stripped.
  destruct (Z.ltb_spec (Py.len (_clean_text_for_detection E text)) 10); [reflexivity | lia].
Qed.

(** With source 'auto', a text whose cleaned form is shorter than 10
    characters is taken to be English whatever it says: asked to translate
    it into English, [translate_text] hands it back unchanged, and no
    backend is called. *)
Theorem translate_text_short_auto_english (text backend : string) (chunk_size : Z)
    (st : state W) :
  Py.strip text <> "" ->
  Py.len (_clean_text_for_detection E text) < 10 ->
  translate_text E text "en" "auto" backend chunk_size st =
  (Ok (mkTranslation text "en" "en" (Some backend) 1 None
         (Some "No translation needed - same language")), st).
Proof.
  intros Hne Hshort.
  assert (Hres : resolve_source_lang E text "auto" st = (Ok "en", st)).
  { unfold resolve_source_lang. rewrite decide_True by reflexivity.
    unfold bind. now rewrite (detect_language_short text st Hshort). }
  rewrite (translate_text_resolved E _ _ _ _ _ _ _ _ Hne Hres). unfold try_except.
  now rewrite decide_True.
Qed.

Lemma batch_loop_results texts : forall i n target_lang source_lang backend st,
  exists results st',
    batch_loop E i n texts target_lang source_lang backend st = (Ok results, st')
    /\ Forall2 (fun text r =>
                 target_language r = target_lang
                 /\ backend_used r = Some backend
                 /\ (error r <> None <-> Py.strip text = ""))
               texts results.
Proof.
  induction texts as [|text rest IH]; intros i n target_lang source_lang backend st.
  - exists [], st. split; [reflexivity | constructor].
  - cbn [batch_loop]. unfold bind at 1. unfold log at 1. unfold bind at 1.
    destruct (translate_text_answer text target_lang source_lang backend 5000
                (mkState (world st)
                   (trace st ++ [EvLog "info"
                      ("Translating text " +:+ Py.str_int (i + 1) +:+ "/" +:+ Py.str_int n)])))
      as (r & st1 & -> & Hr).
    unfold bind at 1.
    assert (Hsleep : exists st2,
      (if i <? n - 1 then call EvSleep (fun w : W => (Ok tt, w)) else ret tt) st1
      = (Ok tt, st2)) by (destruct (i <? n - 1); eexists; reflexivity).
    destruct Hsleep as (st2 & ->). unfold bind.
    destruct (IH (i + 1) n target_lang source_lang backend st2) as (rs & st3 & -> & Hrs).
    exists (r :: rs), st3. split; [reflexivity | now constructor].
Qed.

(** [batch_translate] never raises and returns one result per text, in
    the order of the texts.  A blank text gets a result with an error
    and does not stop the batch; every other text gets a result without
    error; each result names the target language and the backend asked
    for. *)
Theorem batch_translate_results (texts : list string)
    (target_lang source_lang backend : string) (st : state W) :
  exists results st',
    batch_translate E texts target_lang source_lang backend st = (Ok results, st')
    /\ Forall2 (fun text r =>
                 target_language r = target_lang
                 /\ backend_used r = Some backend
                 /\ (error r <> None <-> Py.strip text = ""))
               texts results.
Proof. apply batch_loop_results. Qed.

End TranslationFacts.

Section TranslationExamples.
Import Translator.

Lemma translate_text_unsupported_backend_witness :
  backend_class "bing" = None
  /\ exists st',
       translate_text (Samples.backends Samples.only_google)
         "good morning" "hi" "en" "bing" 6 Samples.st0
       = (Ok (mkTranslation "good morning" "en" "hi" (Some "bing") 2 None None), st').
Proof.
  assert (H1 : backend_class "bing" = None) by reflexivity.
  assert (H2 : Py.strip "good morning" <> "") by (vm_compute; discriminate).
  assert (H3 : resolve_source_lang (Samples.backends Samples.only_google)
                 "good morning" "en" Samples.st0 = (Ok "en", Samples.st0))
    by reflexivity.
  assert (H4 : "en" <> "hi") by discriminate.
  split; [exact H1|].
  exact (translate_text_unsupported_backend (Samples.backends Samples.only_google)
           "good morning" "hi" "en" "bing" 6 Samples.st0 "en" Samples.st0 H1 H2 H3 H4).
Defined.

Lemma sample_backends_translate cls :
  translates_with (Samples.backends Samples.all_work) cls Samples.tag.
Proof.
  intros source target w. eexists _, _. split; [reflexivity|].
  intros chunk w1. now eexists.
Qed.

(** Sanskrit through libre: the translator is asked for English. *)
Lemma translate_text_joins_translations_witness :
  backend_class "libre" = Some LibreTranslator
  /\ exists st',
       translate_text (Samples.backends Samples.all_work)
         "good morning" "sa" "en" "libre" 6 Samples.st0
       = (Ok (mkTranslation "[en]good [en]morning" "en" "sa" (Some "libre") 2 None None),
          st').
Proof.
  assert (H1 : backend_class "libre" = Some LibreTranslator) by reflexivity.
  assert (H2 : Py.strip "good morning" <> "") by (vm_compute; discriminate).
  assert (H3 : resolve_source_lang (Samples.backends Samples.all_work)
                 "good morning" "en" Samples.st0 = (Ok "en", Samples.st0))
    by reflexivity.
  assert (H4 : "en" <> "sa") by discriminate.
  split; [exact H1|].
  exact (translate_text_joins_translations (Samples.backends Samples.all_work)
           LibreTranslator Samples.tag "good morning" "sa" "en" "libre" 6
           Samples.st0 "en" Samples.st0
           (sample_backends_translate LibreTranslator) H1 H2 H3 H4).
Defined.

Lemma translate_text_short_auto_english_witness :
  Py.strip "Bonjour" <> ""
  /\ translate_text (Samples.backends Samples.all_work)
       "Bonjour" "en" "auto" "google" 5000 Samples.st0 =
     (Ok (mkTranslation "Bonjour" "en" "en" (Some "google") 1 None
            (Some "No translation needed - same language")), Samples.st0).
Proof.
  assert (H1 : Py.strip "Bonjour" <> "") by (vm_compute; discriminate).
  assert (H2 : Py.len (_clean_text_for_detection
                         (Samples.backends Samples.all_work) "Bonjour") < 10)
    by reflexivity.
  split; [exact H1|].
  exact (translate_text_short_auto_english (Samples.backends Samples.all_work)
           "Bonjour" "google" 5000 Samples.st0 H1 H2).
Defined.

End TranslationExamples.

(** ** What the extraction methods return *)

Section AssemblyFacts.

Lemma append_empty_r (a : string) : a +:+ "" = a.
Proof.
  induction a as [|x a IH]; [reflexivity|].
  change (String x (a +:+ "") = String x a). now f_equal.
Qed.

Lemma rstrip_app_blank x y : Py.rstrip y = "" -> Py.rstrip (x +:+ y) = Py.rstrip x.
Proof.
  intros Hy. induction x as [|a x IH]; [exact Hy|].
  change (String a x +:+ y) with (String a (x +:+ y)). cbn [Py.rstrip].
  now rewrite IH.
Qed.

Lemma rstrip_blank_lstrip y : Py.rstrip y = "" -> Py.lstrip y = "".
Proof.
  induction y as [|c y IH]; [reflexivity|]. cbn [Py.rstrip Py.lstrip].
  destruct (Py.rstrip y); [|discriminate].
  destruct (Py.isspace c); [intros _; now apply IH | discriminate].
Qed.

Lemma lstrip_app x y :
  Py.lstrip (x +:+ y) = if Py.truthy (Py.lstrip x) then Py.lstrip x +:+ y else Py.lstrip y.
Proof.
  induction x as [|a x IH]; [reflexivity|].
  change (String a x +:+ y) with (String a (x +:+ y)). cbn [Py.lstrip].
  destruct (Py.isspace a); [exact IH | reflexivity].
Qed.

(** Whitespace appended to a text does not show after [strip]. *)
Lemma strip_app_blank x y : Py.rstrip y = "" -> Py.strip (x +:+ y) = Py.strip x.
Proof.
  intros Hy. unfold Py.strip. rewrite lstrip_app.
  destruct (Py.lstrip x) eqn:Hx; cbn [Py.truthy].
  - now rewrite (rstrip_blank_lstrip y Hy).
  - now apply rstrip_app_blank.
Qed.

Lemma join_empty_cons x xs : Py.join "" (x :: xs) = x +:+ Py.join "" xs.
Proof.
  destruct xs; cbn [Py.join]; [|reflexivity]. now rewrite append_empty_r.
Qed.

(** Each piece followed by the separator is the pieces joined by the
    separator, and one separator more. *)
Lemma join_terminated sep x xs :
  Py.join "" (map (fun t => t +:+ sep) (x :: xs)) = Py.join sep (x :: xs) +:+ sep.
Proof.
  revert x. induction xs as [|y ys IH]; intros x.
  - reflexivity.
  - change (map (fun t => t +:+ sep) (x :: y :: ys))
      with ((x +:+ sep) :: map (fun t => t +:+ sep) (y :: ys)).
    rewrite join_empty_cons, IH.
    change (Py.join sep (x :: y :: ys)) with (x +:+ sep +:+ Py.join sep (y :: ys)).
    now rewrite !append_assoc.
Qed.

Lemma foldl_append {A} (g : A -> string) l : forall acc,
  foldl (fun acc x => acc +:+ g x) acc l = acc +:+ Py.join "" (map g l).
Proof.
  induction l as [|x l IH]; intros acc.
  - cbn. now rewrite append_empty_r.
  - cbn [foldl map]. rewrite IH, join_empty_cons. now rewrite append_assoc.
Qed.

End AssemblyFacts.

Section ExtractionFacts.
Import DocumentProcessor.
Context {W : Type} (E : Env W).

Lemma pages_loop_texts name texts : forall full_text (st : state W),
  pages_loop (map page_of texts) name full_text st =
  (Ok (full_text
       +:+ Py.join "" (map (fun t => t +:+ String "010" (String "010" "")) texts)),
   mkState (world st) (trace st ++ replicate (length texts) (EvLib name))).
Proof.
  induction texts as [|t texts IH]; intros full_text st.
  - cbn. rewrite app_nil_r, append_empty_r. now destruct st.
  - cbn [map pages_loop]. unfold bind at 1. unfold call at 1.
    change (@page_of W t (world st)) with (@Ok string t, world st).
    cbv beta iota. rewrite IH. cbn [world trace length replicate].
    rewrite join_empty_cons, !append_assoc, <- app_assoc. reflexivity.
Qed.

(** The PDF branch.  When PyMuPDF opens the document, its pages give
    their texts and the document closes, the text returned is the page
    texts joined by blank lines and trimmed, and [pages] is their number.
    When PyMuPDF fails to open it and pypdf reads it, the same holds with
    method 'pypdf'.  When both fail, the result has empty text, 0 pages
    and an error that carries the message of the second failure only. *)
Theorem extract_pdf_text_outcomes (input : file_input) (st : state W) :
  (forall t texts w1 w2,
     fitz_open E match input with
                 | FilePath p => inl p
                 | RawBytes b | BytesIO b => inr b
                 end (world st) = (Ok (map page_of (t :: texts)), w1) ->
     fitz_close E w1 = (Ok tt, w2) ->
     exists st',
       _extract_pdf_text E input st =
       (Ok (mkExtraction
              (Py.strip (Py.join (String "010" (String "010" "")) (t :: texts)))
              (Some (Z.of_nat (length (t :: texts)))) None None None
              (Some "PyMuPDF") None), st'))
  /\ (forall e1 w1 t texts w2,
        fitz_open E match input with
                    | FilePath p => inl p
                    | RawBytes b | BytesIO b => inr b
                    end (world st) = (Raise e1, w1) ->
        pypdf_PdfReader E input w1 = (Ok (map page_of (t :: texts)), w2) ->
        exists st',
          _extract_pdf_text E input st =
          (Ok (mkExtraction
                 (Py.strip (Py.join (String "010" (String "010" "")) (t :: texts)))
                 (Some (Z.of_nat (length (t :: texts)))) None None None
                 (Some "pypdf") None), st'))
  /\ (forall e1 w1 e2 w2,
        fitz_open E match input with
                    | FilePath p => inl p
                    | RawBytes b | BytesIO b => inr b
                    end (world st) = (Raise e1, w1) ->
        pypdf_PdfReader E input w1 = (Raise e2, w2) ->
        exists st',
          _extract_pdf_text E input st =
          (Ok (mkExtraction "" (Some 0) None None None (Some "none")
                 (Some ("PDF extraction failed: " +:+ str_exn e2))), st')).
Proof.
  split; [|split].
  - intros t texts w1 w2 Hopen Hclose.
    unfold _extract_pdf_text, try_except. unfold bind at 1. unfold call at 1.
    rewrite Hopen. unfold bind at 1. rewrite pages_loop_texts. cbn [world trace].
    unfold bind, call. cbn [world trace]. rewrite Hclose. eexists. cbn [ret].
    rewrite length_map. change (("" +:+ ?x)) with x.
    rewrite join_terminated, strip_app_blank by reflexivity. reflexivity.
  - intros e1 w1 t texts w2 Hopen Hread.
    unfold _extract_pdf_text, try_except. unfold bind at 1. unfold call at 1.
    rewrite Hopen. unfold bind at 1. unfold log at 1. cbn [world trace].
    unfold bind at 1. unfold call at 1. cbn [world trace]. rewrite Hread.
    unfold bind. rewrite pages_loop_texts. cbn [world trace]. eexists. cbn [ret].
    rewrite length_map. change (("" +:+ ?x)) with x.
    rewrite join_terminated, strip_app_blank by reflexivity. reflexivity.
  - intros e1 w1 e2 w2 Hopen Hread.
    unfold _extract_pdf_text, try_except. unfold bind at 1. unfold call at 1.
    rewrite Hopen. unfold bind at 1. unfold log at 1. cbn [world trace].
    unfold bind at 1. unfold call at 1. cbn [world trace]. rewrite Hread.
    eexists. reflexivity.
Qed.

(** The plain-text branch on bytes held in memory.  Valid UTF-8 is
    returned as it decodes, with method 'direct'.  On a UnicodeDecodeError
    the other encodings are tried in the order latin-1, cp1252,
    iso-8859-1 (UTF-8, tried again first, fails again): the first that
    decodes gives the text, with method 'direct-' and its name, and if
    none does the result is the error 'Could not decode text file with
    any encoding'.  Any other exception ends the extraction at once with
    'TXT extraction failed'. *)
Theorem extract_txt_text_in_memory (b : list Byte.byte) (st : state W) :
  let result text method :=
    mkExtraction text None None None
      (Some (Z.of_nat (length (Py.splitlines text)))) (Some method) None in
  (forall s, bytes_decode E "utf-8" b = Ok s ->
     _extract_txt_text E (RawBytes b) st = (Ok (result s "direct"), st))
  /\ (forall m s,
        bytes_decode E "utf-8" b = Raise (UnicodeDecodeError m) ->
        bytes_decode E "latin-1" b = Ok s ->
        _extract_txt_text E (RawBytes b) st = (Ok (result s "direct-latin-1"), st))
  /\ (forall m e s,
        bytes_decode E "utf-8" b = Raise (UnicodeDecodeError m) ->
        bytes_decode E "latin-1" b = Raise e ->
        bytes_decode E "cp1252" b = Ok s ->
        _extract_txt_text E (RawBytes b) st = (Ok (result s "direct-cp1252"), st))
  /\ (forall m e1 e2 s,
        bytes_decode E "utf-8" b = Raise (UnicodeDecodeError m) ->
        bytes_decode E "latin-1" b = Raise e1 ->
        bytes_decode E "cp1252" b = Raise e2 ->
        bytes_decode E "iso-8859-1" b = Ok s ->
        _extract_txt_text E (RawBytes b) st = (Ok (result s "direct-iso-8859-1"), st))
  /\ (forall m e1 e2 e3,
        bytes_decode E "utf-8" b = Raise (UnicodeDecodeError m) ->
        bytes_decode E "latin-1" b = Raise e1 ->
        bytes_decode E "cp1252" b = Raise e2 ->
        bytes_decode E "iso-8859-1" b = Raise e3 ->
        _extract_txt_text E (RawBytes b) st =
        (Ok (mkExtraction "" None None None None (Some "none")
               (Some "Could not decode text file with any encoding")), st))
  /\ (forall e,
        bytes_decode E "utf-8" b = Raise e ->
        (forall m, e <> UnicodeDecodeError m) ->
        _extract_txt_text E (RawBytes b) st =
        (Ok (mkExtraction "" None None None None (Some "none")
               (Some ("TXT extraction failed: " +:+ str_exn e))),
         mkState (world st)
           (trace st ++ [EvLog "error" ("TXT extraction failed: " +:+ str_exn e)]))).
Proof.
  cbv zeta. unfold _extract_txt_text, try_except, bind, read_as.
  split; [|split; [|split; [|split; [|split]]]].
  - intros s ->. reflexivity.
  - intros m s Hu Hl. rewrite Hu. cbn [raise encodings_loop].
    unfold try_except, bind, read_as. rewrite Hu, Hl. reflexivity.
  - intros m e s Hu Hl Hc. rewrite Hu. cbn [raise encodings_loop].
    unfold try_except, bind, read_as. rewrite Hu, Hl, Hc. reflexivity.
  - intros m e1 e2 s Hu Hl Hc Hi. rewrite Hu. cbn [raise encodings_loop].
    unfold try_except, bind, read_as. rewrite Hu, Hl, Hc, Hi. reflexivity.
  - intros m e1 e2 e3 Hu Hl Hc Hi. rewrite Hu. cbn [raise encodings_loop].
    unfold try_except, bind, read_as. rewrite Hu, Hl, Hc, Hi. reflexivity.
  - intros e Hu Hother. rewrite Hu. cbn [raise].
    destruct e; try reflexivity. now destruct (Hother msg).
Qed.

(** The DOCX branch on content held in memory.  When python-docx opens
    the document, the paragraph and table counts come back and, for a
    document with paragraphs only, the text is the paragraphs joined by
    newlines and trimmed.  When it fails, the content goes through a
    temporary file to docx2python, and the text of its result is read
    only after the file is removed: what that read gives is returned as
    it is, not trimmed, and when that read raises (a result that goes
    back to the file finds it gone) the answer is the error.  When
    docx2python itself raises, the temporary file is not removed; and
    when the removal raises, the text is never read and the answer is
    the error. *)
Theorem extract_docx_text_in_memory (b : list Byte.byte) (wrapped : bool)
    (st : state W) :
  let input := if wrapped then BytesIO b else RawBytes b in
  (forall p ps w1,
     docx_Document E input (world st) = (Ok (mkDocx (p :: ps) []), w1) ->
     _extract_docx_text E input st =
     (Ok (mkExtraction (Py.strip (Py.join (String "010" "") (p :: ps))) None
            (Some (Z.of_nat (length (p :: ps)))) (Some 0) None
            (Some "python-docx") None),
      mkState w1 (trace st ++ [EvLib "docx.Document"])))
  /\ (forall e w1 tmp_name w2,
        docx_Document E input (world st) = (Raise e, w1) ->
        write_temp_file E ".docx" b w1 = (Ok tmp_name, w2) ->
        let started :=
          trace st ++ [EvLib "docx.Document";
                       EvLog "warning" ("python-docx failed, trying docx2python: "
                                        +:+ str_exn e);
                       EvLib "tempfile.NamedTemporaryFile"; EvLib "docx2python"] in
        let failed e' :=
          mkExtraction "" None None None None (Some "none")
            (Some ("DOCX extraction failed: " +:+ str_exn e')) in
        let logged e' :=
          EvLog "error" ("Both DOCX extraction methods failed: " +:+ str_exn e') in
        (forall result w3 w4 r w5,
           docx2python_docx2python E tmp_name w2 = (Ok result, w3) ->
           os_unlink E tmp_name w3 = (Ok tt, w4) ->
           result w4 = (Ok r, w5) ->
           _extract_docx_text E input st =
           (Ok (mkExtraction r None None None None (Some "docx2python") None),
            mkState w5 (started ++ [EvLib "os.unlink"; EvLib "result.text"])))
        /\ (forall result w3 w4 e4 w5,
              docx2python_docx2python E tmp_name w2 = (Ok result, w3) ->
              os_unlink E tmp_name w3 = (Ok tt, w4) ->
              result w4 = (Raise e4, w5) ->
              _extract_docx_text E input st =
              (Ok (failed e4),
               mkState w5 (started ++ [EvLib "os.unlink"; EvLib "result.text";
                                       logged e4])))
        /\ (forall e2 w3,
              docx2python_docx2python E tmp_name w2 = (Raise e2, w3) ->
              _extract_docx_text E input st =
              (Ok (failed e2), mkState w3 (started ++ [logged e2])))
        /\ (forall result w3 e3 w4,
              docx2python_docx2python E tmp_name w2 = (Ok result, w3) ->
              os_unlink E tmp_name w3 = (Raise e3, w4) ->
              _extract_docx_text E input st =
              (Ok (failed e3),
               mkState w4 (started ++ [EvLib "os.unlink"; logged e3])))).
Proof.
  cbv zeta. split.
  - intros p ps w1 Hdoc.
    assert (Htext : Py.strip (docx_full_text (mkDocx (p :: ps) []))
                    = Py.strip (Py.join (String "010" "") (p :: ps))).
    { unfold docx_full_text. cbn [doc_paragraphs doc_tables].
      change (foldl _ ?acc (@nil (list (list string)))) with acc.
      rewrite (foldl_append (fun paragraph => paragraph +:+ String "010" "")).
      change ("" +:+ ?x) with x. rewrite join_terminated.
      now rewrite strip_app_blank by reflexivity. }
    destruct wrapped; unfold _extract_docx_text, try_except, bind, call, ret;
      rewrite Hdoc; cbn [doc_paragraphs doc_tables length]; now rewrite Htext.
  - intros e w1 tmp_name w2 Hdoc Htmp. cbv zeta.
    split; [|split; [|split]].
    + intros result w3 w4 r w5 Hconv Hunlink Htext.
      destruct wrapped; unfold _extract_docx_text, try_except, bind, call, log, ret;
        rewrite Hdoc; cbn [world trace]; rewrite Htmp; cbn [world trace];
        rewrite Hconv; cbn [world trace]; rewrite Hunlink; cbn [world trace];
        rewrite Htext; now rewrite <- !app_assoc.
    + intros result w3 w4 e4 w5 Hconv Hunlink Htext.
      destruct wrapped; unfold _extract_docx_text, try_except, bind, call, log, ret;
        rewrite Hdoc; cbn [world trace]; rewrite Htmp; cbn [world trace];
        rewrite Hconv; cbn [world trace]; rewrite Hunlink; cbn [world trace];
        rewrite Htext; cbn [world trace]; now rewrite <- !app_assoc.
    + intros e2 w3 Hconv.
      destruct wrapped; unfold _extract_docx_text, try_except, bind, call, log, ret;
        rewrite Hdoc; cbn [world trace]; rewrite Htmp; cbn [world trace];
        rewrite Hconv; cbn [world trace]; now rewrite <- !app_assoc.
    + intros result w3 e3 w4 Hconv Hunlink.
      destruct wrapped; unfold _extract_docx_text, try_except, bind, call, log, ret;
        rewrite Hdoc; cbn [world trace]; rewrite Htmp; cbn [world trace];
        rewrite Hconv; cbn [world trace]; rewrite Hunlink; cbn [world trace];
        now rewrite <- !app_assoc.
Qed.

End ExtractionFacts.

Section ExtractionExamples.
Import DocumentProcessor.

(** The fallback on an upload, with a docx2python whose result goes back
    to its file for the text: the temporary file is removed before the
    text is read, so the read fails and the extraction is reported as
    failed. *)
Example extract_docx_text_lazy_result :
  _extract_docx_text Samples.lazy_docx2python (BytesIO (list_byte_of_string "PK"))
    (mkState [] [])
  = (Ok (mkExtraction "" None None None None (Some "none")
           (Some "DOCX extraction failed: No such file or directory: /tmp/tmp0.docx")),
     mkState []
       [EvLib "docx.Document";
        EvLog "warning" "python-docx failed, trying docx2python: file is not a Word file";
        EvLib "tempfile.NamedTemporaryFile"; EvLib "docx2python"; EvLib "os.unlink";
        EvLib "result.text";
        EvLog "error"
          "Both DOCX extraction methods failed: No such file or directory: /tmp/tmp0.docx"]).
Proof. vm_compute. reflexivity. Qed.

(** The same docx2python on a path: nothing is removed, and the text is
    read. *)
Example extract_docx_text_path_result :
  fst (_extract_docx_text Samples.lazy_docx2python (FilePath "/data/a.docx")
         (mkState ["/data/a.docx"] []))
  = Ok (mkExtraction "Hello DOCX" None None None None (Some "docx2python") None).
Proof. vm_compute. reflexivity. Qed.

End ExtractionExamples.

Lemma supported_formats_spec extension :
  extension ∈ DocumentProcessor.supported_formats <->
  extension = ".pdf" \/ extension = ".docx" \/ extension = ".txt".
Proof.
  unfold DocumentProcessor.supported_formats. rewrite !elem_of_union, !elem_of_singleton. tauto.
Qed.

Section FileInfoFacts.
Import DocumentProcessor.
Context {W : Type} (stat_size : string -> W -> outcome Z * W) (round2 : Q -> Q).

(** [get_file_info] never raises.  In every case the extension is in
    lower case, and [is_supported] holds exactly when it is '.pdf',
    '.docx' or '.txt'.  For content held in memory the size is its length
    and there is no error.  A BytesIO that carries a name which is not
    empty is known by that name, whatever file name is given; bytes, and
    a BytesIO without a name, are known by the file name given, or as
    'unknown' when none is given; the extension is the lower-cased suffix
    of that name (empty for 'unknown').  For a path, name and suffix are
    those of the path and the size is what [stat] gives; when [stat]
    fails everything is reset, [is_supported] is false and the error is
    the message. *)
Theorem get_file_info_outcomes (input : file_input) (input_name filename : option string)
    (st : state W) :
  exists info st',
    get_file_info stat_size round2 input input_name filename st = (Ok info, st')
    /\ Py.lower (extension info) = extension info
    /\ (is_supported info = true <->
        extension info = ".pdf" \/ extension info = ".docx" \/ extension info = ".txt")
    /\ (forall b, input = RawBytes b \/ input = BytesIO b ->
        size info = Z.of_nat (length b) /\ info_error info = None)
    /\ (forall b n, input = BytesIO b -> input_name = Some n -> n <> "" ->
        name info = n /\ extension info = Py.lower (Py.path_suffix n))
    /\ (forall b,
          input = RawBytes b
          \/ (input = BytesIO b /\ (input_name = None \/ input_name = Some "")) ->
        (forall f, filename = Some f -> f <> "" ->
           name info = f /\ extension info = Py.lower (Py.path_suffix f))
        /\ (filename = None \/ filename = Some "" ->
            name info = "unknown" /\ extension info = ""))
    /\ (forall p sz w, input = FilePath p -> stat_size p (world st) = (Ok sz, w) ->
        name info = Py.path_name p /\ extension info = Py.lower (Py.path_suffix p)
        /\ size info = sz /\ info_error info = None)
    /\ (forall p e w, input = FilePath p -> stat_size p (world st) = (Raise e, w) ->
        is_supported info = false /\ size info = 0 /\ extension info = ""
        /\ info_error info = Some (str_exn e)
        /\ name info = match filename with
                       | Some (String _ _ as f) => f
                       | _ => "unknown"
                       end).
Proof.
  unfold get_file_info, try_except.
  destruct input as [p | b | b].
  - unfold bind at 1. unfold bind at 1. unfold call at 1.
    destruct (stat_size p (world st)) as [[sz | e] w] eqn:Hstat.
    + eexists _, _. split; [reflexivity|].
      cbn [name extension is_supported size info_error].
      split; [apply lower_idem|]. split.
      { rewrite bool_decide_eq_true. apply supported_formats_spec. }
      split; [intros b [? | ?]; discriminate|].
      split; [intros b n ?; discriminate|].
      split; [intros b [? | [? _]]; discriminate|].
      split.
      * intros p' sz' w' [= <-] Hs. rewrite Hstat in Hs. injection Hs as <- _.
        now repeat split.
      * intros p' e w' [= <-] Hs. rewrite Hstat in Hs. discriminate.
    + eexists _, _. split; [reflexivity|].
      cbn [name extension is_supported size info_error].
      split; [reflexivity|]. split.
      { split; [discriminate | intros [? | [? | ?]]; discriminate]. }
      split; [intros b [? | ?]; discriminate|].
      split; [intros b n ?; discriminate|].
      split; [intros b [? | [? _]]; discriminate|].
      split; [intros p' sz' w' [= <-] Hs; rewrite Hstat in Hs; discriminate|].
      intros p' e' w' [= <-] Hs. rewrite Hstat in Hs. injection Hs as <- _.
      repeat split. now destruct filename as [[|c f]|].
  - destruct filename as [[|d f] |];
      (eexists _, _; split; [reflexivity|]);
      cbn [name extension is_supported size info_error];
      (split; [first [apply lower_idem | reflexivity]|]);
      (split; [rewrite bool_decide_eq_true; apply supported_formats_spec|]);
      (split; [intros b' [[= <-] | ?]; [now split | discriminate]|]);
      (split; [intros b' n ?; discriminate|]);
      (split; [|split; intros ? ? ? ?; discriminate]);
      intros b' _;
      (split; [intros f' [= <-] Hf; first [now destruct Hf | now split]
              | try (intros [? | ?]; discriminate); intros _; now split]).
  - destruct input_name as [[|c n] |], filename as [[|d f] |];
      (eexists _, _; split; [reflexivity|]);
      cbn [name extension is_supported size info_error];
      (split; [first [apply lower_idem | reflexivity]|]);
      (split; [rewrite bool_decide_eq_true; apply supported_formats_spec|]);
      (split; [intros b' [? | [= <-]]; [discriminate | now split]|]);
      (split; [intros b' n' _ [= <-] Hn; first [now destruct Hn | now split]|]);
      (split; [|split; intros ? ? ? ?; discriminate]);
      intros b' [? | [_ [? | ?]]]; try discriminate;
      (split; [intros f' [= <-] Hf; first [now destruct Hf | now split]
              | try (intros [? | ?]; discriminate); intros _; now split]).
Qed.

End FileInfoFacts.

(** ** File validation and the other static helpers *)

Section ValidationFacts.
Import DocumentUtils.
Context (fmt1 fmt2 : Q -> string) (round2 : Q -> Q) (formats_order : list string).

Lemma size_mb_over (n max_size_mb : Z) :
  (inject_Z max_size_mb < inject_Z n / inject_Z (1024 * 1024))%Q
  <-> max_size_mb * 1048576 < n.
Proof.
  change (1024 * 1024) with 1048576. unfold Qlt, Qdiv, Qmult, Qinv, inject_Z. cbn. lia.
Qed.

(** [validate_file] accepts a file exactly when its content is not empty
    and not larger than the maximum, and the lower-cased suffix of its
    name is '.pdf', '.docx' or '.txt'.  An accepted file comes with that
    extension and no error; a refused one with an error, and the three
    reasons are tested in the order size, format, emptiness. *)
Theorem validate_file_accepts (file_content : list Byte.byte) (filename : string)
    (max_size_mb : Z) :
  let v := validate_file fmt2 round2 formats_order file_content filename max_size_mb in
  let extension_of_name := Py.lower (Py.path_suffix filename) in
  let too_large := max_size_mb * 1048576 < Z.of_nat (length file_content) in
  let known := extension_of_name = ".pdf" \/ extension_of_name = ".docx"
               \/ extension_of_name = ".txt" in
  (valid v = true <-> ~ too_large /\ known /\ file_content <> [])
  /\ (valid v = true -> extension v = Some extension_of_name /\ error v = None)
  /\ (valid v = false -> error v <> None /\ extension v = None /\ size_mb v = None)
  /\ (too_large ->
      error v = Some ("File too large. Maximum size: " +:+ Py.str_int max_size_mb
                      +:+ "MB, your file: "
                      +:+ fmt2 (inject_Z (Z.of_nat (length file_content))
                                / inject_Z (1024 * 1024))%Q
                      +:+ "MB"))
  /\ (~ too_large -> ~ known ->
      error v = Some ("Unsupported file format. Supported: "
                      +:+ Py.join ", " formats_order))
  /\ (~ too_large -> known -> file_content = [] -> error v = Some "File is empty").
Proof.
  cbv zeta. unfold validate_file. cbv zeta.
  destruct (Qlt_le_dec _ _) as [Hlt | Hle].
  { apply (proj1 (size_mb_over _ _)) in Hlt. cbn [valid extension error size_mb].
    split; [split; [discriminate | tauto] |].
    split; [discriminate |].
    split; [intros _; repeat split; discriminate |].
    split; [reflexivity |].
    split; intros; tauto. }
  assert (Hfit : ~ max_size_mb * 1048576 < Z.of_nat (length file_content)).
  { intros Hover. apply (proj2 (size_mb_over _ _)) in Hover. apply Qle_not_lt in Hle. tauto. }
  destruct (bool_decide _) eqn:Hfmt; cbn [negb].
  - apply bool_decide_eq_true in Hfmt. apply supported_formats_spec in Hfmt.
    destruct (Z.eqb_spec (Z.of_nat (length file_content)) 0) as [Hz | Hnz].
    + assert (Hempty : file_content = [])
        by (destruct file_content; [reflexivity | discriminate]).
      cbn [valid extension error size_mb].
      split; [split; [discriminate | tauto] |].
      split; [discriminate |].
      split; [intros _; repeat split; discriminate |].
      split; [tauto |].
      split; [tauto | reflexivity].
    + assert (Hfull : file_content <> []) by (intros ->; now apply Hnz).
      cbn [valid extension error size_mb].
      split; [split; [tauto | reflexivity] |].
      split; [intros _; split; reflexivity |].
      split; [discriminate |].
      split; [tauto |].
      split; tauto.
  - apply bool_decide_eq_false in Hfmt.
    change (Py.lower (Py.path_suffix filename) ∉ DocumentProcessor.supported_formats)
      in Hfmt.
    rewrite supported_formats_spec in Hfmt.
    cbn [valid extension error size_mb].
    split; [split; [discriminate | tauto] |].
    split; [discriminate |].
    split; [intros _; repeat split; discriminate |].
    split; [tauto |].
    split; [reflexivity | tauto].
Qed.

(** The formats [validate_file] accepts are the ones [extract_text]
    dispatches (the upload path of the application: validate, then extract
    with the lower-cased suffix of the name): for an accepted file the
    extraction is the one of the extension, never the answer 'Unsupported
    file format'. *)
Theorem validated_file_is_dispatched {W} (E : DocumentProcessor.Env W)
    (file_content : list Byte.byte) (filename : string) (max_size_mb : Z)
    (st : state W) :
  valid (validate_file fmt2 round2 formats_order file_content filename max_size_mb)
    = true ->
  let input := DocumentProcessor.BytesIO file_content in
  let file_extension := Py.lower (Py.path_suffix filename) in
  (file_extension = ".pdf"
   /\ DocumentProcessor.extract_text E input file_extension st
      = DocumentProcessor._extract_pdf_text E input st)
  \/ (file_extension = ".docx"
      /\ DocumentProcessor.extract_text E input file_extension st
         = DocumentProcessor._extract_docx_text E input st)
  \/ (file_extension = ".txt"
      /\ DocumentProcessor.extract_text E input file_extension st
         = DocumentProcessor._extract_txt_text E input st).
Proof.
  unfold validate_file. cbv zeta.
  destruct (Qlt_le_dec _ _); [discriminate|].
  destruct (bool_decide _) eqn:Hfmt; cbn [negb]; [|discriminate].
  intros _. apply bool_decide_eq_true in Hfmt. apply supported_formats_spec in Hfmt.
  unfold DocumentProcessor.extract_text. cbv zeta. rewrite lower_idem.
  destruct Hfmt as [Hext | [Hext | Hext]]; rewrite Hext.
  - left. split; [reflexivity|].
    rewrite decide_True by reflexivity.
    apply try_except_unused, extract_pdf_text_returns.
  - right; left. split; [reflexivity|].
    rewrite decide_False by discriminate. rewrite decide_True by reflexivity.
    apply try_except_unused, extract_docx_text_returns.
  - right; right. split; [reflexivity|].
    rewrite !decide_False by discriminate. rewrite decide_True by reflexivity.
    apply try_except_unused, extract_txt_text_returns.
Qed.

End ValidationFacts.

Section ValidationExamples.
Import DocumentUtils.

Lemma validated_file_is_dispatched_witness :
  let content := list_byte_of_string "%PDF-1.4" in
  valid (validate_file (fun _ => "0.00") (fun q => q) [".txt"; ".pdf"; ".docx"]
           content "Report.PDF" 16) = true
  /\ DocumentProcessor.extract_text Samples.one_page_pdf
       (DocumentProcessor.BytesIO content) ".pdf" Samples.st0
     = DocumentProcessor._extract_pdf_text Samples.one_page_pdf
         (DocumentProcessor.BytesIO content) Samples.st0.
Proof.
  cbv zeta.
  assert (H : valid (validate_file (fun _ => "0.00") (fun q => q)
                       [".txt"; ".pdf"; ".docx"]
                       (list_byte_of_string "%PDF-1.4") "Report.PDF" 16) = true)
    by reflexivity.
  split; [exact H|].
  destruct (validated_file_is_dispatched _ _ _ Samples.one_page_pdf _ _ _ Samples.st0 H)
    as [[_ Hrun] | [[Hext _] | [Hext _]]];
    [exact Hrun | discriminate Hext | discriminate Hext].
Defined.

End ValidationExamples.

Section StaticFacts.
Import DocumentUtils.
Context (fmt1 : Q -> string).

Lemma take_prefix n s : exists rest, s = Py.take n s +:+ rest.
Proof.
  revert s. induction n as [|n IH]; intros s.
  - exists s. destruct s; reflexivity.
  - destruct s as [|c s]; [now exists ""|].
    destruct (IH s) as (rest & Hrest). exists rest.
    cbn [Py.take]. change (String c (Py.take n s) +:+ rest)
      with (String c (Py.take n s +:+ rest)). now rewrite <- Hrest.
Qed.

Lemma len_take n s : Py.len (Py.take n s) = Z.min (Z.of_nat n) (Py.len s).
Proof.
  unfold Py.len. revert s. induction n as [|n IH]; intros s.
  - destruct s; cbn [Py.take String.length]; lia.
  - destruct s as [|c s]; cbn [Py.take String.length]; [lia|].
    specialize (IH s). lia.
Qed.

(** [truncate_text] returns a text that fits unchanged.  A longer text is
    cut to a prefix followed by three dots: for a maximum that is not
    negative the prefix has [max_length] characters, so the result has
    [max_length + 3], more than the maximum; for a negative maximum the
    prefix is the text without its last [- max_length] characters (the
    whole result is the three dots when the text is that short). *)
Theorem truncate_text_shape (text : string) (max_length : Z) :
  (Py.len text <= max_length -> truncate_text text max_length = text)
  /\ (max_length < Py.len text ->
      exists kept dropped,
        text = kept +:+ dropped
        /\ truncate_text text max_length = kept +:+ "..."
        /\ Py.len kept = (if 0 <=? max_length then max_length
                          else Z.max 0 (Py.len text + max_length)))
  /\ (0 <= max_length < Py.len text ->
      Py.len (truncate_text text max_length) = max_length + 3).
Proof.
  unfold truncate_text, Py.slice_to.
  split; [|split].
  - intros Hfit. destruct (Z.leb_spec (Py.len text) max_length); [reflexivity | lia].
  - intros Hlong. destruct (Z.leb_spec (Py.len text) max_length); [lia|].
    destruct (Z.leb_spec 0 max_length).
    + destruct (take_prefix (Z.to_nat max_length) text) as (rest & Hrest).
      exists (Py.take (Z.to_nat max_length) text), rest.
      split; [exact Hrest|]. split; [reflexivity|]. rewrite len_take. lia.
    + destruct (take_prefix (Z.to_nat (Py.len text + max_length)) text) as (rest & Hrest).
      exists (Py.take (Z.to_nat (Py.len text + max_length)) text), rest.
      split; [exact Hrest|]. split; [reflexivity|]. rewrite len_take. clear Hrest. unfold Py.len in *. lia.
  - intros [Hpos Hlong]. destruct (Z.leb_spec (Py.len text) max_length); [lia|].
    destruct (Z.leb_spec 0 max_length); [|lia].
    rewrite len_append, len_take. change (Py.len "...") with 3. lia.
Qed.

Lemma underscore_valid : invalid_char "_" = false.
Proof. reflexivity. Qed.

Lemma replace_invalid_valid s :
  Forall (fun c => invalid_char c = false) (list_ascii_of_string (replace_invalid s)).
Proof.
  induction s as [|c s IH]; [constructor|].
  cbn [replace_invalid list_ascii_of_string]. constructor; [|exact IH].
  destruct (invalid_char c) eqn:Hc; [exact underscore_valid | exact Hc].
Qed.

Lemma replace_invalid_fixed s :
  Forall (fun c => invalid_char c = false) (list_ascii_of_string s) ->
  replace_invalid s = s.
Proof.
  induction s as [|c s IH]; [reflexivity|].
  cbn [replace_invalid list_ascii_of_string]. intros Hs.
  apply Forall_cons in Hs as [Hc Hs]. rewrite Hc. now rewrite IH.
Qed.

Lemma len_replace_invalid s : Py.len (replace_invalid s) = Py.len s.
Proof.
  unfold Py.len. induction s as [|c s IH]; [reflexivity|].
  cbn [replace_invalid String.length]. lia.
Qed.

Lemma lstrip_keeps (P : ascii -> Prop) s :
  Forall P (list_ascii_of_string s) -> Forall P (list_ascii_of_string (Py.lstrip s)).
Proof.
  induction s as [|c s IH]; [trivial|].
  cbn [Py.lstrip]. destruct (Py.isspace c); [|trivial].
  cbn [list_ascii_of_string]. intros Hs. apply Forall_cons in Hs as [_ Hs]. auto.
Qed.

Lemma rstrip_keeps (P : ascii -> Prop) s :
  Forall P (list_ascii_of_string s) -> Forall P (list_ascii_of_string (Py.rstrip s)).
Proof.
  induction s as [|c s IH]; [trivial|].
  cbn [list_ascii_of_string]. intros Hs. apply Forall_cons in Hs as [Hc Hs].
  specialize (IH Hs). cbn [Py.rstrip].
  destruct (Py.rstrip s) as [|d r].
  - destruct (Py.isspace c); [constructor|]. cbn [list_ascii_of_string]. now constructor.
  - cbn [list_ascii_of_string] in *. now constructor.
Qed.

Lemma strip_keeps (P : ascii -> Prop) s :
  Forall P (list_ascii_of_string s) -> Forall P (list_ascii_of_string (Py.strip s)).
Proof. intros Hs. unfold Py.strip. now apply rstrip_keeps, lstrip_keeps. Qed.

(** [clean_filename] leaves none of the nine characters it replaces and
    no blank at either end; it is never longer than the name; applied
    again it changes nothing; and a name free of the nine characters is
    only trimmed. *)
Theorem clean_filename_clean (filename : string) :
  let cleaned := clean_filename filename in
  Forall (fun c => invalid_char c = false) (list_ascii_of_string cleaned)
  /\ Py.strip cleaned = cleaned
  /\ Py.len cleaned <= Py.len filename
  /\ clean_filename cleaned = cleaned
  /\ (Forall (fun c => invalid_char c = false) (list_ascii_of_string filename) ->
      cleaned = Py.strip filename).
Proof.
  cbv zeta. unfold clean_filename.
  assert (Hvalid : Forall (fun c => invalid_char c = false)
                     (list_ascii_of_string (Py.strip (replace_invalid filename))))
    by apply strip_keeps, replace_invalid_valid.
  split; [exact Hvalid|].
  split; [apply strip_idem|].
  split.
  { pose proof (len_strip (replace_invalid filename)) as Hlen.
    rewrite len_replace_invalid in Hlen. exact Hlen. }
  split.
  - rewrite (replace_invalid_fixed _ Hvalid). apply strip_idem.
  - intros Hname. now rewrite (replace_invalid_fixed _ Hname).
Qed.

Lemma Qle_bool_1024 (n : Z) : Qle_bool 1024 (inject_Z n) = (1024 <=? n).
Proof.
  unfold Qle_bool, inject_Z. cbn [Qnum Qden].
  apply eq_iff_eq_true. rewrite !Z.leb_le. lia.
Qed.

Lemma Qle_bool_1024_KB (n : Z) :
  Qle_bool 1024 (inject_Z n / 1024) = (1048576 <=? n).
Proof.
  unfold Qle_bool, Qdiv, Qmult, Qinv, inject_Z. cbn.
  apply eq_iff_eq_true. rewrite !Z.leb_le. lia.
Qed.

Lemma Qle_bool_1024_MB (n : Z) :
  Qle_bool 1024 (inject_Z n / 1024 / 1024) = (1073741824 <=? n).
Proof.
  unfold Qle_bool, Qdiv, Qmult, Qinv, inject_Z. cbn.
  apply eq_iff_eq_true. rewrite !Z.leb_le. lia.
Qed.

(** The unit [format_file_size] picks, for sizes a float holds exactly:
    '0B' for zero; bytes below 1024 (a negative size included); then one
    division by 1024 per unit, KB below 1024^2, MB below 1024^3 and GB
    for everything from 1024^3 on, since GB is the last unit. *)
Theorem format_file_size_units (size_bytes : Z) :
  let b := inject_Z size_bytes in
  (size_bytes = 0 -> format_file_size fmt1 size_bytes = "0B")
  /\ (- 2 ^ 53 < size_bytes < 1024 -> size_bytes <> 0 ->
      format_file_size fmt1 size_bytes = fmt1 b +:+ " B")
  /\ (1024 <= size_bytes < 1024 ^ 2 ->
      format_file_size fmt1 size_bytes = fmt1 (b / 1024)%Q +:+ " KB")
  /\ (1024 ^ 2 <= size_bytes < 1024 ^ 3 ->
      format_file_size fmt1 size_bytes = fmt1 (b / 1024 / 1024)%Q +:+ " MB")
  /\ (1024 ^ 3 <= size_bytes < 2 ^ 53 ->
      format_file_size fmt1 size_bytes = fmt1 (b / 1024 / 1024 / 1024)%Q +:+ " GB").
Proof.
  cbv zeta. unfold format_file_size. cbv zeta.
  change (length ["B"; "KB"; "MB"; "GB"] - 1)%nat with 3%nat.
  split; [intros ->; reflexivity|].
  split; [|split; [|split]]; intros Hrange; try intros Hnz;
    (destruct (Z.eqb_spec size_bytes 0) as [Hz | _]; [lia|]);
    cbn [size_loop]; rewrite Qle_bool_1024.
  - destruct (Z.leb_spec 1024 size_bytes); [lia | reflexivity].
  - destruct (Z.leb_spec 1024 size_bytes); [|lia].
    rewrite Qle_bool_1024_KB.
    destruct (Z.leb_spec 1048576 size_bytes); [lia | reflexivity].
  - destruct (Z.leb_spec 1024 size_bytes); [|lia].
    rewrite Qle_bool_1024_KB.
    destruct (Z.leb_spec 1048576 size_bytes); [|lia].
    rewrite Qle_bool_1024_MB.
    destruct (Z.leb_spec 1073741824 size_bytes); [lia | reflexivity].
  - destruct (Z.leb_spec 1024 size_bytes); [|lia].
    rewrite Qle_bool_1024_KB.
    destruct (Z.leb_spec 1048576 size_bytes); [|lia].
    rewrite Qle_bool_1024_MB.
    destruct (Z.leb_spec 1073741824 size_bytes); [reflexivity | lia].
Qed.

End StaticFacts.

(** ** Temporary files *)

Section TempFileFacts.
Import DocumentUtils.
Context {W : Type}
  (named_temp_file : string -> list Byte.byte -> W -> outcome string * W)
  (os_path_exists : string -> W -> outcome bool * W)
  (os_unlink : string -> W -> outcome unit * W).

(** [cleanup_temp_file] never raises: a failure of [os.path.exists] or of
    [os.unlink] ends in one warning that names the file.  [os.unlink] is
    called only for a file that exists: for a missing one the call to
    [os.path.exists] is all that happens. *)
Theorem cleanup_temp_file_quiet (file_path : string) (st : state W) :
  let run := cleanup_temp_file os_path_exists os_unlink file_path st in
  fst run = Ok tt
  /\ (forall w, os_path_exists file_path (world st) = (Ok false, w) ->
      run = (Ok tt, mkState w (trace st ++ [EvLib "os.path.exists"])))
  /\ (forall e w, os_path_exists file_path (world st) = (Raise e, w) ->
      run = (Ok tt, mkState w (trace st ++
               [EvLib "os.path.exists";
                EvLog "warning" ("Could not remove temp file " +:+ file_path
                                 +:+ ": " +:+ str_exn e)])))
  /\ (forall w e w', os_path_exists file_path (world st) = (Ok true, w) ->
      os_unlink file_path w = (Raise e, w') ->
      run = (Ok tt, mkState w' (trace st ++
               [EvLib "os.path.exists"; EvLib "os.unlink";
                EvLog "warning" ("Could not remove temp file " +:+ file_path
                                 +:+ ": " +:+ str_exn e)]))).
Proof.
  cbv zeta. unfold cleanup_temp_file, try_except, bind, call, log, ret.
  cbn [world trace].
  destruct (os_path_exists file_path (world st)) as [[[|]|e] w] eqn:Hexists.
  - cbn [world trace]. destruct (os_unlink file_path w) as [[[]|e] w'] eqn:Hunlink.
    + cbn [fst]. split; [reflexivity|]. split; [discriminate|]. split; [discriminate|].
      intros w0 e w1 Heq. injection Heq as <-. rewrite Hunlink. discriminate.
    + cbn [fst world trace]. split; [reflexivity|].
      split; [discriminate|]. split; [discriminate|].
      intros w0 e0 w1 Heq. injection Heq as <-. rewrite Hunlink.
      intros Heq. injection Heq as <- <-. now rewrite <- !app_assoc.
  - cbn [fst]. split; [reflexivity|].
    split; [intros w0 Heq; now injection Heq as <- |].
    split; discriminate.
  - cbn [fst world trace]. split; [reflexivity|]. split; [discriminate|].
    split; [|discriminate].
    intros e0 w0 Heq. injection Heq as <- <-. now rewrite <- app_assoc.
Qed.

(** [save_temp_file] hands the suffix of the file name to
    [NamedTemporaryFile] and returns the name of the file written; when
    that raises, the error is logged and the same exception is raised
    again. *)
Theorem save_temp_file_reraises (content : list Byte.byte) (filename : string)
    (st : state W) :
  let create := named_temp_file (Py.path_suffix filename) content (world st) in
  let run := save_temp_file named_temp_file content filename st in
  (forall path w, create = (Ok path, w) ->
     run = (Ok path, mkState w (trace st ++ [EvLib "tempfile.NamedTemporaryFile"])))
  /\ (forall e w, create = (Raise e, w) ->
     run = (Raise e, mkState w (trace st ++
              [EvLib "tempfile.NamedTemporaryFile";
               EvLog "error" ("Error saving temp file: " +:+ str_exn e)]))).
Proof.
  cbv zeta. unfold save_temp_file, try_except, bind, call, log, raise.
  cbv zeta. split.
  - intros path w ->. reflexivity.
  - intros e w ->. cbn [world trace]. now rewrite <- app_assoc.
Qed.

End TempFileFacts.

(** ** The language selectors of the application *)

Section SelectorFacts.
Import App.

Lemma split_str_first (code rest : string) :
  Forall (fun c => Py.isspace c = false) (list_ascii_of_string code) ->
  exists others, Py.split_str " - " (code +:+ " - " +:+ rest) = code :: others.
Proof.
  unfold Py.split_str. induction code as [|c code IH]; intros Hcode.
  - change ("" +:+ " - " +:+ rest) with (String " " (String "-" (String " " rest))).
    cbn [Py.split_str_go].
    assert (Hprefix : String.prefix " - " (String " " (String "-" (String " " rest)))
                      = true) by (destruct rest; reflexivity).
    rewrite Hprefix. now eexists.
  - cbn [list_ascii_of_string] in Hcode. apply Forall_cons in Hcode as [Hc Hcode].
    destruct (IH Hcode) as (others & Hothers).
    change (String c code +:+ " - " +:+ rest)
      with (String c (code +:+ " - " +:+ rest)).
    cbn [Py.split_str_go].
    assert (Hprefix : String.prefix " - " (String c (code +:+ " - " +:+ rest)) = false).
    { cbn [String.prefix]. destruct (ascii_dec " " c) as [<-|]; [discriminate | reflexivity]. }
    rewrite Hprefix, Hothers. now eexists.
Qed.

Lemma strip_plain (s : string) :
  Forall (fun c => Py.isspace c = false) (list_ascii_of_string s) -> Py.strip s = s.
Proof.
  intros Hs. unfold Py.strip.
  assert (Hl : Py.lstrip s = s).
  { destruct s as [|c s]; [reflexivity|].
    cbn [list_ascii_of_string] in Hs. apply Forall_cons in Hs as [Hc _].
    cbn [Py.lstrip]. now rewrite Hc. }
  rewrite Hl. clear Hl. induction s as [|c s IH]; [reflexivity|].
  cbn [list_ascii_of_string] in Hs. apply Forall_cons in Hs as [Hc Hs].
  cbn [Py.rstrip]. rewrite (IH Hs), Hc. now destruct s.
Qed.

Lemma prefix_auto_label (code rest : string) :
  String.prefix "auto" (code +:+ " - " +:+ rest) = String.prefix "auto" code.
Proof.
  destruct code as [|a [|b [|c [|d code]]]];
    repeat match goal with
           | |- context [String ?x ?s +:+ ?t] =>
               change (String x s +:+ t) with (String x (s +:+ t))
           | |- context ["" +:+ ?t] => change ("" +:+ t) with t
           end;
    cbn [String.prefix];
    repeat match goal with
           | |- context [ascii_dec ?x ?y] => destruct (ascii_dec x y); try discriminate
           end;
    try reflexivity.
  destruct code; [reflexivity|]. change (String ?x ?s +:+ ?t) with (String x (s +:+ t)). reflexivity.
Qed.

(** The selectors show a language as its code, ' - ' and its name, and the
    application reads the code back from the label picked: for a code
    without whitespace (as the codes of [supported_languages] are) the
    target selector gives back the code, and so does the source selector
    unless the code begins with 'auto', which it reads as 'auto'. *)
Theorem lang_option_round_trip (code name : string) :
  Forall (fun c => Py.isspace c = false) (list_ascii_of_string code) ->
  target_lang_code (lang_option code name) = code
  /\ source_lang_code (lang_option code name)
     = (if String.prefix "auto" code then "auto" else code).
Proof.
  intros Hcode. unfold target_lang_code, source_lang_code, lang_option.
  destruct (split_str_first code name Hcode) as (others & ->).
  rewrite prefix_auto_label, (strip_plain _ Hcode).
  split; [reflexivity|]. now destruct (String.prefix "auto" code).
Qed.

Lemma lang_option_round_trip_witness :
  Forall (fun c => Py.isspace c = false) (list_ascii_of_string "hi")
  /\ target_lang_code (lang_option "hi" "Hindi") = "hi"
  /\ source_lang_code (lang_option "hi" "Hindi") = "hi".
Proof.
  assert (H : Forall (fun c => Py.isspace c = false) (list_ascii_of_string "hi"))
    by (repeat constructor).
  split; [exact H|]. exact (lang_option_round_trip "hi" "Hindi" H).
Defined.

End SelectorFacts.

(** ** Wrapping of long lines in the PDF *)

Section WrappingFacts.
Import DocumentUtils.

Lemma split_on_nonempty sep s : Py.split_on sep s <> [].
Proof.
  destruct s as [|c s]; [discriminate|]. cbn [Py.split_on].
  destruct (Ascii.eqb c sep); [discriminate|].
  destruct (Py.split_on sep s); discriminate.
Qed.

(** The pieces of [s.split(sep)], each followed by the separator, are [s]
    followed by the separator. *)
Lemma split_on_glue sep s :
  foldr (fun w acc => w +:+ String sep acc) "" (Py.split_on sep s) = s +:+ String sep "".
Proof.
  induction s as [|c s IH]; [reflexivity|].
  cbn [Py.split_on]. destruct (Ascii.eqb_spec c sep) as [-> | Hc].
  - cbn [foldr]. rewrite IH. reflexivity.
  - destruct (Py.split_on sep s) as [|w ws] eqn:Hsplit;
      [now apply split_on_nonempty in Hsplit|].
    cbn [foldr] in *.
    change (String c w +:+ String sep (foldr (fun w acc => w +:+ String sep acc) "" ws))
      with (String c (w +:+ String sep (foldr (fun w acc => w +:+ String sep acc) "" ws))).
    now rewrite IH.
Qed.

Lemma write_rows_app {W P} (E : Env W P) pdf rows1 rows2 st :
  write_rows E pdf (rows1 ++ rows2) st
  = (write_rows E pdf rows1 ;;; write_rows E pdf rows2) st.
Proof.
  revert st. induction rows1 as [|row rows1 IH]; intros st; [reflexivity|].
  cbn [app write_rows]. unfold bind in *.
  destruct (pdf_cell E pdf 0 6 row "" st) as [[[]|e] st1]; [apply IH | reflexivity].
Qed.

Lemma wrap_loop_pieces (all : list string) (words : list string) :
  forall current_line,
    (forall w, In w words -> In w all) ->
    fits_or_word all current_line ->
    exists pieces final,
      foldr String.append final pieces
        = current_line +:+ foldr (fun w acc => w +:+ String " " acc) "" words
      /\ Forall (fun p => p <> "" /\ fits_or_word all p) pieces
      /\ fits_or_word all final
      /\ forall W P (E : Env W P) pdf st,
           wrap_loop E pdf words current_line st
           = (write_rows E pdf (map Py.strip pieces) ;;; ret final) st.
Proof.
  induction words as [|word rest IH]; intros current_line Hall Hcur.
  - exists [], current_line. cbn [foldr map write_rows wrap_loop].
    rewrite append_empty_r. repeat split; [constructor | exact Hcur].
  - assert (Hrest : forall w, In w rest -> In w all) by (intros w Hw; apply Hall; now right).
    cbn [wrap_loop foldr].
    destruct (Z.gtb_spec (Py.len (current_line +:+ word +:+ " ")) 80) as [Hover | Hfit].
    + destruct (IH (word +:+ " ") Hrest) as (pieces & final & Hglue & Hpieces & Hfinal & Hrun).
      { right. exists word. split; [apply Hall; now left | reflexivity]. }
      destruct current_line as [|c current_line].
      * exists pieces, final. split; [|split; [|split]]; [| exact Hpieces | exact Hfinal |].
        { rewrite Hglue. change ("" +:+ ?x) with x. now rewrite append_assoc. }
        intros W P E pdf st. cbn [Py.truthy]. exact (Hrun W P E pdf st).
      * exists (String c current_line :: pieces), final.
        split; [|split; [|split]]; [| | exact Hfinal |].
        { cbn [foldr]. rewrite Hglue. f_equal. now rewrite append_assoc. }
        { constructor; [|exact Hpieces]. split; [discriminate | exact Hcur]. }
        intros W P E pdf st. cbn [Py.truthy map write_rows].
        unfold bind in *.
        destruct (pdf_cell E pdf 0 6 (Py.strip (String c current_line)) "" st)
          as [[[]|e] st1]; [exact (Hrun W P E pdf st1) | reflexivity].
    + destruct (IH (current_line +:+ word +:+ " ") Hrest)
        as (pieces & final & Hglue & Hpieces & Hfinal & Hrun).
      { left. exact Hfit. }
      exists pieces, final. split; [|split; [|split]];
        [| exact Hpieces | exact Hfinal | exact Hrun].
      rewrite Hglue. now rewrite !append_assoc.
Qed.

(** A line of more than 80 characters that is not blank is written as
    rows that are the trimmed pieces of a cut of the line (with one blank
    added at its end): the pieces in order give the line back, none is
    empty, and each fits in 80 characters or is one single word of the
    line with its blank.  Nothing but these rows is written for the line,
    whatever the FPDF does. *)
Theorem lines_loop_wraps (line : string) :
  80 < Py.len line -> Py.truthy (Py.strip line) = true ->
  exists pieces,
    foldr String.append "" pieces = line +:+ " "
    /\ Forall (fun p => p <> "" /\ fits_or_word (Py.split_on " " line) p) pieces
    /\ forall W P (E : Env W P) pdf rest st,
         lines_loop E pdf (line :: rest) st
         = (write_rows E pdf (map Py.strip pieces) ;;; lines_loop E pdf rest) st.
Proof.
  intros Hlong Hblank.
  destruct (wrap_loop_pieces (Py.split_on " " line) (Py.split_on " " line) "")
    as (pieces & final & Hglue & Hpieces & Hfinal & Hrun).
  { trivial. }
  { left. change (Py.len "") with 0. lia. }
  rewrite split_on_glue in Hglue. change ("" +:+ (line +:+ " ")) with (line +:+ " ") in Hglue.
  assert (Hcond : (Py.len line >? 80) = true) by (apply Z.gtb_lt; lia).
  destruct final as [|c final].
  - exists pieces. split; [exact Hglue|]. split; [exact Hpieces|].
    intros W P E pdf rest st. cbn [lines_loop]. rewrite Hblank, Hcond.
    unfold bind at 1 2. rewrite Hrun. unfold bind.
    destruct (write_rows E pdf (map Py.strip pieces) st) as [[[]|e] st1]; reflexivity.
  - exists (pieces ++ [String c final]).
    split; [|split].
    + rewrite foldr_app. cbn [foldr]. now rewrite append_empty_r.
    + apply Forall_app. split; [exact Hpieces|].
      constructor; [|constructor]. split; [discriminate | exact Hfinal].
    + intros W P E pdf rest st. cbn [lines_loop]. rewrite Hblank, Hcond.
      rewrite map_app. cbn [map].
      unfold bind at 1 2. rewrite Hrun. unfold bind. rewrite write_rows_app. unfold bind.
      destruct (write_rows E pdf (map Py.strip pieces) st) as [[[]|e] st1];
        [|reflexivity].
      cbn [ret Py.truthy write_rows]. unfold bind.
      destruct (pdf_cell E pdf 0 6 (Py.strip (String c final)) "" st1) as [[[]|e] st2];
        reflexivity.
Qed.

Lemma lines_loop_wraps_witness :
  let line := "the quick brown fox jumps over the lazy dog and keeps running "
              +:+ "through the forest until night falls" in
  80 < Py.len line
  /\ Py.truthy (Py.strip line) = true
  /\ exists pieces,
       foldr String.append "" pieces = line +:+ " "
       /\ Forall (fun p => p <> "" /\ fits_or_word (Py.split_on " " line) p) pieces
       /\ forall W P (E : Env W P) pdf rest st,
            lines_loop E pdf (line :: rest) st
            = (write_rows E pdf (map Py.strip pieces) ;;; lines_loop E pdf rest) st.
Proof.
  cbv zeta.
  split; [reflexivity|]. split; [reflexivity|].
  apply lines_loop_wraps; reflexivity.
Defined.

(** The wrapping at work on a recording FPDF: two rows, cut at a blank. *)
Example lines_loop_two_rows :
  Samples.rows
    (world (snd (lines_loop Samples.recording_fpdf tt
                   ["the quick brown fox jumps over the lazy dog and keeps running "
                    +:+ "through the forest until night falls"]
                   (mkState [] []))))
  = ["the quick brown fox jumps over the lazy dog and keeps running through the";
     "forest until night falls"].
Proof. vm_compute. reflexivity. Qed.

End WrappingFacts.
